(** * HD44780 over PCF8574 (I2C), 4-bit mode: shallow embedding of HD44780.c

    The driver talks to the display through three HAL calls
    (HAL_I2C_Master_Transmit, HAL_I2C_Master_Receive, HAL_Delay) and keeps
    its own bookkeeping in a handle structure plus one file-static byte
    (AddressCounter).  The embedding threads a [world] through a small
    monad: the world holds the handle, the static, the state of whatever
    sits on the bus, and the trace of HAL calls made so far.  A timeout
    ends in HD44780_Error_Handler, whose loop has an empty body; that is a
    second kind of outcome ([Spin]). *)

From Stdlib Require Import ZArith Lia Bool List.
From stdpp Require Import base list.
Import ListNotations.
Local Open Scope Z_scope.

(** ** HD44780.h: user and driver defines *)

Definition HD44780_NUM_ROWS : Z := 2.
Definition HD44780_NUM_COLS : Z := 16.

Definition HD44780_RS : Z := Z.shiftl 1 0.
Definition HD44780_RW : Z := Z.shiftl 1 1.
Definition HD44780_EN : Z := Z.shiftl 1 2.
Definition HD44780_BACKLIGHT : Z := Z.shiftl 1 3.
Definition HD44780_FUNCTION_SET : Z := Z.shiftl 1 5.

Definition HD44780_NUM_ELEMENTS : Z := HD44780_NUM_ROWS * HD44780_NUM_COLS.

(** ** HD44780.h: enums and the handle *)

Inductive HD44780_State := HD44780_READY | HD44780_BUSY | HD44780_TIMEOUT.

Inductive LCD1602_State := LCD1602_ON | LCD1602_OFF.

Inductive HD44780_User_Command_List :=
| CLEAR_DISPLAY
| RETURN_HOME
| DISPLAY_ON
| DISPLAY_OFF
| CURSOR_ON
| CURSOR_OFF
| CURSOR_BLINK
| CURSOR_UNBLINK.

(** [Cursor_Position] is the two-element array (row, column); [Text] is the
    [char Text[HD44780_NUM_ELEMENTS]] array.  The I2C handle pointer of the
    C structure is the bus itself, which lives in the [world] below. *)
Record HD44780_HandleTypeDef := Handle {
  Cursor_Position : Z * Z;
  Text : list Z;
  State : HD44780_State;
  PowerState : LCD1602_State
}.

Definition set_Cursor_Position (p : Z * Z) (h : HD44780_HandleTypeDef) :=
  Handle p (Text h) (State h) (PowerState h).
Definition set_Text (t : list Z) (h : HD44780_HandleTypeDef) :=
  Handle (Cursor_Position h) t (State h) (PowerState h).
Definition set_State (s : HD44780_State) (h : HD44780_HandleTypeDef) :=
  Handle (Cursor_Position h) (Text h) s (PowerState h).
Definition set_PowerState (p : LCD1602_State) (h : HD44780_HandleTypeDef) :=
  Handle (Cursor_Position h) (Text h) (State h) p.

Definition State_eqb (a b : HD44780_State) : bool :=
  match a, b with
  | HD44780_READY, HD44780_READY
  | HD44780_BUSY, HD44780_BUSY
  | HD44780_TIMEOUT, HD44780_TIMEOUT => true
  | _, _ => false
  end.

(** Conversion to [uint8_t]. *)
Definition u8 (z : Z) : Z := z mod 256.

(** ** The bus

    What answers on the I2C bus is not part of the driver.  Anything with
    these four reactions can be plugged in; the driver ignores the HAL
    status codes, so a failed transfer is just another reaction. *)
Class Bus (D : Type) := {
  bus_probe : D -> bool * D;      (* HAL_I2C_IsDeviceReady(...) == HAL_OK *)
  bus_write : Z -> D -> D;        (* one byte written to the expander *)
  bus_read : D -> Z * D;          (* one byte read from the expander *)
  bus_elapse : Z -> D -> D        (* milliseconds passing *)
}.

(** HAL calls, in the order made. *)
Inductive event :=
| I2C_Tx (b : Z)
| I2C_Rx (b : Z)
| I2C_Probe (ok : bool)
| Delay (ms : Z)
| Error_Handler_Entered.

Section Driver.
Context {D : Type} `{!Bus D}.

Record world := World {
  handle : HD44780_HandleTypeDef;
  AddressCounter : Z;             (* static uint8_t AddressCounter *)
  device : D;
  trace : list event
}.

(** Outcome of running driver code: it returns, or control stays in the
    loop of HD44780_Error_Handler for ever. *)
Inductive outcome (A : Type) :=
| Ret (a : A) (w : world)
| Spin (w : world).
Global Arguments Ret {A} a w.
Global Arguments Spin {A} w.

Definition M (A : Type) := world -> outcome A.

Definition ret {A} (a : A) : M A := fun w => Ret a w.
Definition bind {A B} (m : M A) (k : A -> M B) : M B :=
  fun w => match m w with
           | Ret a w' => k a w'
           | Spin w' => Spin w'
           end.

Definition final {A} (o : outcome A) : world :=
  match o with Ret _ w => w | Spin w => w end.

Definition returned {A} (o : outcome A) : bool :=
  match o with Ret _ _ => true | Spin _ => false end.

Definition get_handle : M HD44780_HandleTypeDef := fun w => Ret (handle w) w.
Definition modify_handle (f : HD44780_HandleTypeDef -> HD44780_HandleTypeDef) : M unit :=
  fun w => Ret tt (World (f (handle w)) (AddressCounter w) (device w) (trace w)).
Definition get_AddressCounter : M Z := fun w => Ret (AddressCounter w) w.
Definition put_AddressCounter (a : Z) : M unit :=
  fun w => Ret tt (World (handle w) a (device w) (trace w)).

(** *** HAL *)

Definition HAL_I2C_Master_Transmit (b : Z) : M unit :=
  fun w => Ret tt (World (handle w) (AddressCounter w)
                         (bus_write b (device w)) (trace w ++ [I2C_Tx b])).

(** The byte left in the [uint8_t] receive buffer after the call. *)
Definition HAL_I2C_Master_Receive : M Z :=
  fun w => let '(b, d) := bus_read (device w) in
           Ret (u8 b) (World (handle w) (AddressCounter w) d
                             (trace w ++ [I2C_Rx (u8 b)])).

Definition HAL_Delay (ms : Z) : M unit :=
  fun w => Ret tt (World (handle w) (AddressCounter w)
                         (bus_elapse ms (device w)) (trace w ++ [Delay ms])).

Definition HAL_I2C_IsDeviceReady : M bool :=
  fun w => let '(ok, d) := bus_probe (device w) in
           Ret ok (World (handle w) (AddressCounter w) d
                         (trace w ++ [I2C_Probe ok])).
End Driver.

Global Arguments world D : clear implicits.
Global Arguments outcome D A : clear implicits.
Global Arguments M D A : clear implicits.

Declare Scope drv_scope.
Delimit Scope drv_scope with drv.
Notation "x <- m ;; k" := (bind m (fun x => k))
  (at level 100, m at next level, right associativity) : drv_scope.
Notation "m ;; k" := (bind m (fun _ => k))
  (at level 100, right associativity) : drv_scope.

Local Open Scope drv_scope.

(** ** HD44780.c *)

Section DriverCode.
Context {D : Type} `{!Bus D}.

Definition set_handle_State (s : HD44780_State) : M D unit :=
  modify_handle (set_State s).

(** *** Private functions *)

(** Lines 32-74.  [ReadCommand], [ReadBuffer], [Data_7_4], [Data_3_0]
    and [Data] are the locals of the C function. *)
Definition HD44780_Check_Status : M D unit :=
  let ReadCommand := Z.lor (Z.lor 0xF0 HD44780_BACKLIGHT) HD44780_RW in
  HAL_I2C_Master_Transmit ReadCommand ;;
  HAL_Delay 1 ;;
  let ReadCommand := Z.lor ReadCommand HD44780_EN in
  HAL_I2C_Master_Transmit ReadCommand ;;
  HAL_Delay 1 ;;
  ReadBuffer <- HAL_I2C_Master_Receive ;;
  let Data_7_4 := Z.land ReadBuffer 0xF0 in
  let ReadCommand := Z.land ReadCommand (Z.lnot HD44780_EN) in
  HAL_I2C_Master_Transmit ReadCommand ;;
  HAL_Delay 1 ;;
  let ReadCommand := Z.lor ReadCommand HD44780_EN in
  HAL_I2C_Master_Transmit ReadCommand ;;
  HAL_Delay 1 ;;
  ReadBuffer <- HAL_I2C_Master_Receive ;;
  let Data_3_0 := Z.land (Z.shiftr ReadBuffer 4) 0x0F in
  let ReadCommand := Z.land ReadCommand (Z.lnot HD44780_EN) in
  HAL_I2C_Master_Transmit ReadCommand ;;
  HAL_Delay 1 ;;
  let Data := Z.lor Data_7_4 Data_3_0 in
  if negb (Z.land Data (Z.shiftl 1 7) =? 0) then
    set_handle_State HD44780_BUSY
  else
    put_AddressCounter (Z.land Data (Z.lnot (Z.shiftl 1 7))) ;;
    set_handle_State HD44780_READY.

(** Lines 185-193: [while (State != HD44780_READY) { }].  The body is
    empty, so the test gives the same answer every time round: the call
    returns at once when State is already READY and never otherwise. *)
Definition HD44780_Error_Handler : M D unit :=
  fun w =>
    let w := World (handle w) (AddressCounter w) (device w)
                   (trace w ++ [Error_Handler_Entered]) in
    if State_eqb (State (handle w)) HD44780_READY then Ret tt w else Spin w.

(** The polling loop shared by lines 110-115 and 164-169:
    [for (i = 0; i < n; i++) { Check_Status; if (State == READY) return; }].
    The result says whether the enclosing function returned from inside
    the loop. *)
Fixpoint wait_ready (n : nat) : M D bool :=
  match n with
  | O => ret false
  | S n' =>
      HD44780_Check_Status ;;
      h <- get_handle ;;
      if State_eqb (State h) HD44780_READY then ret true
      else wait_ready n'
  end.

(** Lines 108-124 and 162-177. *)
Definition confirm_busy_clear (CheckBusyFlag : bool) : M D unit :=
  if CheckBusyFlag then
    done <- wait_ready 20 ;;
    if done then ret tt
    else
      set_handle_State HD44780_TIMEOUT ;;
      HD44780_Error_Handler
  else
    set_handle_State HD44780_READY.

(** Lines 83-125. *)
Definition HD44780_Send_Command (Command : Z) (CheckBusyFlag : bool) : M D unit :=
  set_handle_State HD44780_BUSY ;;
  let WriteCommand := 0 in
  let Command_7_4 := Z.land 0xF0 Command in
  let Command_3_0 := Z.land 0xF0 (Z.shiftl Command 4) in
  let WriteCommand :=
    Z.lor WriteCommand (Z.lor (Z.lor Command_7_4 HD44780_BACKLIGHT) HD44780_EN) in
  HAL_I2C_Master_Transmit WriteCommand ;;
  HAL_Delay 1 ;;
  let WriteCommand := Z.land WriteCommand (Z.lnot HD44780_EN) in
  HAL_I2C_Master_Transmit WriteCommand ;;
  HAL_Delay 1 ;;
  let WriteCommand := Z.land WriteCommand 0x0F in
  let WriteCommand :=
    Z.lor WriteCommand (Z.lor (Z.lor Command_3_0 HD44780_BACKLIGHT) HD44780_EN) in
  HAL_I2C_Master_Transmit WriteCommand ;;
  HAL_Delay 1 ;;
  let WriteCommand := Z.land WriteCommand (Z.lnot HD44780_EN) in
  HAL_I2C_Master_Transmit WriteCommand ;;
  HAL_Delay 1 ;;
  confirm_busy_clear CheckBusyFlag.

(** Lines 133-178. *)
Definition HD44780_Send_Data (Command : Z) (CheckBusyFlag : bool) : M D unit :=
  set_handle_State HD44780_BUSY ;;
  let WriteCommand := 0 in
  let Command_7_4 := Z.land 0xF0 Command in
  let Command_3_0 := Z.land 0xF0 (Z.shiftl Command 4) in
  let WriteCommand := Z.lor WriteCommand (Z.lor HD44780_BACKLIGHT HD44780_RS) in
  HAL_I2C_Master_Transmit WriteCommand ;;
  HAL_Delay 1 ;;
  let WriteCommand :=
    Z.lor WriteCommand
          (Z.lor (Z.lor (Z.lor Command_7_4 HD44780_BACKLIGHT) HD44780_EN) HD44780_RS) in
  HAL_I2C_Master_Transmit WriteCommand ;;
  HAL_Delay 1 ;;
  let WriteCommand := Z.land WriteCommand (Z.lnot HD44780_EN) in
  HAL_I2C_Master_Transmit WriteCommand ;;
  HAL_Delay 1 ;;
  let WriteCommand := Z.land WriteCommand 0x0F in
  let WriteCommand :=
    Z.lor WriteCommand
          (Z.lor (Z.lor (Z.lor Command_3_0 HD44780_BACKLIGHT) HD44780_EN) HD44780_RS) in
  HAL_I2C_Master_Transmit WriteCommand ;;
  HAL_Delay 1 ;;
  let WriteCommand := Z.land WriteCommand (Z.lnot HD44780_EN) in
  HAL_I2C_Master_Transmit WriteCommand ;;
  HAL_Delay 1 ;;
  confirm_busy_clear CheckBusyFlag.

(** Line 204-214, the translation itself: [AddressCopy] to (row, column). *)
Definition cursor_of_address (AddressCopy : Z) : Z * Z :=
  if AddressCopy <? 40 then (0, AddressCopy)
  else (1, u8 (AddressCopy - 64)).

(** Lines 201-215. *)
Definition HD44780_Get_Cursor_Position : M D unit :=
  HD44780_Check_Status ;;
  AddressCopy <- get_AddressCounter ;;
  modify_handle (set_Cursor_Position (cursor_of_address AddressCopy)).

(** Lines 221-226: [for (i = 0; i < HD44780_NUM_ELEMENTS; i++) Text[i] = 0]. *)
Fixpoint clear_from (i : nat) (n : nat) (t : list Z) : list Z :=
  match n with
  | O => t
  | S n' => clear_from (S i) n' (<[i := 0]> t)
  end.

Definition Clear_Text_Buffer : M D unit :=
  modify_handle (fun h => set_Text (clear_from 0 (Z.to_nat HD44780_NUM_ELEMENTS) (Text h)) h).

(** *** Public functions *)

(** Lines 412-430.  [|] on the two comparison results is [orb]. *)
Definition HD44780_Set_Cursor_Position (row column : Z) : M D unit :=
  if (row >=? HD44780_NUM_ROWS) || (column >=? HD44780_NUM_COLS) then ret tt
  else if row =? 0 then
    let Command := Z.lor 0x80 column in
    HD44780_Send_Command Command true
  else
    let Command := Z.lor (Z.lor 0x80 0x40) column in
    HD44780_Send_Command Command true.

(** Lines 306-370. *)
Definition HD44780_Transmit_Command (UserCommand : HD44780_User_Command_List) : M D unit :=
  h <- get_handle ;;
  match PowerState h with
  | LCD1602_ON =>
      match UserCommand with
      | CLEAR_DISPLAY =>
          HD44780_Send_Command 0x01 true ;;
          Clear_Text_Buffer ;;
          modify_handle (set_Cursor_Position (0, 0))
      | RETURN_HOME =>
          HD44780_Send_Command 0x02 true ;;
          modify_handle (set_Cursor_Position (0, 0))
      | DISPLAY_OFF =>
          HAL_I2C_Master_Transmit 0 ;;
          modify_handle (set_PowerState LCD1602_OFF)
      | CURSOR_ON => HD44780_Send_Command 0x0E true
      | CURSOR_OFF => HD44780_Send_Command 0x0C true
      | CURSOR_BLINK => HD44780_Send_Command 0x0D true
      | CURSOR_UNBLINK => HD44780_Send_Command 0x0C true
      | _ => ret tt
      end
  | LCD1602_OFF =>
      match UserCommand with
      | DISPLAY_ON =>
          HAL_I2C_Master_Transmit HD44780_BACKLIGHT ;;
          modify_handle (set_PowerState LCD1602_ON)
      | _ => ret tt
      end
  end.

(** A C string is given by the bytes that start at the pointer; [strlen]
    counts up to the first zero byte (the terminator follows the list
    when the list holds none). *)
Fixpoint strlen (str : list Z) : nat :=
  match str with
  | [] => O
  | c :: rest => if c =? 0 then O else S (strlen rest)
  end.

(** Lines 388-400, the loop from iteration [i] on; [chars] are
    [str[i]], [str[i+1]], ... up to [strlen].  The result is [true] when
    the function returned from inside the loop (line 391). *)
Fixpoint Print_loop (startindex : Z) (i : Z) (chars : list Z) : M D bool :=
  match chars with
  | [] => ret false
  | c :: rest =>
      if startindex + i >? HD44780_NUM_ELEMENTS - 1 then
        HD44780_Set_Cursor_Position 0 0 ;;
        ret true
      else
        HD44780_Send_Data (u8 c) true ;;
        modify_handle (fun h => set_Text (<[Z.to_nat (startindex + i) := c]> (Text h)) h) ;;
        a <- get_AddressCounter ;;
        (if a =? HD44780_NUM_COLS then HD44780_Set_Cursor_Position 1 0 else ret tt) ;;
        Print_loop startindex (i + 1) rest
  end.

(** Lines 381-402. *)
Definition HD44780_Print (str : list Z) : M D unit :=
  HD44780_Get_Cursor_Position ;;
  h <- get_handle ;;
  let row := fst (Cursor_Position h) in
  let column := snd (Cursor_Position h) in
  let startindex := u8 (row * HD44780_NUM_COLS + column) in
  early <- Print_loop startindex 0 (take (strlen str) str) ;;
  if early then ret tt
  else HD44780_Get_Cursor_Position.

(** Lines 440-451. *)
Definition HD44780_Read_Character (row column : Z) : M D Z :=
  if (row >=? HD44780_NUM_ROWS) || (column >=? HD44780_NUM_COLS) then ret 0
  else
    let index := u8 (row * HD44780_NUM_COLS + column) in
    h <- get_handle ;;
    ret (default 0 (Text h !! Z.to_nat index)).

(** Lines 458-461. *)
Definition HD44780_Get_Row_Index : M D Z :=
  h <- get_handle ;; ret (fst (Cursor_Position h)).

(** Lines 468-471. *)
Definition HD44780_Get_Column_Index : M D Z :=
  h <- get_handle ;; ret (snd (Cursor_Position h)).

(** Lines 481-487: scan [Text[i]], [Text[i+1]], ... for a non-zero byte. *)
Fixpoint text_present_from (i : nat) (n : nat) (t : list Z) : bool :=
  match n with
  | O => false
  | S n' =>
      if negb (default 0 (t !! i) =? 0) then true
      else text_present_from (S i) n' t
  end.

(** Lines 492-495. *)
Fixpoint shift_loop (n : nat) : M D unit :=
  match n with
  | O => ret tt
  | S n' =>
      HD44780_Send_Command 0x1C false ;;
      HAL_Delay 100 ;;
      shift_loop n'
  end.

(** Lines 478-497. *)
Definition HD44780_Animate_Text (NumberOfScrolls : Z) : M D unit :=
  h <- get_handle ;;
  let TextPresent :=
    text_present_from 0 (Z.to_nat HD44780_NUM_ELEMENTS) (Text h) in
  if TextPresent then
    let BytesPerRow := Z.quot 80 HD44780_NUM_ROWS in
    let NumberOfShifts := NumberOfScrolls * BytesPerRow in
    shift_loop (Z.to_nat NumberOfShifts)
  else ret tt.

(** Lines 237-299. *)
Definition HD44780_Init : M D bool :=
  ok <- HAL_I2C_IsDeviceReady ;;
  if ok then
    HAL_Delay 45 ;;
    modify_handle (set_Cursor_Position (0, 0)) ;;
    let WriteCommand := Z.lor 0x30 HD44780_EN in
    HAL_I2C_Master_Transmit WriteCommand ;;
    HAL_Delay 1 ;;
    let WriteCommand := Z.land WriteCommand (Z.lnot HD44780_EN) in
    HAL_I2C_Master_Transmit WriteCommand ;;
    HAL_Delay 5 ;;
    let WriteCommand := Z.lor WriteCommand HD44780_EN in
    HAL_I2C_Master_Transmit WriteCommand ;;
    HAL_Delay 1 ;;
    let WriteCommand := Z.land WriteCommand (Z.lnot HD44780_EN) in
    HAL_I2C_Master_Transmit WriteCommand ;;
    HAL_Delay 1 ;;
    let WriteCommand := Z.lor WriteCommand HD44780_EN in
    HAL_I2C_Master_Transmit WriteCommand ;;
    HAL_Delay 1 ;;
    let WriteCommand := Z.land WriteCommand (Z.lnot HD44780_EN) in
    HAL_I2C_Master_Transmit WriteCommand ;;
    HAL_Delay 1 ;;
    let WriteCommand := Z.lor 0x20 HD44780_EN in
    HAL_I2C_Master_Transmit WriteCommand ;;
    HAL_Delay 1 ;;
    let WriteCommand := Z.land WriteCommand (Z.lnot HD44780_EN) in
    HAL_I2C_Master_Transmit WriteCommand ;;
    HAL_Delay 1 ;;
    let WriteCommand := HD44780_FUNCTION_SET in
    let WriteCommand :=
      if HD44780_NUM_ROWS =? 2 then Z.lor WriteCommand (Z.shiftl 1 3)
      else WriteCommand in
    HD44780_Send_Command WriteCommand true ;;
    HD44780_Send_Command 0x08 true ;;
    HD44780_Send_Command 0x01 true ;;
    HD44780_Send_Command 0x06 true ;;
    HD44780_Send_Command 0x0C true ;;
    HD44780_Transmit_Command CURSOR_ON ;;
    modify_handle (set_PowerState LCD1602_ON) ;;
    ret true
  else ret false.
End DriverCode.

(** ** Reading a trace

    Wire layout of every byte written to the expander: bit 0 register
    select, bit 1 read/write, bit 2 enable, bit 3 backlight, bits 4-7 the
    data nibble. *)

Definition rs_of (b : Z) : bool := Z.testbit b 0.
Definition rw_of (b : Z) : bool := Z.testbit b 1.
Definition en_of (b : Z) : bool := Z.testbit b 2.
Definition backlight_of (b : Z) : bool := Z.testbit b 3.
Definition nibble_of (b : Z) : Z := Z.land (Z.shiftr b 4) 0x0F.

(** The byte with the given nibble and control lines. *)
Definition wire (nibble : Z) (backlight en rw rs : bool) : Z :=
  16 * nibble + 8 * Z.b2z backlight + 4 * Z.b2z en + 2 * Z.b2z rw + Z.b2z rs.

Definition high_nibble (c : Z) : Z := (c / 16) mod 16.
Definition low_nibble (c : Z) : Z := c mod 16.

Definition tx_bytes (t : list event) : list Z :=
  omap (fun e => match e with I2C_Tx b => Some b | _ => None end) t.

Definition rx_bytes (t : list event) : list Z :=
  omap (fun e => match e with I2C_Rx b => Some b | _ => None end) t.

Definition is_handler_entry (e : event) : bool :=
  match e with Error_Handler_Entered => true | _ => false end.

Definition handler_entries (t : list event) : nat :=
  length (List.filter is_handler_entry t).

(** What the driver has put on the bus in write mode with enable high:
    the nibbles the controller latches, each with its register select. *)
Definition strobes (t : list event) : list (bool * Z) :=
  omap (fun b => if en_of b && negb (rw_of b)
                 then Some (rs_of b, nibble_of b) else None)
       (tx_bytes t).

(** A byte as the controller receives it in 4-bit mode. *)
Inductive payload :=
| Instruction (c : Z)
| Character (c : Z).

Fixpoint pair_up (l : list (bool * Z)) : list payload :=
  match l with
  | (rs, hi) :: (_, lo) :: rest =>
      (if rs then Character (16 * hi + lo) else Instruction (16 * hi + lo))
        :: pair_up rest
  | _ => []
  end.

Definition payloads (t : list event) : list payload := pair_up (strobes t).

Definition characters (p : list payload) : list Z :=
  omap (fun x => match x with Character c => Some c | _ => None end) p.

(** The status bytes the driver has assembled from its reads, two reads a
    piece, the way lines 50, 60 and 65 do. *)
Fixpoint statuses_of (rx : list Z) : list Z :=
  match rx with
  | r1 :: r2 :: rest =>
      Z.lor (Z.land r1 0xF0) (Z.land (Z.shiftr r2 4) 0x0F) :: statuses_of rest
  | _ => []
  end.

Definition statuses (t : list event) : list Z := statuses_of (rx_bytes t).

Definition busy_flag (status : Z) : bool := Z.testbit status 7.
Definition address_of (status : Z) : Z := Z.land status 0x7F.

(** Events added to the trace between two worlds. *)
Definition emitted {D} (w w' : world D) : list event :=
  drop (length (trace w)) (trace w').

(** The mirror is the 32-cell array of the handle. *)
Definition handle_wf (h : HD44780_HandleTypeDef) : Prop :=
  length (Text h) = Z.to_nat HD44780_NUM_ELEMENTS.

(** ** Two things to put on the bus *)

(** *** A replayed bus: reads come from a script, writes are ignored. *)
Definition replay := list Z.

#[global] Instance replay_bus : Bus replay := {
  bus_probe := fun d => (true, d);
  bus_write := fun _ d => d;
  bus_read := fun d => match d with [] => (0, []) | b :: d' => (b, d') end;
  bus_elapse := fun _ d => d
}.

(** *** A two-line controller behind the expander

    Not driver code: the controller as the data sheet pages quoted in
    HD44780.c describe it, already in 4-bit mode with address increment.
    A nibble is taken on the falling edge of enable.  In write mode two
    nibbles make a byte, which is executed.  In read mode with register
    select low the controller drives the data pins with the busy flag and
    address counter, high nibble on the first strobe and low nibble on the
    second.  After an operation the busy flag stays set for [latency]
    status reads. *)
Record lcd := Lcd {
  pins : Z;
  pending : option Z;
  read_low : bool;
  AC : Z;
  DDRAM : list Z;
  busy_reads : nat;
  latency : nat
}.

Definition next_address (a : Z) : Z :=
  if a =? 0x27 then 0x40 else if a =? 0x67 then 0 else (a + 1) mod 128.

(** Executing a byte: register select high writes DDRAM at the address
    counter and steps it; an instruction with bit 7 set loads the address
    counter; clear display (0x01) blanks DDRAM and homes; return home
    (0x02, 0x03) homes; the other instructions move neither. *)
Definition lcd_next_AC (rs : bool) (c ac : Z) : Z :=
  if rs then next_address ac
  else if Z.testbit c 7 then Z.land c 0x7F
  else if c =? 0x01 then 0
  else if Z.land c 0xFE =? 0x02 then 0
  else ac.

Definition lcd_next_DDRAM (rs : bool) (c ac : Z) (dd : list Z) : list Z :=
  if rs then <[Z.to_nat ac := c]> dd
  else if Z.testbit c 7 then dd
  else if c =? 0x01 then replicate (length dd) 0x20
  else dd.

Definition lcd_execute (rs : bool) (c : Z) (d : lcd) : lcd :=
  Lcd (pins d) None (read_low d)
      (lcd_next_AC rs c (AC d)) (lcd_next_DDRAM rs c (AC d) (DDRAM d))
      (latency d) (latency d).

Definition lcd_falling_edge (d : lcd) : lcd :=
  if rw_of (pins d) then
    if read_low d then
      Lcd (pins d) (pending d) false (AC d) (DDRAM d) (pred (busy_reads d)) (latency d)
    else
      Lcd (pins d) (pending d) true (AC d) (DDRAM d) (busy_reads d) (latency d)
  else
    match pending d with
    | None =>
        Lcd (pins d) (Some (nibble_of (pins d))) (read_low d) (AC d) (DDRAM d)
            (busy_reads d) (latency d)
    | Some hi => lcd_execute (rs_of (pins d)) (16 * hi + nibble_of (pins d)) d
    end.

(** Busy flag and address counter as a status byte. *)
Definition status_byte (busy : nat) (ac : Z) : Z :=
  (if Nat.ltb 0 busy then 0x80 else 0) + ac.

Definition lcd_status (d : lcd) : Z := status_byte (busy_reads d) (AC d).

Definition lcd_write (b : Z) (d : lcd) : lcd :=
  let d := if en_of (pins d) && negb (en_of b) then lcd_falling_edge d else d in
  Lcd b (pending d) (read_low d) (AC d) (DDRAM d) (busy_reads d) (latency d).

Definition lcd_read (d : lcd) : Z * lcd :=
  if en_of (pins d) && rw_of (pins d) && negb (rs_of (pins d)) then
    let st := lcd_status d in
    let n := if read_low d then st mod 16 else st / 16 in
    (16 * n + pins d mod 16, d)
  else (pins d, d).

#[global] Instance lcd_bus : Bus lcd := {
  bus_probe := fun d => (true, d);
  bus_write := lcd_write;
  bus_read := lcd_read;
  bus_elapse := fun _ d => d
}.

(** The controller between transfers: enable low, no half byte latched,
    next status strobe is the high one, nothing in progress; its busy time
    is within the driver's polling budget. *)
Definition lcd_ready (d : lcd) : Prop :=
  en_of (pins d) = false /\ pending d = None /\ read_low d = false /\
  busy_reads d = O /\ 0 <= AC d < 128 /\ (latency d < 20)%nat.

(** The controller after a poll has seen the flag clear. *)
Definition lcd_settled (ac : Z) (dd : list Z) (lat : nat) : lcd :=
  Lcd (wire 15 true false true false) None false ac dd O lat.

(** DDRAM address of a cell of the 16x2 glass. *)
Definition ddram_address (row column : Z) : Z := 0x40 * row + column.

(** ** Frames

    The events a command frame, a data frame and a status read put on the
    trace, written with [wire]; the lemmas below show that the code emits
    exactly these. *)

Definition command_events (c : Z) : list event :=
  [I2C_Tx (wire (high_nibble c) true true false false); Delay 1;
   I2C_Tx (wire (high_nibble c) true false false false); Delay 1;
   I2C_Tx (wire (low_nibble c) true true false false); Delay 1;
   I2C_Tx (wire (low_nibble c) true false false false); Delay 1].

Definition data_events (c : Z) : list event :=
  [I2C_Tx (wire 0 true false false true); Delay 1;
   I2C_Tx (wire (high_nibble c) true true false true); Delay 1;
   I2C_Tx (wire (high_nibble c) true false false true); Delay 1;
   I2C_Tx (wire (low_nibble c) true true false true); Delay 1;
   I2C_Tx (wire (low_nibble c) true false false true); Delay 1].

Definition status_events (r : Z * Z) : list event :=
  [I2C_Tx (wire 15 true false true false); Delay 1;
   I2C_Tx (wire 15 true true true false); Delay 1;
   I2C_Rx (fst r);
   I2C_Tx (wire 15 true false true false); Delay 1;
   I2C_Tx (wire 15 true true true false); Delay 1;
   I2C_Rx (snd r);
   I2C_Tx (wire 15 true false true false); Delay 1].

Definition poll_events (rs : list (Z * Z)) : list event :=
  concat (map status_events rs).

(** The status byte assembled from the two bytes of one status read. *)
Definition status_of (r : Z * Z) : Z :=
  Z.lor (Z.land (fst r) 0xF0) (Z.land (Z.shiftr (snd r) 4) 0x0F).

(** The bus after write and delay events. *)
Definition drive {D} `{!Bus D} (evs : list event) (d : D) : D :=
  foldl (fun d e => match e with
                    | I2C_Tx b => bus_write b d
                    | Delay ms => bus_elapse ms d
                    | _ => d
                    end) d evs.

(** The bus after one status read, with the two bytes read. *)
Definition status_read {D} `{!Bus D} (d : D) : (Z * Z) * D :=
  let d := drive [I2C_Tx (wire 15 true false true false); Delay 1;
                  I2C_Tx (wire 15 true true true false); Delay 1] d in
  let '(r1, d) := bus_read d in
  let d := drive [I2C_Tx (wire 15 true false true false); Delay 1;
                  I2C_Tx (wire 15 true true true false); Delay 1] d in
  let '(r2, d) := bus_read d in
  let d := drive [I2C_Tx (wire 15 true false true false); Delay 1] d in
  ((u8 r1, u8 r2), d).

(** The status reads the polling loop makes with budget [n], and the bus
    afterwards: it reads until a status has the busy flag clear or the
    budget is used up. *)
Fixpoint poll_reads {D} `{!Bus D} (n : nat) (d : D) : list (Z * Z) * D :=
  match n with
  | O => ([], d)
  | S n' =>
      let '(r, d') := status_read d in
      if busy_flag (status_of r) then
        let '(rs, d'') := poll_reads n' d' in (r :: rs, d'')
      else ([r], d')
  end.

(** The last status read of a poll found the busy flag clear. *)
Definition polled_ready (rs : list (Z * Z)) : bool :=
  match last rs with
  | Some r => negb (busy_flag (status_of r))
  | None => false
  end.

(** State and address counter as the polling loop leaves them. *)
Definition polled_State (s : HD44780_State) (rs : list (Z * Z)) : HD44780_State :=
  match last rs with
  | Some r => if busy_flag (status_of r) then HD44780_BUSY else HD44780_READY
  | None => s
  end.

Definition polled_counter (a : Z) (rs : list (Z * Z)) : Z :=
  match last rs with
  | Some r => if busy_flag (status_of r) then a else address_of (status_of r)
  | None => a
  end.

(** How a checked send ends, given the frame events [evs], the status
    reads [rs] of its poll and the bus [d] afterwards. *)
Definition confirmed {D} (w : world D) (evs : list event)
    (rs : list (Z * Z)) (d : D) : outcome D unit :=
  if polled_ready rs then
    Ret tt (World (set_State HD44780_READY (handle w))
                  (polled_counter (AddressCounter w) rs)
                  d (trace w ++ evs ++ poll_events rs))
  else
    Spin (World (set_State HD44780_TIMEOUT (handle w))
                (polled_counter (AddressCounter w) rs)
                d (trace w ++ evs ++ poll_events rs ++ [Error_Handler_Entered])).

(** The reads of a poll with budget [n]: busy, busy, ..., then either one
    with the flag clear, or the budget is spent. *)
Definition poll_shape (n : nat) (rs : list (Z * Z)) : Prop :=
  (length rs <= n)%nat /\
  Forall (fun r => 0 <= fst r < 256 /\ 0 <= snd r < 256) rs /\
  if polled_ready rs then
    exists rs0 r, rs = rs0 ++ [r] /\
                  Forall (fun r => busy_flag (status_of r) = true) rs0 /\
                  busy_flag (status_of r) = false
  else
    length rs = n /\ Forall (fun r => busy_flag (status_of r) = true) rs.

(** The two strobes of a byte. *)
Definition nibbles (p : payload) : list (bool * Z) :=
  match p with
  | Instruction c => [(false, high_nibble c); (false, low_nibble c)]
  | Character c => [(true, high_nibble c); (true, low_nibble c)]
  end.

Definition byte_payload (p : payload) : Prop :=
  match p with
  | Instruction c | Character c => 0 <= c < 256
  end.

(** Between [w] and [w'] the trace grew by the frames of [ps], in that
    order, and by nothing else the controller would latch. *)
Definition sent_by {D} (w w' : world D) (ps : list payload) : Prop :=
  exists evs, trace w' = trace w ++ evs /\ strobes evs = flat_map nibbles ps.

(** No handle field but State differs. *)
Definition same_cache {D} (w w' : world D) : Prop :=
  Cursor_Position (handle w') = Cursor_Position (handle w) /\
  Text (handle w') = Text (handle w) /\
  PowerState (handle w') = PowerState (handle w).

(** The controller seen from the driver between calls. *)
Definition lcd_view (d : lcd) (ac : Z) (dd : list Z) (lat : nat) : Prop :=
  lcd_ready d /\ AC d = ac /\ DDRAM d = dd /\ latency d = lat.

(** DDRAM address of mirror index [idx] on the 16x2 glass. *)
Definition cell_address (idx : Z) : Z :=
  if idx <? 16 then idx else 0x40 + (idx - 16).

(** DDRAM after the bytes [cs] went to the cells of mirror indices
    [idx], [idx+1], ... *)
Fixpoint write_cells (idx : Z) (cs : list Z) (dd : list Z) : list Z :=
  match cs with
  | [] => dd
  | c :: rest => write_cells (idx + 1) rest (<[Z.to_nat (cell_address idx) := c]> dd)
  end.

(** What HD44780_Print sends for [chars] from mirror index [idx] on. *)
Fixpoint print_payloads (idx : Z) (chars : list Z) : list payload :=
  match chars with
  | [] => []
  | c :: rest =>
      Character (u8 c)
        :: (if idx =? 15 then [Instruction 0xC0] else []) ++ print_payloads (idx + 1) rest
  end.

(** ** Worlds to run the driver in *)

Definition demo_handle : HD44780_HandleTypeDef :=
  Handle (0, 0) (replicate 32 0) HD44780_READY LCD1602_ON.

(** The controller at rest with the cursor at DDRAM address [ac], a blank
    display, and [lat] busy status reads after each operation. *)
Definition demo_world (ac : Z) (lat : nat) : world lcd :=
  World demo_handle 0 (lcd_settled ac (replicate 128 0x20) lat) [].

(** A bus that answers reads from [script]. *)
Definition replay_world (script : list Z) : world replay :=
  World demo_handle 0 script [].

(** "ABCDEFGHIJKLMNOPQRST" and its terminator. *)
Definition demo_string : list Z :=
  [65; 66; 67; 68; 69; 70; 71; 72; 73; 74; 75; 76; 77; 78; 79; 80; 81; 82; 83; 84; 0].

(** ** Time spent in HAL_Delay *)

(** Milliseconds of HAL_Delay in a trace. *)
Definition elapsed (t : list event) : Z :=
  foldr (fun e acc => match e with Delay ms => ms + acc | _ => acc end) 0 t.

(** ** Software reset *)

(** Lines 240-272 of HD44780_Init: the delays and the eight writes that
    precede the first 4-bit command. *)
Definition wake_events : list event :=
  [Delay 45;
   I2C_Tx 0x34; Delay 1; I2C_Tx 0x30; Delay 5;
   I2C_Tx 0x34; Delay 1; I2C_Tx 0x30; Delay 1;
   I2C_Tx 0x34; Delay 1; I2C_Tx 0x30; Delay 1;
   I2C_Tx 0x24; Delay 1; I2C_Tx 0x20; Delay 1].

(** Lines 275-293 of HD44780_Init. *)
Definition reset_commands {D} `{!Bus D} : M D bool :=
  let WriteCommand := HD44780_FUNCTION_SET in
  let WriteCommand :=
    if HD44780_NUM_ROWS =? 2 then Z.lor WriteCommand (Z.shiftl 1 3)
    else WriteCommand in
  HD44780_Send_Command WriteCommand true ;;
  HD44780_Send_Command 0x08 true ;;
  HD44780_Send_Command 0x01 true ;;
  HD44780_Send_Command 0x06 true ;;
  HD44780_Send_Command 0x0C true ;;
  HD44780_Transmit_Command CURSOR_ON ;;
  modify_handle (set_PowerState LCD1602_ON) ;;
  ret true.

(** Every byte written has the backlight bit set. *)
Definition lit (evs : list event) : Prop :=
  Forall (fun b => backlight_of b = true) (tx_bytes evs).

(** Between [w] and [w'] the trace grew by the frames of [ps] and by
    nothing else the controller would latch, every byte written with the
    backlight bit set. *)
Definition framed {D} (w w' : world D) (ps : list payload) : Prop :=
  exists evs, trace w' = trace w ++ evs /\
              strobes evs = flat_map nibbles ps /\ lit evs.

(** ** Scrolling *)

(** Lines 492-495 of HD44780_Animate_Text, [n] times round the loop. *)
Definition scroll_events (n : nat) : list event :=
  concat (replicate n (command_events 0x1C ++ [Delay 100])).

(** ** Rules kept by whole calls *)

(** The bytes of status reads, in the order read. *)
Definition pairs (rs : list (Z * Z)) : list Z :=
  flat_map (fun r => [fst r; snd r]) rs.

(** Running from [w] with outcome [o]: the bus was read in status reads
    only; a call that returns has not entered the error handler; a call
    that does not return has entered it once, as the last thing it did,
    with State TIMEOUT, after twenty status reads in a row that found the
    busy flag set. *)
Definition disciplined {D A} (w : world D) (o : outcome D A) : Prop :=
  exists evs rs,
    trace (final o) = trace w ++ evs /\
    rx_bytes evs = pairs rs /\
    match o with
    | Ret _ _ => handler_entries evs = O
    | Spin w' =>
        handler_entries evs = 1%nat /\
        last evs = Some Error_Handler_Entered /\
        State (handle w') = HD44780_TIMEOUT /\
        exists pre busy,
          rs = pre ++ busy /\ length busy = 20%nat /\
          Forall (fun r => busy_flag (status_of r) = true) busy
    end.

(** The same rule, read off the trace. *)
Definition escalation_rule {D A} (w : world D) (o : outcome D A) : Prop :=
  let evs := emitted w (final o) in
  if returned o then handler_entries evs = O
  else
    handler_entries evs = 1%nat /\
    last evs = Some Error_Handler_Entered /\
    State (handle (final o)) = HD44780_TIMEOUT /\
    exists pre busy,
      statuses evs = pre ++ busy /\ length busy = 20%nat /\
      Forall (fun st => busy_flag st = true) busy.

(** Running from [w] with outcome [o], every byte written had the
    backlight bit set and PowerState is what it was. *)
Definition backlit {D A} (w : world D) (o : outcome D A) : Prop :=
  exists evs,
    trace (final o) = trace w ++ evs /\ lit evs /\
    PowerState (handle (final o)) = PowerState (handle w).

(** ** The cursor on the glass *)

(** The controller is at rest, answers within the polling budget, and
    its address counter is on a cell of the 16x2 glass or just past the
    last one. *)
Definition on_glass (d : lcd) : Prop :=
  lcd_ready d /\ exists idx, 0 <= idx <= 32 /\ AC d = cell_address idx.

(** ** Discipline on the wire *)

(** The enable line is low after the last write, and every write in read
    mode has register select low and the four data pins high. *)
Definition tidy_writes (txs : list Z) : Prop :=
  match last txs with Some b => en_of b = false | None => True end /\
  Forall (fun b => rw_of b = true -> rs_of b = false /\ nibble_of b = 15) txs.

(** The events leave the controller with whole bytes only. *)
Definition whole_bytes (evs : list event) : Prop :=
  (exists ps, strobes evs = flat_map nibbles ps /\ Forall byte_payload ps) /\
  tidy_writes (tx_bytes evs).

(** Running from [w] with outcome [o], the trace grew by events that
    satisfy [P]. *)
Definition emits {D A} (P : list event -> Prop)
    (w : world D) (o : outcome D A) : Prop :=
  exists evs, trace (final o) = trace w ++ evs /\ P evs.

(** ** More worlds to run the driver in *)


(** A mirror with 'A' in its first cell, on the replayed bus. *)
Definition lettered_world : world replay :=
  World (set_Text (65 :: replicate 31 0) demo_handle) 0 [] [].

(** "0123456789ABCDEF": sixteen characters, no terminator. *)
Definition row_string : list Z :=
  [48; 49; 50; 51; 52; 53; 54; 55; 56; 57; 65; 66; 67; 68; 69; 70].

(** A controller showing 'A' in every cell, its cursor at (1, 5). *)
Definition inked_world : world lcd :=
  World demo_handle 0 (lcd_settled 0x45 (replicate 128 0x41) 1) [].

(** "Hello World Row1" and "Hello World Row2", the strings of README.md. *)
Definition hello_row1 : list Z :=
  [72; 101; 108; 108; 111; 32; 87; 111; 114; 108; 100; 32; 82; 111; 119; 49].
Definition hello_row2 : list Z :=
  [72; 101; 108; 108; 111; 32; 87; 111; 114; 108; 100; 32; 82; 111; 119; 50].

(** * Properties *)

(** ** Bytes and nibbles *)

Lemma below_cases (n : Z) (P : Z -> bool) :
  forallb P (seqZ 0 n) = true -> forall z, 0 <= z < n -> P z = true.
Proof.
  intros Hall z Hz.
  rewrite forallb_forall in Hall. apply Hall.
  apply list_elem_of_In, elem_of_seqZ. lia.
Qed.

(** Settle [f z = g z] (in [Z] or [bool]) for every [z] below a small
    bound by running through the values. *)
Ltac by_cases_below z n :=
  first [apply Z.eqb_eq | apply Bool.eqb_prop];
  match goal with
  | |- ?e = true =>
      let Q := eval pattern z in e in
      match Q with
      | ?F _ => apply (below_cases n F); [vm_compute; reflexivity | lia]
      end
  end.

Lemma high_nibble_range c : 0 <= high_nibble c < 16.
Proof. unfold high_nibble. apply Z.mod_pos_bound. lia. Qed.

Lemma low_nibble_range c : 0 <= low_nibble c < 16.
Proof. unfold low_nibble. apply Z.mod_pos_bound. lia. Qed.

Lemma u8_range c : 0 <= u8 c < 256.
Proof. unfold u8. apply Z.mod_pos_bound. lia. Qed.

Lemma nibbles_u8 c : 16 * high_nibble c + low_nibble c = u8 c.
Proof.
  unfold high_nibble, low_nibble, u8.
  change 256 with (16 * 16).
  rewrite (Z.rem_mul_r c 16 16) by lia. lia.
Qed.

Lemma high_nibble_u8 c : high_nibble (u8 c) = high_nibble c.
Proof.
  unfold high_nibble, u8.
  change 256 with (16 * 16).
  rewrite (Z.rem_mul_r c 16 16) by lia.
  replace (c mod 16 + 16 * ((c / 16) mod 16)) with ((c / 16) mod 16 * 16 + c mod 16) by lia.
  rewrite Z.div_add_l by lia.
  rewrite (Z.div_small (c mod 16)) by (apply Z.mod_pos_bound; lia).
  rewrite Z.add_0_r. apply Z.mod_mod. lia.
Qed.

Lemma low_nibble_u8 c : low_nibble (u8 c) = low_nibble c.
Proof.
  unfold low_nibble, u8.
  change 256 with (16 * 16).
  rewrite (Z.rem_mul_r c 16 16) by lia.
  replace (c mod 16 + 16 * ((c / 16) mod 16))
    with (c mod 16 + (c / 16) mod 16 * 16) by lia.
  rewrite Z.mod_add by lia.
  apply Z.mod_mod. lia.
Qed.

Lemma land_240_u8 c : Z.land 0xF0 c = Z.land 0xF0 (u8 c).
Proof.
  unfold u8. change 256 with (2 ^ 8).
  rewrite <- Z.land_ones by lia.
  rewrite (Z.land_comm c), Z.land_assoc. reflexivity.
Qed.

Lemma land_240 c : Z.land 0xF0 c = 16 * high_nibble c.
Proof.
  rewrite land_240_u8, <- (high_nibble_u8 c).
  pose proof (u8_range c). generalize dependent (u8 c). intros z Hz.
  unfold high_nibble. by_cases_below z 256.
Qed.

Lemma land_240_shiftl c : Z.land 0xF0 (Z.shiftl c 4) = 16 * low_nibble c.
Proof.
  rewrite Z.shiftl_mul_pow2 by lia.
  rewrite land_240_u8. unfold u8, low_nibble.
  change 256 with (16 * 16). change (2 ^ 4) with 16.
  rewrite (Z.mul_comm c 16), Z.mul_mod_distr_l by lia.
  pose proof (Z.mod_pos_bound c 16 ltac:(lia)).
  generalize dependent (c mod 16). intros z Hz.
  by_cases_below z 16.
Qed.

Lemma wire_bits h bl en rw rs :
  0 <= h < 16 ->
  nibble_of (wire h bl en rw rs) = h /\
  backlight_of (wire h bl en rw rs) = bl /\
  en_of (wire h bl en rw rs) = en /\
  rw_of (wire h bl en rw rs) = rw /\
  rs_of (wire h bl en rw rs) = rs.
Proof.
  intros Hh.
  unfold nibble_of, backlight_of, en_of, rw_of, rs_of, wire.
  destruct bl, en, rw, rs; repeat split; by_cases_below h 16.
Qed.

Lemma wire_range h bl en rw rs : 0 <= h < 16 -> 0 <= wire h bl en rw rs < 256.
Proof. intros Hh. unfold wire. destruct bl, en, rw, rs; simpl; lia. Qed.

Lemma wire_clear_en h bl en rw rs :
  0 <= h < 16 ->
  Z.land (wire h bl en rw rs) (Z.lnot HD44780_EN) = wire h bl false rw rs.
Proof.
  intros Hh. unfold wire, HD44780_EN.
  destruct bl, en, rw, rs; by_cases_below h 16.
Qed.

Lemma wire_set_en h bl en rw rs :
  0 <= h < 16 ->
  Z.lor (wire h bl en rw rs) HD44780_EN = wire h bl true rw rs.
Proof.
  intros Hh. unfold wire, HD44780_EN.
  destruct bl, en, rw, rs; by_cases_below h 16.
Qed.

(** The four bytes of lines 92-105 and the five of lines 142-158. *)
Lemma command_byte_high c :
  Z.lor 0 (Z.lor (Z.lor (Z.land 0xF0 c) HD44780_BACKLIGHT) HD44780_EN)
  = wire (high_nibble c) true true false false.
Proof.
  rewrite land_240. pose proof (high_nibble_range c).
  generalize dependent (high_nibble c). intros h Hh.
  unfold wire, HD44780_BACKLIGHT, HD44780_EN. by_cases_below h 16.
Qed.

Lemma command_byte_low c h :
  0 <= h < 16 ->
  Z.lor (Z.land (wire h true false false false) 0x0F)
        (Z.lor (Z.lor (Z.land 0xF0 (Z.shiftl c 4)) HD44780_BACKLIGHT) HD44780_EN)
  = wire (low_nibble c) true true false false.
Proof.
  intros Hh. rewrite land_240_shiftl. pose proof (low_nibble_range c).
  generalize dependent (low_nibble c). intros l Hl.
  assert (Z.land (wire h true false false false) 0x0F = 8) as ->.
  { unfold wire. by_cases_below h 16. }
  unfold wire, HD44780_BACKLIGHT, HD44780_EN. by_cases_below l 16.
Qed.

Lemma data_byte_setup :
  Z.lor 0 (Z.lor HD44780_BACKLIGHT HD44780_RS) = wire 0 true false false true.
Proof. reflexivity. Qed.

Lemma data_byte_high c :
  Z.lor (wire 0 true false false true)
        (Z.lor (Z.lor (Z.lor (Z.land 0xF0 c) HD44780_BACKLIGHT) HD44780_EN) HD44780_RS)
  = wire (high_nibble c) true true false true.
Proof.
  rewrite land_240. pose proof (high_nibble_range c).
  generalize dependent (high_nibble c). intros h Hh.
  unfold wire, HD44780_BACKLIGHT, HD44780_EN, HD44780_RS. by_cases_below h 16.
Qed.

Lemma data_byte_low c h :
  0 <= h < 16 ->
  Z.lor (Z.land (wire h true false false true) 0x0F)
        (Z.lor (Z.lor (Z.lor (Z.land 0xF0 (Z.shiftl c 4)) HD44780_BACKLIGHT) HD44780_EN)
               HD44780_RS)
  = wire (low_nibble c) true true false true.
Proof.
  intros Hh. rewrite land_240_shiftl. pose proof (low_nibble_range c).
  generalize dependent (low_nibble c). intros l Hl.
  assert (Z.land (wire h true false false true) 0x0F = 9) as ->.
  { unfold wire. by_cases_below h 16. }
  unfold wire, HD44780_BACKLIGHT, HD44780_EN, HD44780_RS. by_cases_below l 16.
Qed.

(** ** Sequencing *)

Section Monad.
Context {D : Type} `{!Bus D}.
Implicit Types (w : world D).

Lemma bind_Ret {A B} (m : M D A) (k : A -> M D B) w a w1 :
  m w = Ret a w1 -> bind m k w = k a w1.
Proof. intros Hm. unfold bind. rewrite Hm. reflexivity. Qed.

Lemma bind_modify_handle {B} f (k : unit -> M D B) w :
  bind (modify_handle f) k w
  = k tt (World (f (handle w)) (AddressCounter w) (device w) (trace w)).
Proof. reflexivity. Qed.

Lemma bind_get_AddressCounter {B} (k : Z -> M D B) w :
  bind get_AddressCounter k w = k (AddressCounter w) w.
Proof. reflexivity. Qed.

Lemma bind_get_handle {B} (k : HD44780_HandleTypeDef -> M D B) w :
  bind get_handle k w = k (handle w) w.
Proof. reflexivity. Qed.

Lemma bind_ret {A B} (a : A) (k : A -> M D B) w : bind (ret a) k w = k a w.
Proof. reflexivity. Qed.

Lemma bind_Ret_inv {A B} (m : M D A) (k : A -> M D B) w b w' :
  bind m k w = Ret b w' ->
  exists a w1, m w = Ret a w1 /\ k a w1 = Ret b w'.
Proof.
  unfold bind. destruct (m w) as [a w1|w1]; [|discriminate]. eauto.
Qed.

Lemma modify_handle_inv f w a w' :
  modify_handle f w = Ret a w' ->
  w' = World (f (handle w)) (AddressCounter w) (device w) (trace w).
Proof. unfold modify_handle. intros [= _ <-]. reflexivity. Qed.

Lemma ret_inv {A} (a b : A) w w' : ret a w = Ret b w' -> b = a /\ w' = w.
Proof. unfold ret. intros [= <- <-]. auto. Qed.

Lemma get_handle_inv w h w' : get_handle w = Ret h w' -> h = handle w /\ w' = w.
Proof. unfold get_handle. intros [= <- <-]. auto. Qed.
End Monad.

(** ** What each call does to the world, for any bus *)

Section Runs.
Context {D : Type} `{!Bus D}.
Implicit Types (w : world D) (h : HD44780_HandleTypeDef).

Lemma status_of_arith r1 r2 :
  0 <= r1 < 256 -> 0 <= r2 < 256 ->
  status_of (r1, r2) = 16 * (r1 / 16) + r2 / 16.
Proof.
  intros H1 H2. unfold status_of; simpl.
  assert (Z.land r1 0xF0 = 16 * (r1 / 16)) as -> by by_cases_below r1 256.
  assert (Z.land (Z.shiftr r2 4) 0x0F = r2 / 16) as -> by by_cases_below r2 256.
  assert (0 <= r1 / 16 < 16) by (split; [apply Z.div_pos | apply Z.div_lt_upper_bound]; lia).
  assert (0 <= r2 / 16 < 16) by (split; [apply Z.div_pos | apply Z.div_lt_upper_bound]; lia).
  generalize dependent (r1 / 16). generalize dependent (r2 / 16).
  intros l Hl h Hh.
  assert (forall x, 0 <= x < 256 -> Z.lor (16 * (x / 16)) (x mod 16) = x) as Hlor
      by (intros x Hx; by_cases_below x 256).
  specialize (Hlor (16 * h + l) ltac:(lia)).
  replace ((16 * h + l) / 16) with h in Hlor
    by (rewrite (Z.mul_comm 16 h), Z.div_add_l, Z.div_small; lia).
  replace ((16 * h + l) mod 16) with l in Hlor
    by (rewrite Z.add_comm, (Z.mul_comm 16 h), Z.mod_add, Z.mod_small; lia).
  exact Hlor.
Qed.

Lemma status_of_range r1 r2 :
  0 <= r1 < 256 -> 0 <= r2 < 256 -> 0 <= status_of (r1, r2) < 256.
Proof.
  intros H1 H2. rewrite status_of_arith by lia.
  assert (0 <= r1 / 16 < 16) by (split; [apply Z.div_pos | apply Z.div_lt_upper_bound]; lia).
  assert (0 <= r2 / 16 < 16) by (split; [apply Z.div_pos | apply Z.div_lt_upper_bound]; lia).
  lia.
Qed.

Lemma busy_test st :
  0 <= st < 256 ->
  negb (Z.land st (Z.shiftl 1 7) =? 0) = busy_flag st.
Proof. intros Hst. unfold busy_flag. by_cases_below st 256. Qed.

Lemma address_mask st :
  0 <= st < 256 ->
  Z.land st (Z.lnot (Z.shiftl 1 7)) = address_of st.
Proof. intros Hst. unfold address_of. by_cases_below st 256. Qed.

Lemma address_of_range st : 0 <= address_of st < 128.
Proof.
  unfold address_of. change 0x7F with (Z.ones 7).
  rewrite Z.land_ones by lia. apply Z.mod_pos_bound. lia.
Qed.

Lemma status_read_range d :
  0 <= fst (fst (status_read d)) < 256 /\ 0 <= snd (fst (status_read d)) < 256.
Proof.
  unfold status_read.
  destruct (bus_read _) as [r1 d1]. destruct (bus_read _) as [r2 d2].
  simpl. split; apply u8_range.
Qed.

(** Lines 32-74 in one step. *)
Lemma Check_Status_run w :
  let '(r, d) := status_read (device w) in
  HD44780_Check_Status w =
    Ret tt (World
              (set_State (if busy_flag (status_of r) then HD44780_BUSY
                          else HD44780_READY) (handle w))
              (if busy_flag (status_of r) then AddressCounter w
               else address_of (status_of r))
              d (trace w ++ status_events r)).
Proof.
  pose proof (status_read_range (device w)) as Hr.
  unfold status_read in *.
  unfold HD44780_Check_Status, bind, HAL_I2C_Master_Transmit, HAL_Delay,
    HAL_I2C_Master_Receive, set_handle_State, modify_handle, put_AddressCounter.
  cbn [handle AddressCounter device trace drive foldl].
  change (Z.lor (Z.lor 0xF0 HD44780_BACKLIGHT) HD44780_RW)
    with (wire 15 true false true false).
  rewrite !wire_set_en, !wire_clear_en by lia.
  destruct (bus_read _) as [r1 d1]. cbn [handle AddressCounter device trace].
  rewrite !wire_set_en, !wire_clear_en by lia.
  destruct (bus_read _) as [r2 d2]. cbn [handle AddressCounter device trace fst snd] in *.
  fold (status_of (u8 r1, u8 r2)).
  pose proof (status_of_range (u8 r1) (u8 r2) ltac:(lia) ltac:(lia)) as Hst.
  rewrite busy_test, address_mask by assumption.
  unfold status_events. cbn [fst snd].
  destruct (busy_flag _); cbn [handle AddressCounter device trace];
    rewrite <- !app_assoc; reflexivity.
Qed.

Lemma set_State_twice s s' h : set_State s (set_State s' h) = set_State s h.
Proof. reflexivity. Qed.

Lemma set_State_same h : set_State (State h) h = h.
Proof. destruct h; reflexivity. Qed.

(** Every status read but the last one of a poll found the flag set. *)
Lemma poll_reads_busy_prefix n (d : D) :
  Forall (fun r => busy_flag (status_of r) = true)
         (removelast (fst (poll_reads n d))).
Proof.
  revert d. induction n as [|n IH]; intros d; simpl.
  - constructor.
  - destruct (status_read d) as [r d1].
    destruct (busy_flag (status_of r)) eqn:Hb.
    + specialize (IH d1). destruct (poll_reads n d1) as [rs d2]. simpl in *.
      destruct rs as [|r' rs]; [constructor|].
      constructor; assumption.
    + simpl. constructor.
Qed.

Lemma poll_reads_length n (d : D) :
  (length (fst (poll_reads n d)) <= n)%nat /\
  (polled_ready (fst (poll_reads n d)) = false ->
   length (fst (poll_reads n d)) = n).
Proof.
  revert d. induction n as [|n IH]; intros d; simpl.
  - split; [lia | reflexivity].
  - destruct (status_read d) as [r d1].
    destruct (busy_flag (status_of r)) eqn:Hb.
    + specialize (IH d1). destruct (poll_reads n d1) as [rs d2]. simpl in *.
      destruct IH as [IH1 IH2]. split; [lia|].
      intros Hn. f_equal. apply IH2.
      unfold polled_ready in *. destruct rs as [|r' rs]; [reflexivity|].
      rewrite last_cons_cons in Hn. exact Hn.
    + simpl. split; [lia|]. unfold polled_ready. simpl. rewrite Hb. discriminate.
Qed.

Lemma poll_reads_range n (d : D) :
  Forall (fun r => 0 <= fst r < 256 /\ 0 <= snd r < 256) (fst (poll_reads n d)).
Proof.
  revert d. induction n as [|n IH]; intros d; simpl.
  - constructor.
  - pose proof (status_read_range d) as Hr.
    destruct (status_read d) as [r d1]. simpl in Hr.
    destruct (busy_flag (status_of r)).
    + specialize (IH d1). destruct (poll_reads n d1) as [rs d2]. simpl in *.
      constructor; assumption.
    + simpl. constructor; [assumption | constructor].
Qed.

(** Lines 110-115 and 164-169 in one step. *)
Lemma wait_ready_run n w :
  let '(rs, d) := poll_reads n (device w) in
  wait_ready n w =
    Ret (polled_ready rs)
        (World (set_State (polled_State (State (handle w)) rs) (handle w))
               (polled_counter (AddressCounter w) rs)
               d (trace w ++ poll_events rs)).
Proof.
  revert w. induction n as [|n IH]; intros w.
  - simpl. unfold ret, polled_State, polled_counter, poll_events. simpl.
    rewrite set_State_same, app_nil_r. destruct w; reflexivity.
  - cbn [poll_reads wait_ready]. unfold bind at 1.
    pose proof (Check_Status_run w) as Hc.
    destruct (status_read (device w)) as [r d1]. rewrite Hc. clear Hc.
    unfold bind, get_handle. cbn [handle State set_State].
    destruct (busy_flag (status_of r)) eqn:Hb; cbn [State_eqb].
    + match goal with |- context [wait_ready n ?w1] => specialize (IH w1) end.
      cbn [handle device trace AddressCounter State set_State] in IH.
      destruct (poll_reads n d1) as [rs d2]. rewrite IH. clear IH.
      unfold polled_ready, polled_State, polled_counter, poll_events.
      destruct rs as [|r' rs].
      * simpl. rewrite Hb, app_nil_r. reflexivity.
      * rewrite !last_cons_cons. cbn [map concat].
        rewrite <- !app_assoc.
        destruct (last (r' :: rs)) eqn:Hl; [reflexivity|].
        apply last_None in Hl. discriminate.
    + unfold ret, polled_ready, polled_State, polled_counter, poll_events.
      simpl. rewrite Hb. reflexivity.
Qed.

(** Lines 108-124 with the check requested. *)
Lemma confirm_busy_clear_run w :
  let '(rs, d) := poll_reads 20 (device w) in
  confirm_busy_clear true w =
    if polled_ready rs then
      Ret tt (World (set_State HD44780_READY (handle w))
                    (polled_counter (AddressCounter w) rs)
                    d (trace w ++ poll_events rs))
    else
      Spin (World (set_State HD44780_TIMEOUT (handle w))
                  (polled_counter (AddressCounter w) rs)
                  d (trace w ++ poll_events rs ++ [Error_Handler_Entered])).
Proof.
  pose proof (wait_ready_run 20 w) as Hw.
  destruct (poll_reads 20 (device w)) as [rs d].
  unfold confirm_busy_clear, bind. rewrite Hw. clear Hw.
  destruct (polled_ready rs) eqn:Hp.
  - unfold ret. do 2 f_equal.
    unfold polled_ready, polled_State in *.
    destruct (last rs) as [r|]; [|discriminate].
    destruct (busy_flag (status_of r)); [discriminate | reflexivity].
  - unfold set_handle_State, modify_handle, HD44780_Error_Handler.
    cbn [handle AddressCounter device trace State set_State State_eqb].
    rewrite <- app_assoc. reflexivity.
Qed.

Lemma confirm_busy_clear_skip w :
  confirm_busy_clear false w =
    Ret tt (World (set_State HD44780_READY (handle w)) (AddressCounter w)
                  (device w) (trace w)).
Proof. reflexivity. Qed.

(** Lines 85-106 and 135-159: the frame, then the confirmation. *)
Lemma Send_Command_frame c chk w :
  HD44780_Send_Command c chk w =
    confirm_busy_clear chk
      (World (set_State HD44780_BUSY (handle w)) (AddressCounter w)
             (drive (command_events c) (device w))
             (trace w ++ command_events c)).
Proof.
  unfold HD44780_Send_Command, bind, set_handle_State, modify_handle,
    HAL_I2C_Master_Transmit, HAL_Delay.
  cbn [handle AddressCounter device trace].
  rewrite command_byte_high.
  rewrite !wire_clear_en by apply high_nibble_range.
  rewrite command_byte_low by apply high_nibble_range.
  rewrite !wire_clear_en by apply low_nibble_range.
  unfold command_events. cbn [drive foldl].
  rewrite <- !app_assoc. reflexivity.
Qed.

Lemma Send_Data_frame c chk w :
  HD44780_Send_Data c chk w =
    confirm_busy_clear chk
      (World (set_State HD44780_BUSY (handle w)) (AddressCounter w)
             (drive (data_events c) (device w))
             (trace w ++ data_events c)).
Proof.
  unfold HD44780_Send_Data, bind, set_handle_State, modify_handle,
    HAL_I2C_Master_Transmit, HAL_Delay.
  cbn [handle AddressCounter device trace].
  rewrite data_byte_setup, data_byte_high.
  rewrite !wire_clear_en by apply high_nibble_range.
  rewrite data_byte_low by apply high_nibble_range.
  rewrite !wire_clear_en by apply low_nibble_range.
  unfold data_events. cbn [drive foldl].
  rewrite <- !app_assoc. reflexivity.
Qed.
End Runs.

(** ** Reading traces of frames and polls *)

Lemma emitted_app {D} (w w' : world D) evs :
  trace w' = trace w ++ evs -> emitted w w' = evs.
Proof. intros Ht. unfold emitted. rewrite Ht. apply drop_app_length. Qed.

Lemma emitted_World {D} (w : world D) h a d evs :
  emitted w (World h a d (trace w ++ evs)) = evs.
Proof. apply emitted_app. reflexivity. Qed.

Lemma emitted_refl {D} (w : world D) : emitted w w = [].
Proof. apply emitted_app. symmetry. apply app_nil_r. Qed.

Lemma tx_bytes_app t1 t2 : tx_bytes (t1 ++ t2) = tx_bytes t1 ++ tx_bytes t2.
Proof. apply omap_app. Qed.

Lemma rx_bytes_app t1 t2 : rx_bytes (t1 ++ t2) = rx_bytes t1 ++ rx_bytes t2.
Proof. apply omap_app. Qed.

Lemma strobes_app t1 t2 : strobes (t1 ++ t2) = strobes t1 ++ strobes t2.
Proof. unfold strobes. rewrite tx_bytes_app. apply omap_app. Qed.

Lemma handler_entries_app t1 t2 :
  handler_entries (t1 ++ t2) = (handler_entries t1 + handler_entries t2)%nat.
Proof. unfold handler_entries. rewrite List.filter_app. apply length_app. Qed.

Lemma tx_bytes_command c :
  tx_bytes (command_events c) =
    [wire (high_nibble c) true true false false;
     wire (high_nibble c) true false false false;
     wire (low_nibble c) true true false false;
     wire (low_nibble c) true false false false].
Proof. reflexivity. Qed.

Lemma tx_bytes_data c :
  tx_bytes (data_events c) =
    [wire 0 true false false true;
     wire (high_nibble c) true true false true;
     wire (high_nibble c) true false false true;
     wire (low_nibble c) true true false true;
     wire (low_nibble c) true false false true].
Proof. reflexivity. Qed.

Lemma tx_bytes_poll rs :
  Forall (fun b => rw_of b = true /\ backlight_of b = true)
         (tx_bytes (poll_events rs)).
Proof.
  unfold poll_events.
  induction rs as [|r rs IH]; [constructor|].
  cbn [map concat]. rewrite tx_bytes_app. apply Forall_app. split; [|exact IH].
  unfold status_events. cbn [tx_bytes omap list_omap].
  repeat (constructor; [split; reflexivity|]). constructor.
Qed.

Lemma strobes_command c :
  strobes (command_events c) = [(false, high_nibble c); (false, low_nibble c)].
Proof.
  unfold strobes. rewrite tx_bytes_command. cbn [omap list_omap].
  destruct (wire_bits (high_nibble c) true true false false (high_nibble_range c))
    as (Hn1 & _ & He1 & Hw1 & Hs1).
  destruct (wire_bits (high_nibble c) true false false false (high_nibble_range c))
    as (_ & _ & He2 & _ & _).
  destruct (wire_bits (low_nibble c) true true false false (low_nibble_range c))
    as (Hn3 & _ & He3 & Hw3 & Hs3).
  destruct (wire_bits (low_nibble c) true false false false (low_nibble_range c))
    as (_ & _ & He4 & _ & _).
  rewrite He1, Hw1, Hs1, Hn1, He2, He3, Hw3, Hs3, Hn3, He4. reflexivity.
Qed.

Lemma strobes_data c :
  strobes (data_events c) = [(true, high_nibble c); (true, low_nibble c)].
Proof.
  unfold strobes. rewrite tx_bytes_data. cbn [omap list_omap].
  destruct (wire_bits (high_nibble c) true true false true (high_nibble_range c))
    as (Hn1 & _ & He1 & Hw1 & Hs1).
  destruct (wire_bits (high_nibble c) true false false true (high_nibble_range c))
    as (_ & _ & He2 & _ & _).
  destruct (wire_bits (low_nibble c) true true false true (low_nibble_range c))
    as (Hn3 & _ & He3 & Hw3 & Hs3).
  destruct (wire_bits (low_nibble c) true false false true (low_nibble_range c))
    as (_ & _ & He4 & _ & _).
  rewrite He1, Hw1, Hs1, Hn1, He2, He3, Hw3, Hs3, Hn3, He4. reflexivity.
Qed.

Lemma strobes_poll rs : strobes (poll_events rs) = [].
Proof.
  unfold poll_events.
  induction rs as [|r rs IH]; [reflexivity|].
  cbn [map concat]. rewrite strobes_app, IH. reflexivity.
Qed.

Lemma rx_bytes_poll rs :
  rx_bytes (poll_events rs) = concat (map (fun r => [fst r; snd r]) rs).
Proof.
  unfold poll_events.
  induction rs as [|r rs IH]; [reflexivity|].
  cbn [map concat]. rewrite rx_bytes_app, IH. reflexivity.
Qed.

Lemma statuses_poll rs : statuses (poll_events rs) = map status_of rs.
Proof.
  unfold statuses. rewrite rx_bytes_poll.
  induction rs as [|[r1 r2] rs IH]; simpl; [reflexivity|].
  rewrite IH. reflexivity.
Qed.

Lemma handler_entries_poll rs : handler_entries (poll_events rs) = O.
Proof.
  unfold poll_events.
  induction rs as [|r rs IH]; [reflexivity|].
  cbn [map concat]. rewrite handler_entries_app, IH. reflexivity.
Qed.

(** Bytes come out of a frame the way they went in. *)
Lemma payloads_command c rest :
  pair_up (strobes (command_events c) ++ rest) = Instruction (u8 c) :: pair_up rest.
Proof. rewrite strobes_command. simpl. rewrite nibbles_u8. reflexivity. Qed.

Lemma payloads_data c rest :
  pair_up (strobes (data_events c) ++ rest) = Character (u8 c) :: pair_up rest.
Proof. rewrite strobes_data. simpl. rewrite nibbles_u8. reflexivity. Qed.

Section Sends.
Context {D : Type} `{!Bus D}.
Implicit Types (w : world D).

Lemma poll_reads_shape n (d : D) : poll_shape n (fst (poll_reads n d)).
Proof.
  pose proof (poll_reads_busy_prefix n d) as Hpre.
  pose proof (poll_reads_length n d) as [Hlen Hfull].
  pose proof (poll_reads_range n d) as Hrange.
  destruct (poll_reads n d) as [rs d']. simpl in *.
  split; [exact Hlen|]. split; [exact Hrange|].
  unfold polled_ready in *.
  destruct (last rs) as [r|] eqn:Hlast.
  - apply last_Some in Hlast as [rs0 ->].
    rewrite removelast_last in Hpre.
    destruct (busy_flag (status_of r)) eqn:Hb; simpl.
    + split; [auto|]. apply Forall_app. split; [exact Hpre|].
      constructor; [exact Hb | constructor].
    + exists rs0, r. auto.
  - split; [auto|]. apply last_None in Hlast. subst rs. constructor.
Qed.

Lemma Send_Command_run c w :
  HD44780_Send_Command c true w =
    let '(rs, d) := poll_reads 20 (drive (command_events c) (device w)) in
    confirmed w (command_events c) rs d.
Proof.
  rewrite Send_Command_frame.
  match goal with |- confirm_busy_clear true ?w1 = _ =>
    pose proof (confirm_busy_clear_run w1) as Hc end.
  cbn [handle AddressCounter device trace] in Hc.
  destruct (poll_reads 20 _) as [rs d]. rewrite Hc. unfold confirmed.
  rewrite <- !app_assoc. reflexivity.
Qed.

Lemma Send_Data_run c w :
  HD44780_Send_Data c true w =
    let '(rs, d) := poll_reads 20 (drive (data_events c) (device w)) in
    confirmed w (data_events c) rs d.
Proof.
  rewrite Send_Data_frame.
  match goal with |- confirm_busy_clear true ?w1 = _ =>
    pose proof (confirm_busy_clear_run w1) as Hc end.
  cbn [handle AddressCounter device trace] in Hc.
  destruct (poll_reads 20 _) as [rs d]. rewrite Hc. unfold confirmed.
  rewrite <- !app_assoc. reflexivity.
Qed.

Lemma Send_Command_checked c w :
  exists rs d, poll_shape 20 rs /\
    HD44780_Send_Command c true w = confirmed w (command_events c) rs d.
Proof.
  rewrite Send_Command_run.
  pose proof (poll_reads_shape 20 (drive (command_events c) (device w))) as Hs.
  destruct (poll_reads 20 _) as [rs d]. exists rs, d. auto.
Qed.

Lemma Send_Data_checked c w :
  exists rs d, poll_shape 20 rs /\
    HD44780_Send_Data c true w = confirmed w (data_events c) rs d.
Proof.
  rewrite Send_Data_run.
  pose proof (poll_reads_shape 20 (drive (data_events c) (device w))) as Hs.
  destruct (poll_reads 20 _) as [rs d]. exists rs, d. auto.
Qed.

Lemma Send_Command_unchecked c w :
  HD44780_Send_Command c false w =
    Ret tt (World (set_State HD44780_READY (handle w)) (AddressCounter w)
                  (drive (command_events c) (device w))
                  (trace w ++ command_events c)).
Proof. rewrite Send_Command_frame. reflexivity. Qed.

Lemma Send_Data_unchecked c w :
  HD44780_Send_Data c false w =
    Ret tt (World (set_State HD44780_READY (handle w)) (AddressCounter w)
                  (drive (data_events c) (device w))
                  (trace w ++ data_events c)).
Proof. rewrite Send_Data_frame. reflexivity. Qed.

(** What [confirmed] leaves behind, whichever way it ends. *)
Lemma confirmed_final w evs rs (d : D) :
  exists s tail,
    handle (final (confirmed w evs rs d)) = set_State s (handle w) /\
    trace (final (confirmed w evs rs d)) = trace w ++ evs ++ poll_events rs ++ tail /\
    (tail = [] \/ tail = [Error_Handler_Entered]) /\
    (returned (confirmed w evs rs d) = true -> s = HD44780_READY /\ tail = []).
Proof.
  unfold confirmed. destruct (polled_ready rs); simpl.
  - exists HD44780_READY, []. rewrite app_nil_r. auto.
  - exists HD44780_TIMEOUT, [Error_Handler_Entered]. repeat split; auto; discriminate.
Qed.

Lemma strobes_tail tail :
  tail = [] \/ tail = [Error_Handler_Entered] -> strobes tail = [].
Proof. intros [-> | ->]; reflexivity. Qed.

Lemma tx_bytes_tail tail :
  tail = [] \/ tail = [Error_Handler_Entered] -> tx_bytes tail = [].
Proof. intros [-> | ->]; reflexivity. Qed.
End Sends.

(** ** The driver on any bus *)

Section Claims.
Context {D : Type} `{!Bus D}.
Implicit Types (w : world D).

Lemma rx_bytes_tail tail :
  tail = [] \/ tail = [Error_Handler_Entered] -> rx_bytes tail = [].
Proof. intros [-> | ->]; reflexivity. Qed.

Lemma statuses_frame_poll evs rs tail :
  rx_bytes evs = [] -> rx_bytes tail = [] ->
  statuses (evs ++ poll_events rs ++ tail) = map status_of rs.
Proof.
  intros He Ht. rewrite <- statuses_poll. unfold statuses.
  rewrite !rx_bytes_app, He, Ht, app_nil_r. reflexivity.
Qed.

(** The bus writes of a checked send: the frame, then read-mode polls. *)
Lemma confirmed_tx w evs rs (d : D) :
  exists polls,
    tx_bytes (emitted w (final (confirmed w evs rs d))) = tx_bytes evs ++ polls /\
    Forall (fun b => rw_of b = true /\ backlight_of b = true) polls.
Proof.
  destruct (confirmed_final w evs rs d) as (s & tail & _ & Ht & Htail & _).
  rewrite (emitted_app _ _ _ Ht).
  exists (tx_bytes (poll_events rs)).
  rewrite !tx_bytes_app, (tx_bytes_tail _ Htail), app_nil_r.
  split; [reflexivity | apply tx_bytes_poll].
Qed.

(** C3, as amended.  A command frame is exactly four bus writes: high
    nibble with enable high, high nibble with enable low, low nibble
    with enable high, low nibble with enable low.  A data frame is five:
    one write that raises register select with enable low and a zero
    nibble, then the same four with register select high.  When the
    busy check is requested the only further writes are the read-mode
    writes of the status polls.  Every one of these writes has the
    backlight bit set. *)
Theorem framing_writes (c : Z) (chk : bool) w :
  let wc := final (HD44780_Send_Command c chk w) in
  let wd := final (HD44780_Send_Data c chk w) in
  (exists polls,
      tx_bytes (emitted w wc) =
        [wire (high_nibble c) true true false false;
         wire (high_nibble c) true false false false;
         wire (low_nibble c) true true false false;
         wire (low_nibble c) true false false false] ++ polls /\
      Forall (fun b => rw_of b = true) polls /\
      (if chk then True else polls = [])) /\
  (exists polls,
      tx_bytes (emitted w wd) =
        [wire 0 true false false true;
         wire (high_nibble c) true true false true;
         wire (high_nibble c) true false false true;
         wire (low_nibble c) true true false true;
         wire (low_nibble c) true false false true] ++ polls /\
      Forall (fun b => rw_of b = true) polls /\
      (if chk then True else polls = [])) /\
  Forall (fun b => backlight_of b = true) (tx_bytes (emitted w wc)) /\
  Forall (fun b => backlight_of b = true) (tx_bytes (emitted w wd)).
Proof.
  pose proof (wire_bits (high_nibble c)) as Hh.
  pose proof (wire_bits (low_nibble c)) as Hl.
  pose proof (high_nibble_range c) as Rh.
  pose proof (low_nibble_range c) as Rl.
  assert (Forall (fun b => backlight_of b = true) (tx_bytes (command_events c))) as Bc.
  { rewrite tx_bytes_command.
    repeat (constructor; [first [apply Hh | apply Hl]; assumption|]). constructor. }
  assert (Forall (fun b => backlight_of b = true) (tx_bytes (data_events c))) as Bd.
  { rewrite tx_bytes_data. constructor; [reflexivity|].
    repeat (constructor; [first [apply Hh | apply Hl]; assumption|]). constructor. }
  destruct chk; cbv zeta.
  - destruct (Send_Command_checked c w) as (rs & d & _ & ->).
    destruct (Send_Data_checked c w) as (rs' & d' & _ & ->).
    destruct (confirmed_tx w (command_events c) rs d) as (pc & Hc & Fc).
    destruct (confirmed_tx w (data_events c) rs' d') as (pd & Hd & Fd).
    rewrite Hc, Hd.
    repeat split.
    + exists pc. split; [reflexivity|]. split; [|exact I].
      eapply Forall_impl; [exact Fc|]. tauto.
    + exists pd. split; [reflexivity|]. split; [|exact I].
      eapply Forall_impl; [exact Fd|]. tauto.
    + apply Forall_app. split; [exact Bc|]. eapply Forall_impl; [exact Fc|]. tauto.
    + apply Forall_app. split; [exact Bd|]. eapply Forall_impl; [exact Fd|]. tauto.
  - rewrite Send_Command_unchecked, Send_Data_unchecked. cbn [final].
    rewrite !emitted_World.
    repeat split.
    + exists []. rewrite app_nil_r. auto.
    + exists []. rewrite app_nil_r. auto.
    + exact Bc.
    + exact Bd.
Qed.

(** C4.  When every status read of a checked send finds the busy flag
    set, twenty reads have been made, State is TIMEOUT, the error
    handler has been entered exactly once, and the call does not return:
    control stays in the handler with State still TIMEOUT. *)
Theorem timeout_escalation (is_data : bool) (c : Z) w :
  let o := if is_data then HD44780_Send_Data c true w
           else HD44780_Send_Command c true w in
  Forall (fun st => busy_flag st = true) (statuses (emitted w (final o))) ->
  length (statuses (emitted w (final o))) = 20%nat /\
  o = Spin (final o) /\
  State (handle (final o)) = HD44780_TIMEOUT /\
  handler_entries (emitted w (final o)) = 1%nat /\
  HD44780_Error_Handler (final o) = Spin (final (HD44780_Error_Handler (final o))) /\
  State (handle (final (HD44780_Error_Handler (final o)))) = HD44780_TIMEOUT.
Proof.
  cbv zeta.
  assert (exists evs rs d, poll_shape 20 rs /\ rx_bytes evs = [] /\
            handler_entries evs = O /\
            (if is_data then HD44780_Send_Data c true w
             else HD44780_Send_Command c true w) = confirmed w evs rs d)
    as (evs & rs & d & Hshape & Hrx & Hhe & ->).
  { destruct is_data.
    - destruct (Send_Data_checked c w) as (rs & d & Hs & Hr).
      exists (data_events c), rs, d. auto.
    - destruct (Send_Command_checked c w) as (rs & d & Hs & Hr).
      exists (command_events c), rs, d. auto. }
  destruct Hshape as (_ & _ & Hshape).
  unfold confirmed. destruct (polled_ready rs); cbn [final].
  - destruct Hshape as (rs0 & r & -> & _ & Hr).
    rewrite emitted_World.
    rewrite <- (app_nil_r (poll_events _)) at 1.
    rewrite statuses_frame_poll by auto.
    rewrite map_app, Forall_app. intros [_ Hall].
    inversion Hall as [|? ? Hb _]; subst. congruence.
  - destruct Hshape as (Hlen & Hbusy). intros _.
    rewrite emitted_World.
    rewrite statuses_frame_poll by auto.
    rewrite length_map, !handler_entries_app, Hhe, handler_entries_poll.
    repeat split; auto.
Qed.

(** C9.  Out of range, HD44780_Set_Cursor_Position returns at once and
    the world is what it was (no HAL call, no write to the handle or to
    AddressCounter); HD44780_Read_Character returns 0 and leaves the
    world as it was. *)
Theorem out_of_range_no_op (row column : Z) w :
  row >= HD44780_NUM_ROWS \/ column >= HD44780_NUM_COLS ->
  HD44780_Set_Cursor_Position row column w = Ret tt w /\
  HD44780_Read_Character row column w = Ret 0 w /\
  emitted w (final (HD44780_Set_Cursor_Position row column w)) = [] /\
  emitted w (final (HD44780_Read_Character row column w)) = [].
Proof.
  intros Hout.
  assert ((row >=? HD44780_NUM_ROWS) || (column >=? HD44780_NUM_COLS) = true) as Hb.
  { apply orb_true_iff. destruct Hout; [left | right]; apply Z.geb_le; lia. }
  unfold HD44780_Set_Cursor_Position, HD44780_Read_Character. rewrite Hb.
  unfold ret. cbn [final]. rewrite emitted_refl. auto.
Qed.

Lemma confirmed_payloads_command w c rs (d : D) :
  payloads (emitted w (final (confirmed w (command_events c) rs d)))
  = [Instruction (u8 c)].
Proof.
  destruct (confirmed_final w (command_events c) rs d) as (s & tail & _ & Ht & Htail & _).
  rewrite (emitted_app _ _ _ Ht). unfold payloads.
  rewrite !strobes_app, strobes_poll, (strobes_tail _ Htail).
  rewrite payloads_command. reflexivity.
Qed.

Lemma confirmed_payloads_data w c rs (d : D) :
  payloads (emitted w (final (confirmed w (data_events c) rs d)))
  = [Character (u8 c)].
Proof.
  destruct (confirmed_final w (data_events c) rs d) as (s & tail & _ & Ht & Htail & _).
  rewrite (emitted_app _ _ _ Ht). unfold payloads.
  rewrite !strobes_app, strobes_poll, (strobes_tail _ Htail).
  rewrite payloads_data. reflexivity.
Qed.

(** A checked send writes no handle field but State. *)
Lemma confirmed_frame w evs rs (d : D) :
  Cursor_Position (handle (final (confirmed w evs rs d))) = Cursor_Position (handle w) /\
  Text (handle (final (confirmed w evs rs d))) = Text (handle w) /\
  PowerState (handle (final (confirmed w evs rs d))) = PowerState (handle w).
Proof.
  destruct (confirmed_final w evs rs d) as (s & tail & -> & _). auto.
Qed.

Lemma Set_Cursor_Position_in_range row column w :
  0 <= row < HD44780_NUM_ROWS -> 0 <= column < HD44780_NUM_COLS ->
  HD44780_Set_Cursor_Position row column w =
    HD44780_Send_Command (0x80 + 0x40 * row + column) true w.
Proof.
  unfold HD44780_NUM_ROWS, HD44780_NUM_COLS. intros Hr Hc.
  unfold HD44780_Set_Cursor_Position, HD44780_NUM_ROWS, HD44780_NUM_COLS.
  assert ((row >=? 2) || (column >=? 16) = false) as ->.
  { apply orb_false_iff. split; rewrite Z.geb_leb; apply Z.leb_gt; lia. }
  assert (row = 0 \/ row = 1) as [-> | ->] by lia; cbn [Z.eqb].
  - f_equal. by_cases_below column 16.
  - f_equal. by_cases_below column 16.
Qed.

Lemma ddram_command_u8 row column :
  0 <= row < HD44780_NUM_ROWS -> 0 <= column < HD44780_NUM_COLS ->
  u8 (0x80 + 0x40 * row + column) = 0x80 + 0x40 * row + column.
Proof.
  unfold HD44780_NUM_ROWS, HD44780_NUM_COLS, u8. intros Hr Hc.
  apply Z.mod_small. lia.
Qed.

Lemma shift_loop_frame n w :
  Cursor_Position (handle (final (shift_loop n w))) = Cursor_Position (handle w) /\
  Text (handle (final (shift_loop n w))) = Text (handle w) /\
  PowerState (handle (final (shift_loop n w))) = PowerState (handle w).
Proof.
  revert w. induction n as [|n IH]; intros w; [simpl; auto|].
  cbn [shift_loop]. unfold bind. rewrite Send_Command_unchecked.
  unfold HAL_Delay. cbn [handle AddressCounter device trace].
  match goal with |- context [shift_loop n ?w1] => destruct (IH w1) as (H1 & H2 & H3) end.
  cbn [handle Cursor_Position Text PowerState set_State] in H1, H2, H3. auto.
Qed.

(** C10.  In range, HD44780_Set_Cursor_Position sends the one DDRAM
    address command, 0x80|column on row 0 and 0x80|0x40|column on row 1,
    and neither it nor what follows it inside HD44780_Send_Command
    writes Cursor_Position, Text or PowerState; the row and column
    getters called next return the values cached before the call.  The
    other calls that leave the cache alone are HD44780_Transmit_Command
    for commands other than CLEAR_DISPLAY and RETURN_HOME, and
    HD44780_Animate_Text. *)
Theorem set_cursor_keeps_cache (row column : Z) w :
  0 <= row < HD44780_NUM_ROWS -> 0 <= column < HD44780_NUM_COLS ->
  let w' := final (HD44780_Set_Cursor_Position row column w) in
  payloads (emitted w w') =
    [Instruction (if row =? 0 then Z.lor 0x80 column
                  else Z.lor (Z.lor 0x80 0x40) column)] /\
  Cursor_Position (handle w') = Cursor_Position (handle w) /\
  Text (handle w') = Text (handle w) /\
  PowerState (handle w') = PowerState (handle w) /\
  HD44780_Get_Row_Index w' = Ret (fst (Cursor_Position (handle w))) w' /\
  HD44780_Get_Column_Index w' = Ret (snd (Cursor_Position (handle w))) w' /\
  (forall cmd, cmd <> CLEAR_DISPLAY -> cmd <> RETURN_HOME ->
     Cursor_Position (handle (final (HD44780_Transmit_Command cmd w)))
     = Cursor_Position (handle w)) /\
  (forall n, Cursor_Position (handle (final (HD44780_Animate_Text n w)))
             = Cursor_Position (handle w)).
Proof.
  intros Hr Hc. cbv zeta.
  rewrite Set_Cursor_Position_in_range by assumption.
  destruct (Send_Command_checked (0x80 + 0x40 * row + column) w) as (rs & d & _ & ->).
  rewrite confirmed_payloads_command.
  destruct (confirmed_frame w (command_events (0x80 + 0x40 * row + column)) rs d)
    as (H1 & H2 & H3).
  unfold HD44780_Get_Row_Index, HD44780_Get_Column_Index, bind, get_handle, ret.
  rewrite H1, H2, H3, ddram_command_u8 by assumption.
  split.
  { unfold HD44780_NUM_ROWS, HD44780_NUM_COLS in *.
    assert (row = 0 \/ row = 1) as [-> | ->] by lia; cbn [Z.eqb];
      do 2 f_equal; symmetry; by_cases_below column 16. }
  repeat split.
  - intros cmd Hclear Hhome.
    unfold HD44780_Transmit_Command, bind, get_handle.
    destruct (PowerState (handle w)); destruct cmd; try congruence; try reflexivity;
      match goal with
      | |- context [HD44780_Send_Command ?c true w] =>
          destruct (Send_Command_checked c w) as (rs' & d' & _ & ->);
          apply confirmed_frame
      end.
  - intros n. unfold HD44780_Animate_Text, bind, get_handle.
    destruct (text_present_from _ _ _); [apply shift_loop_frame | reflexivity].
Qed.

(** C5.  HD44780_Transmit_Command by power state.  On: DISPLAY_ON does
    nothing; DISPLAY_OFF is the single byte 0 (backlight bit clear) and
    PowerState becomes OFF; every other command puts bytes on the bus and
    leaves PowerState ON.  Off: DISPLAY_ON is the single byte
    HD44780_BACKLIGHT and PowerState becomes ON; every other command,
    DISPLAY_OFF included, does nothing.  Nothing means: returns with the
    world unchanged.  Starting On, DISPLAY_OFF then DISPLAY_ON gives back
    the handle as it was. *)
Theorem command_dispatch (cmd : HD44780_User_Command_List) w :
  let o := HD44780_Transmit_Command cmd w in
  match PowerState (handle w), cmd with
  | LCD1602_ON, DISPLAY_ON => o = Ret tt w
  | LCD1602_ON, DISPLAY_OFF =>
      o = Ret tt (World (set_PowerState LCD1602_OFF (handle w)) (AddressCounter w)
                        (bus_write 0 (device w)) (trace w ++ [I2C_Tx 0])) /\
      backlight_of 0 = false
  | LCD1602_ON, _ =>
      tx_bytes (emitted w (final o)) <> [] /\
      PowerState (handle (final o)) = LCD1602_ON
  | LCD1602_OFF, DISPLAY_ON =>
      o = Ret tt (World (set_PowerState LCD1602_ON (handle w)) (AddressCounter w)
                        (bus_write HD44780_BACKLIGHT (device w))
                        (trace w ++ [I2C_Tx HD44780_BACKLIGHT])) /\
      backlight_of HD44780_BACKLIGHT = true
  | LCD1602_OFF, _ => o = Ret tt w
  end /\
  match PowerState (handle w) with
  | LCD1602_ON =>
      exists w1 w2,
        HD44780_Transmit_Command DISPLAY_OFF w = Ret tt w1 /\
        HD44780_Transmit_Command DISPLAY_OFF w1 = Ret tt w1 /\
        HD44780_Transmit_Command DISPLAY_ON w1 = Ret tt w2 /\
        handle w2 = handle w
  | LCD1602_OFF => True
  end.
Proof.
  cbv zeta. split.
  - unfold HD44780_Transmit_Command, bind, get_handle.
    destruct (PowerState (handle w)) eqn:HP; destruct cmd;
      try reflexivity; try (split; reflexivity);
      match goal with
      | |- context [HD44780_Send_Command ?c true w] =>
          destruct (Send_Command_checked c w) as (rs & d & _ & ->)
      end;
      unfold confirmed; destruct (polled_ready rs);
      unfold Clear_Text_Buffer, modify_handle, bind;
      cbn [final handle trace AddressCounter device PowerState set_State
             set_Text set_Cursor_Position];
      rewrite emitted_World, tx_bytes_app, tx_bytes_command;
      (split; [discriminate | exact HP]).
  - destruct (PowerState (handle w)) eqn:HP; [|exact I].
    unfold HD44780_Transmit_Command, bind, get_handle. rewrite HP.
    eexists. eexists.
    split; [reflexivity|].
    unfold HAL_I2C_Master_Transmit, modify_handle.
    cbn [handle PowerState set_PowerState AddressCounter device trace].
    split; [reflexivity|]. split; [reflexivity|].
    cbn [handle]. destruct (handle w) as [cp tx st ps]. simpl in *. subst ps.
    reflexivity.
Qed.

(** C1, as amended.  When the status read finds the busy flag clear,
    the cached cursor is (0, a) for a < 40 and (1, (a-64) mod 256)
    otherwise, [a] being the seven address bits of the status byte; that
    is (1, a-64) from a = 64 on, and (1, a+192) for 40 <= a < 64. *)
Theorem cursor_translation w (st : Z) :
  let w' := final (HD44780_Get_Cursor_Position w) in
  statuses (emitted w w') = [st] ->
  busy_flag st = false ->
  let a := address_of st in
  HD44780_Get_Cursor_Position w = Ret tt w' /\
  0 <= a < 128 /\
  AddressCounter w' = a /\
  Cursor_Position (handle w') = (if a <? 40 then (0, a) else (1, (a - 64) mod 256)) /\
  (a < 40 -> Cursor_Position (handle w') = (0, a)) /\
  (64 <= a -> Cursor_Position (handle w') = (1, a - 64)) /\
  (40 <= a < 64 -> Cursor_Position (handle w') = (1, a + 192)).
Proof.
  cbv zeta.
  unfold HD44780_Get_Cursor_Position, bind.
  pose proof (Check_Status_run w) as Hc.
  destruct (status_read (device w)) as [r d]. rewrite Hc. clear Hc.
  unfold get_AddressCounter, modify_handle.
  cbn [final handle AddressCounter device trace].
  rewrite emitted_World. intros Hst Hb.
  change (statuses (status_events r)) with [status_of r] in Hst.
  assert (status_of r = st) as Hr by congruence.
  rewrite Hr, Hb.
  pose proof (address_of_range st) as Ha.
  split; [reflexivity|]. split; [exact Ha|]. split; [reflexivity|].
  cbn [Cursor_Position set_Cursor_Position]. unfold cursor_of_address, u8.
  split; [reflexivity|].
  repeat split; intros Hcase.
  - destruct (address_of st <? 40) eqn:E; [reflexivity | apply Z.ltb_ge in E; lia].
  - destruct (address_of st <? 40) eqn:E; [apply Z.ltb_lt in E; lia|].
    rewrite Z.mod_small by lia. reflexivity.
  - destruct (address_of st <? 40) eqn:E; [apply Z.ltb_lt in E; lia|].
    f_equal.
    replace (address_of st - 64) with (address_of st + 192 + (-1) * 256) by lia.
    rewrite Z.mod_add by lia. apply Z.mod_small. lia.
Qed.
End Claims.

(** ** Sequences of frames *)

Section Frames.
Context {D : Type} `{!Bus D}.
Implicit Types (w : world D).

Lemma sent_by_refl w : sent_by w w [].
Proof. exists []. rewrite app_nil_r. auto. Qed.

Lemma sent_by_trans w w1 w2 ps qs :
  sent_by w w1 ps -> sent_by w1 w2 qs -> sent_by w w2 (ps ++ qs).
Proof.
  intros (e1 & H1 & S1) (e2 & H2 & S2). exists (e1 ++ e2).
  rewrite H2, H1, <- app_assoc, strobes_app, S1, S2, flat_map_app. auto.
Qed.

Lemma pair_up_nibbles ps :
  Forall byte_payload ps -> pair_up (flat_map nibbles ps) = ps.
Proof.
  induction 1 as [|p ps Hp _ IH]; [reflexivity|].
  destruct p as [c|c]; simpl in *; rewrite IH, nibbles_u8; unfold u8;
    rewrite Z.mod_small by lia; reflexivity.
Qed.

Lemma sent_by_payloads w w' ps :
  sent_by w w' ps -> Forall byte_payload ps -> payloads (emitted w w') = ps.
Proof.
  intros (evs & Ht & Hs) Hb. rewrite (emitted_app _ _ _ Ht).
  unfold payloads. rewrite Hs. apply pair_up_nibbles. exact Hb.
Qed.

Lemma same_cache_refl w : same_cache w w.
Proof. unfold same_cache. auto. Qed.

Lemma same_cache_trans w w1 w2 :
  same_cache w w1 -> same_cache w1 w2 -> same_cache w w2.
Proof. unfold same_cache. intros (A & B & C) (A' & B' & C'). rewrite A', B', C'. auto. Qed.

(** A checked send that returns. *)
Lemma confirmed_Ret w evs rs (d : D) w' :
  confirmed w evs rs d = Ret tt w' ->
  handle w' = set_State HD44780_READY (handle w) /\
  trace w' = trace w ++ evs ++ poll_events rs.
Proof.
  unfold confirmed. destruct (polled_ready rs); [|discriminate].
  intros [= <-]. auto.
Qed.

Lemma Send_Data_Ret c w w' :
  HD44780_Send_Data c true w = Ret tt w' ->
  same_cache w w' /\ sent_by w w' [Character (u8 c)].
Proof.
  destruct (Send_Data_checked c w) as (rs & d & _ & ->).
  intros Hr. apply confirmed_Ret in Hr as [Hh Ht]. split.
  - unfold same_cache. rewrite Hh. auto.
  - exists (data_events c ++ poll_events rs). split; [exact Ht|].
    rewrite strobes_app, strobes_poll, strobes_data, app_nil_r.
    simpl. rewrite high_nibble_u8, low_nibble_u8. reflexivity.
Qed.

Lemma Send_Command_Ret c w w' :
  HD44780_Send_Command c true w = Ret tt w' ->
  same_cache w w' /\ sent_by w w' [Instruction (u8 c)].
Proof.
  destruct (Send_Command_checked c w) as (rs & d & _ & ->).
  intros Hr. apply confirmed_Ret in Hr as [Hh Ht]. split.
  - unfold same_cache. rewrite Hh. auto.
  - exists (command_events c ++ poll_events rs). split; [exact Ht|].
    rewrite strobes_app, strobes_poll, strobes_command, app_nil_r.
    simpl. rewrite high_nibble_u8, low_nibble_u8. reflexivity.
Qed.

Lemma Set_Cursor_Position_Ret row column w w' :
  0 <= row < HD44780_NUM_ROWS -> 0 <= column < HD44780_NUM_COLS ->
  HD44780_Set_Cursor_Position row column w = Ret tt w' ->
  same_cache w w' /\ sent_by w w' [Instruction (0x80 + 0x40 * row + column)].
Proof.
  intros Hr Hc. rewrite Set_Cursor_Position_in_range by assumption.
  intros Hs. apply Send_Command_Ret in Hs.
  rewrite ddram_command_u8 in Hs by assumption. exact Hs.
Qed.

Lemma Get_Cursor_Position_run w :
  let '(r, d) := status_read (device w) in
  let a := if busy_flag (status_of r) then AddressCounter w
           else address_of (status_of r) in
  HD44780_Get_Cursor_Position w =
    Ret tt (World
              (set_Cursor_Position (cursor_of_address a)
                 (set_State (if busy_flag (status_of r) then HD44780_BUSY
                             else HD44780_READY) (handle w)))
              a d (trace w ++ status_events r)).
Proof.
  unfold HD44780_Get_Cursor_Position, bind.
  pose proof (Check_Status_run w) as Hc.
  destruct (status_read (device w)) as [r d]. rewrite Hc. reflexivity.
Qed.

Lemma Get_Cursor_Position_sent w :
  exists w', HD44780_Get_Cursor_Position w = Ret tt w' /\
             sent_by w w' [] /\
             Text (handle w') = Text (handle w) /\
             PowerState (handle w') = PowerState (handle w).
Proof.
  pose proof (Get_Cursor_Position_run w) as Hg.
  destruct (status_read (device w)) as [r d]. cbv zeta in Hg.
  eexists. split; [exact Hg|]. split; [|auto].
  exists (status_events r). split; [reflexivity|].
  change (status_events r) with (poll_events [r] ++ []) at 1.
  rewrite strobes_app, strobes_poll. reflexivity.
Qed.
End Frames.

(** ** Printing and clearing, on any bus *)

Section Mirror.
Context {D : Type} `{!Bus D}.
Implicit Types (w : world D).

Lemma u8_idem c : u8 (u8 c) = u8 c.
Proof. unfold u8. apply Z.mod_mod. lia. Qed.

Lemma characters_Character c ps :
  characters (Character c :: ps) = c :: characters ps.
Proof. reflexivity. Qed.

Lemma characters_Instruction c ps :
  characters (Instruction c :: ps) = characters ps.
Proof. reflexivity. Qed.

(** Line 389-391: no room left. *)
Lemma Print_loop_full start i c rest w b w' :
  start + i > HD44780_NUM_ELEMENTS - 1 ->
  Print_loop start i (c :: rest) w = Ret b w' ->
  b = true /\ same_cache w w' /\ sent_by w w' [Instruction 0x80].
Proof.
  intros Hover Hrun. cbn [Print_loop] in Hrun.
  assert ((start + i >? HD44780_NUM_ELEMENTS - 1) = true) as Hb by (apply Z.gtb_lt; lia).
  rewrite Hb in Hrun.
  apply bind_Ret_inv in Hrun as ([] & w1 & Hset & Hret).
  unfold ret in Hret. injection Hret as <- <-.
  apply Set_Cursor_Position_Ret in Hset as [Hc Hsent];
    [| unfold HD44780_NUM_ROWS; lia | unfold HD44780_NUM_COLS; lia].
  auto.
Qed.

(** Lines 394-399 once HD44780_Send_Data has returned: the mirror is
    written and the reposition test follows. *)
Lemma Print_loop_body start i c rest w w1 :
  start + i <= HD44780_NUM_ELEMENTS - 1 ->
  HD44780_Send_Data (u8 c) true w = Ret tt w1 ->
  Print_loop start i (c :: rest) w
  = bind (if AddressCounter w1 =? HD44780_NUM_COLS
          then HD44780_Set_Cursor_Position 1 0 else ret tt)
         (fun _ => Print_loop start (i + 1) rest)
         (World (set_Text (<[Z.to_nat (start + i) := c]> (Text (handle w1))) (handle w1))
                (AddressCounter w1) (device w1) (trace w1)).
Proof.
  intros Hfit Hrun. cbn [Print_loop].
  assert ((start + i >? HD44780_NUM_ELEMENTS - 1) = false) as ->
      by (rewrite Z.gtb_ltb; apply Z.ltb_ge; lia).
  rewrite (bind_Ret _ _ _ _ _ Hrun), bind_modify_handle, bind_get_AddressCounter.
  reflexivity.
Qed.

(** Lines 394-399: one character sent and mirrored. *)
Lemma Print_loop_step start i c rest w b w' :
  start + i <= HD44780_NUM_ELEMENTS - 1 ->
  Print_loop start i (c :: rest) w = Ret b w' ->
  exists w3 q,
    Print_loop start (i + 1) rest w3 = Ret b w' /\
    Text (handle w3) = <[Z.to_nat (start + i) := c]> (Text (handle w)) /\
    Cursor_Position (handle w3) = Cursor_Position (handle w) /\
    PowerState (handle w3) = PowerState (handle w) /\
    sent_by w w3 (Character (u8 c) :: q) /\
    (q = [] \/ q = [Instruction 0xC0]).
Proof.
  intros Hfit Hrun. cbn [Print_loop] in Hrun.
  assert ((start + i >? HD44780_NUM_ELEMENTS - 1) = false) as Hb
      by (rewrite Z.gtb_ltb; apply Z.ltb_ge; lia).
  rewrite Hb in Hrun. clear Hb.
  apply bind_Ret_inv in Hrun as ([] & w1 & Hdata & Hrun).
  apply Send_Data_Ret in Hdata as [(A1 & B1 & C1) S1]. rewrite u8_idem in S1.
  apply bind_Ret_inv in Hrun as ([] & w2 & Hmod & Hrun).
  unfold modify_handle in Hmod. injection Hmod as <-.
  apply bind_Ret_inv in Hrun as (a & w2' & Hget & Hrun).
  unfold get_AddressCounter in Hget. injection Hget as <- <-.
  apply bind_Ret_inv in Hrun as ([] & w3 & Hset & Hrun).
  cbn [AddressCounter] in Hset.
  exists w3.
  destruct (AddressCounter w1 =? HD44780_NUM_COLS).
  - apply Set_Cursor_Position_Ret in Hset as [(A3 & B3 & C3) S3];
      [| unfold HD44780_NUM_ROWS; lia | unfold HD44780_NUM_COLS; lia].
    cbn [handle Cursor_Position Text PowerState set_Text] in A3, B3, C3.
    exists [Instruction 0xC0].
    split; [exact Hrun|]. rewrite A3, B3, C3, A1, B1, C1.
    split; [reflexivity|]. split; [reflexivity|]. split; [reflexivity|].
    split; [|auto].
    destruct S1 as (e1 & T1 & E1). destruct S3 as (e3 & T3 & E3).
    cbn [trace] in T3.
    exists (e1 ++ e3). rewrite T3, T1, <- app_assoc, strobes_app, E1, E3.
    split; reflexivity.
  - unfold ret in Hset. injection Hset as <-.
    exists []. split; [exact Hrun|].
    cbn [handle Cursor_Position Text PowerState set_Text].
    rewrite A1, B1, C1.
    split; [reflexivity|]. split; [reflexivity|]. split; [reflexivity|].
    split; [|auto].
    destruct S1 as (e1 & T1 & E1). exists e1. auto.
Qed.

Lemma Print_loop_Ret chars :
  forall start i w b w',
    0 <= start + i ->
    Print_loop start i chars w = Ret b w' ->
    let k := Nat.min (length chars)
                     (Z.to_nat (HD44780_NUM_ELEMENTS - (start + i))) in
    b = (k <? length chars)%nat /\
    Text (handle w') =
      list_inserts (Z.to_nat (start + i)) (take k chars) (Text (handle w)) /\
    Cursor_Position (handle w') = Cursor_Position (handle w) /\
    PowerState (handle w') = PowerState (handle w) /\
    exists sent,
      sent_by w w' (sent ++ (if b then [Instruction 0x80] else [])) /\
      characters sent = map u8 (take k chars) /\
      Forall (fun p => p = Instruction 0xC0 \/ exists c, p = Character (u8 c)) sent.
Proof.
  induction chars as [|c rest IH]; intros start i w b w' Hpos Hrun; cbv zeta.
  - cbn [Print_loop] in Hrun. unfold ret in Hrun. injection Hrun as <- <-.
    cbn [length Nat.min Nat.ltb Nat.leb take list_inserts].
    repeat split; auto. exists []. cbn [app].
    split; [apply sent_by_refl | split; [reflexivity | constructor]].
  - change HD44780_NUM_ELEMENTS with 32.
    destruct (Z_gt_le_dec (start + i) 31) as [Hover | Hfit].
    + apply Print_loop_full in Hrun as (-> & (A & B & C) & Hsent);
        [| change HD44780_NUM_ELEMENTS with 32; lia].
      replace (Z.to_nat (32 - (start + i))) with O by lia.
      rewrite Nat.min_0_r. cbn [length Nat.ltb Nat.leb take list_inserts].
      repeat split; auto. exists []. cbn [app].
      split; [exact Hsent | split; [reflexivity | constructor]].
    + apply Print_loop_step in Hrun as (w3 & q & Hrest & B3 & A3 & C3 & S3 & Hq);
        [| change HD44780_NUM_ELEMENTS with 32; lia].
      apply IH in Hrest; [|lia]. cbv zeta in Hrest.
      change HD44780_NUM_ELEMENTS with 32 in Hrest.
      destruct Hrest as (Hb & HT & HC & HP & sent & Hsent & Hchars & Hall).
      replace (Z.to_nat (32 - (start + i)))
        with (S (Z.to_nat (32 - (start + (i + 1))))) by lia.
      cbn [length]. rewrite <- Nat.succ_min_distr.
      split; [exact Hb|].
      split.
      { rewrite HT, B3.
        replace (Z.to_nat (start + (i + 1))) with (S (Z.to_nat (start + i))) by lia.
        cbn [take list_inserts].
        rewrite list_insert_inserts_lt by lia. reflexivity. }
      split; [rewrite HC; exact A3|].
      split; [rewrite HP; exact C3|].
      exists (Character (u8 c) :: q ++ sent).
      split.
      { pose proof (sent_by_trans _ _ _ _ _ S3 Hsent) as Hs.
        cbn [app] in Hs. rewrite app_assoc in Hs. exact Hs. }
      split.
      { cbn [take map]. rewrite characters_Character. f_equal.
        destruct Hq as [-> | ->]; cbn [app];
          rewrite ?characters_Instruction; exact Hchars. }
      constructor; [right; eauto|].
      apply Forall_app. split; [|exact Hall].
      destruct Hq as [-> | ->]; repeat constructor.
Qed.

Lemma clear_from_lookup n : forall i (t : list Z) j,
  clear_from i n t !! j =
    if decide ((i <= j < i + n)%nat /\ (j < length t)%nat) then Some 0 else t !! j.
Proof.
  induction n as [|n IH]; intros i t j; cbn [clear_from].
  - case_decide; [lia | reflexivity].
  - rewrite IH, length_insert, list_lookup_insert.
    repeat case_decide; try lia; try reflexivity.
Qed.

Lemma Clear_Text_Buffer_all h :
  handle_wf h ->
  clear_from 0 (Z.to_nat HD44780_NUM_ELEMENTS) (Text h)
  = replicate (Z.to_nat HD44780_NUM_ELEMENTS) 0.
Proof.
  unfold handle_wf. intros Hwf. apply list_eq. intros j.
  rewrite clear_from_lookup, Hwf.
  case_decide as Hj.
  - symmetry. apply lookup_replicate_2. lia.
  - rewrite lookup_ge_None_2 by lia.
    symmetry. apply lookup_replicate_None. lia.
Qed.

Lemma default_lookup_replicate n (i : nat) :
  default 0 (replicate n 0 !! i) = 0.
Proof.
  destruct (replicate n 0 !! i) as [x|] eqn:Hl; [|reflexivity].
  apply lookup_replicate in Hl as [-> _]. reflexivity.
Qed.

(** Lines 312-318 once HD44780_Send_Command has returned, on any bus:
    every one of the 32 cells of the mirror is zero and the cached cursor
    is (0, 0), so HD44780_Read_Character returns 0 for every coordinate
    and both index getters return 0. *)
Lemma clear_display_Ret w w' :
  PowerState (handle w) = LCD1602_ON ->
  handle_wf (handle w) ->
  HD44780_Transmit_Command CLEAR_DISPLAY w = Ret tt w' ->
  Text (handle w') = replicate (Z.to_nat HD44780_NUM_ELEMENTS) 0 /\
  Cursor_Position (handle w') = (0, 0) /\
  (forall row column, HD44780_Read_Character row column w' = Ret 0 w') /\
  HD44780_Get_Row_Index w' = Ret 0 w' /\
  HD44780_Get_Column_Index w' = Ret 0 w'.
Proof.
  intros HP Hwf Hrun. unfold HD44780_Transmit_Command in Hrun.
  apply bind_Ret_inv in Hrun as (h & w0 & Hget & Hrun).
  apply get_handle_inv in Hget as [-> ->]. rewrite HP in Hrun.
  apply bind_Ret_inv in Hrun as ([] & w1 & Hsend & Hrun).
  apply Send_Command_Ret in Hsend as [(A1 & B1 & C1) _].
  apply bind_Ret_inv in Hrun as ([] & w2 & Hclear & Hrun).
  apply modify_handle_inv in Hclear. apply modify_handle_inv in Hrun.
  subst w' w2.
  cbn [handle Text Cursor_Position set_Cursor_Position set_Text].
  assert (handle_wf (handle w1)) as Hwf1 by (unfold handle_wf; rewrite B1; exact Hwf).
  rewrite (Clear_Text_Buffer_all _ Hwf1).
  split; [reflexivity|]. split; [reflexivity|].
  split; [|split; reflexivity].
  intros row column. unfold HD44780_Read_Character.
  destruct ((row >=? HD44780_NUM_ROWS) || (column >=? HD44780_NUM_COLS));
    [reflexivity|].
  unfold bind, get_handle, ret.
  cbn [handle Text set_Cursor_Position set_Text].
  rewrite default_lookup_replicate. reflexivity.
Qed.

Lemma Print_unfold str w :
  HD44780_Print str w =
    (let w0 := final (HD44780_Get_Cursor_Position w) in
     let row := fst (Cursor_Position (handle w0)) in
     let column := snd (Cursor_Position (handle w0)) in
     let startindex := u8 (row * HD44780_NUM_COLS + column) in
     bind (Print_loop startindex 0 (take (strlen str) str))
          (fun early => if early : bool then ret tt
                        else HD44780_Get_Cursor_Position) w0).
Proof.
  unfold HD44780_Print.
  destruct (Get_Cursor_Position_sent w) as (w0 & Hg & _).
  unfold bind at 1. rewrite Hg. reflexivity.
Qed.

(** Lines 381-402 once every send has returned, on any bus, for a string
    that is not empty and does not fit between the start index and the
    end of the mirror: the mirror has received exactly the characters
    that fit, at consecutive indices from the start index; exactly those
    characters were sent as data, then the DDRAM address command for
    (0, 0) as the last byte, and nothing for the rest of the string.  The
    cached cursor is the one read at the start of the call. *)
Lemma Print_Ret_truncates (str : list Z) w w' :
  let chars := take (strlen str) str in
  let w0 := final (HD44780_Get_Cursor_Position w) in
  let start := u8 (fst (Cursor_Position (handle w0)) * HD44780_NUM_COLS
                   + snd (Cursor_Position (handle w0))) in
  chars <> [] ->
  start + Z.of_nat (length chars) - 1 > HD44780_NUM_ELEMENTS - 1 ->
  HD44780_Print str w = Ret tt w' ->
  let k := Z.to_nat (HD44780_NUM_ELEMENTS - start) in
  (k < length chars)%nat /\
  Text (handle w') = list_inserts (Z.to_nat start) (take k chars) (Text (handle w)) /\
  (exists sent,
      payloads (emitted w w') = sent ++ [Instruction 0x80] /\
      characters sent = map u8 (take k chars) /\
      Forall (fun p => p = Instruction 0xC0 \/ exists c, p = Character (u8 c)) sent) /\
  Cursor_Position (handle w') = Cursor_Position (handle w0).
Proof.
  cbv zeta. intros Hne Hover Hrun.
  rewrite Print_unfold in Hrun. cbv zeta in Hrun.
  destruct (Get_Cursor_Position_sent w) as (w0 & Hg & S0 & T0 & _).
  rewrite Hg in *. cbn [final] in *.
  set (start := u8 (fst (Cursor_Position (handle w0)) * HD44780_NUM_COLS
                    + snd (Cursor_Position (handle w0)))) in *.
  assert (0 <= start < 256) as Hstart by apply u8_range.
  apply bind_Ret_inv in Hrun as (early & w1 & Hloop & Hend).
  apply Print_loop_Ret in Hloop; [|lia]. cbv zeta in Hloop.
  rewrite Z.add_0_r in Hloop.
  change HD44780_NUM_ELEMENTS with 32 in *.
  set (chars := take (strlen str) str) in *.
  clearbody start chars.
  assert (0 < length chars)%nat as Hlen by (destruct chars; [congruence | simpl; lia]).
  assert (Nat.min (length chars) (Z.to_nat (32 - start)) = Z.to_nat (32 - start))
    as Hk by (apply Nat.min_r; lia).
  rewrite Hk in Hloop.
  destruct Hloop as (Hb & HT & HC & _ & sent & Hsent & Hchars & Hall).
  assert (early = true) as -> by (rewrite Hb; apply Nat.ltb_lt; lia).
  apply ret_inv in Hend as [_ ->].
  split; [lia|]. split; [rewrite HT, T0; reflexivity|].
  split; [|exact HC].
  exists sent. split; [|auto].
  apply sent_by_payloads.
  - apply (sent_by_trans _ _ _ _ _ S0 Hsent).
  - cbn [app]. apply Forall_app. split.
    + eapply Forall_impl; [exact Hall|]. intros p [-> | [c ->]]; simpl;
        [lia | apply u8_range].
    + constructor; [simpl; lia | constructor].
Qed.
End Mirror.

(** ** The controller model under the driver's frames *)

Lemma wire_en h bl en rw rs : 0 <= h < 16 -> en_of (wire h bl en rw rs) = en.
Proof. intros Hh. apply (wire_bits h bl en rw rs Hh). Qed.

Lemma wire_rw h bl en rw rs : 0 <= h < 16 -> rw_of (wire h bl en rw rs) = rw.
Proof. intros Hh. apply (wire_bits h bl en rw rs Hh). Qed.

Lemma wire_rs h bl en rw rs : 0 <= h < 16 -> rs_of (wire h bl en rw rs) = rs.
Proof. intros Hh. apply (wire_bits h bl en rw rs Hh). Qed.

Lemma wire_nibble h bl en rw rs : 0 <= h < 16 -> nibble_of (wire h bl en rw rs) = h.
Proof. intros Hh. apply (wire_bits h bl en rw rs Hh). Qed.

Lemma lcd_write_low b p pe rl ac dd br lat :
  en_of p = false ->
  lcd_write b (Lcd p pe rl ac dd br lat) = Lcd b pe rl ac dd br lat.
Proof. intros He. unfold lcd_write. cbn [pins]. rewrite He. reflexivity. Qed.

Lemma lcd_write_read_high b p pe ac dd br lat :
  en_of p = true -> en_of b = false -> rw_of p = true ->
  lcd_write b (Lcd p pe false ac dd br lat) = Lcd b pe true ac dd br lat.
Proof.
  intros He Hb Hw. unfold lcd_write, lcd_falling_edge. cbn [pins read_low].
  rewrite He, Hb, Hw. reflexivity.
Qed.

Lemma lcd_write_read_low b p pe ac dd br lat :
  en_of p = true -> en_of b = false -> rw_of p = true ->
  lcd_write b (Lcd p pe true ac dd br lat) = Lcd b pe false ac dd (pred br) lat.
Proof.
  intros He Hb Hw. unfold lcd_write, lcd_falling_edge. cbn [pins read_low].
  rewrite He, Hb, Hw. reflexivity.
Qed.

Lemma lcd_write_first b p rl ac dd br lat :
  en_of p = true -> en_of b = false -> rw_of p = false ->
  lcd_write b (Lcd p None rl ac dd br lat)
  = Lcd b (Some (nibble_of p)) rl ac dd br lat.
Proof.
  intros He Hb Hw. unfold lcd_write, lcd_falling_edge. cbn [pins pending].
  rewrite He, Hb, Hw. reflexivity.
Qed.

Lemma lcd_write_second b p hi rl ac dd br lat :
  en_of p = true -> en_of b = false -> rw_of p = false ->
  lcd_write b (Lcd p (Some hi) rl ac dd br lat)
  = Lcd b None rl (lcd_next_AC (rs_of p) (16 * hi + nibble_of p) ac)
        (lcd_next_DDRAM (rs_of p) (16 * hi + nibble_of p) ac dd) lat lat.
Proof.
  intros He Hb Hw. unfold lcd_write, lcd_falling_edge. cbn [pins pending].
  rewrite He, Hb, Hw. reflexivity.
Qed.

Lemma lcd_read_status p pe rl ac dd br lat :
  en_of p = true -> rw_of p = true -> rs_of p = false ->
  lcd_read (Lcd p pe rl ac dd br lat)
  = (16 * (if rl then status_byte br ac mod 16 else status_byte br ac / 16) + p mod 16,
     Lcd p pe rl ac dd br lat).
Proof.
  intros He Hw Hs. unfold lcd_read, lcd_status. cbn [pins read_low busy_reads AC].
  rewrite He, Hw, Hs. reflexivity.
Qed.

Lemma status_byte_range br ac : 0 <= ac < 128 -> 0 <= status_byte br ac < 256.
Proof. unfold status_byte. destruct (Nat.ltb 0 br); lia. Qed.

(** One status read of the controller at rest. *)
Lemma lcd_status_read p pe ac dd br lat :
  en_of p = false -> 0 <= ac < 128 ->
  status_read (Lcd p pe false ac dd br lat) =
    ((16 * (status_byte br ac / 16) + 14, 16 * (status_byte br ac mod 16) + 14),
     Lcd (wire 15 true false true false) pe false ac dd (pred br) lat).
Proof.
  intros He Ha. pose proof (status_byte_range br ac Ha) as Hst.
  unfold status_read. cbn [drive foldl bus_write bus_elapse bus_read lcd_bus].
  rewrite (lcd_write_low _ p) by exact He.
  rewrite lcd_write_low by reflexivity.
  rewrite lcd_read_status by reflexivity.
  rewrite lcd_write_read_high by reflexivity.
  rewrite lcd_write_low by reflexivity.
  rewrite lcd_read_status by reflexivity.
  rewrite lcd_write_read_low by reflexivity.
  change (wire 15 true true true false mod 16) with 14.
  assert (0 <= status_byte br ac / 16 < 16)
    by (split; [apply Z.div_pos | apply Z.div_lt_upper_bound]; lia).
  assert (0 <= status_byte br ac mod 16 < 16) by (apply Z.mod_pos_bound; lia).
  unfold u8. rewrite !Z.mod_small by lia. reflexivity.
Qed.

Lemma status_of_lcd st :
  0 <= st < 256 -> status_of (16 * (st / 16) + 14, 16 * (st mod 16) + 14) = st.
Proof. intros Hst. unfold status_of. cbn [fst snd]. by_cases_below st 256. Qed.

Lemma status_byte_busy br ac :
  0 <= ac < 128 -> busy_flag (status_byte br ac) = Nat.ltb 0 br.
Proof.
  intros Ha. unfold status_byte, busy_flag.
  destruct (Nat.ltb 0 br); by_cases_below ac 128.
Qed.

Lemma status_byte_address br ac :
  0 <= ac < 128 -> address_of (status_byte br ac) = ac.
Proof.
  intros Ha. unfold status_byte, address_of.
  destruct (Nat.ltb 0 br); by_cases_below ac 128.
Qed.

(** The polling loop against the controller: it sees the flag clear after
    [br] busy reads, as long as the budget is larger. *)
Lemma lcd_poll br : forall n p pe ac dd lat (a0 : Z),
  (br < n)%nat -> en_of p = false -> 0 <= ac < 128 ->
  exists rs,
    poll_reads n (Lcd p pe false ac dd br lat)
    = (rs, Lcd (wire 15 true false true false) pe false ac dd O lat) /\
    polled_ready rs = true /\
    polled_counter a0 rs = ac.
Proof.
  induction br as [|br IH]; intros n p pe ac dd lat a0 Hn He Ha;
    (destruct n as [|n]; [lia|]); cbn [poll_reads];
    rewrite lcd_status_read by assumption;
    rewrite status_of_lcd by (apply status_byte_range; exact Ha);
    rewrite status_byte_busy by exact Ha.
  - cbn [Nat.ltb Nat.leb pred]. eexists. split; [reflexivity|].
    unfold polled_ready, polled_counter. cbn [last].
    rewrite status_of_lcd by (apply status_byte_range; exact Ha).
    rewrite status_byte_busy, status_byte_address by exact Ha.
    split; reflexivity.
  - cbn [Nat.ltb Nat.leb pred].
    destruct (IH n (wire 15 true false true false) pe ac dd lat a0
                ltac:(lia) eq_refl Ha) as (rs & Hp & Hr & Hc).
    rewrite Hp. eexists. split; [reflexivity|].
    unfold polled_ready, polled_counter in *.
    destruct rs as [|r rs]; [discriminate|].
    rewrite !last_cons_cons. auto.
Qed.

Ltac nibble_side :=
  first [ assumption | reflexivity
        | apply high_nibble_range | apply low_nibble_range | lia
        | rewrite wire_en by nibble_side; reflexivity
        | rewrite wire_rw by nibble_side; reflexivity ].

Lemma lcd_drive_command c p rl ac dd br lat :
  en_of p = false ->
  drive (command_events c) (Lcd p None rl ac dd br lat) =
    Lcd (wire (low_nibble c) true false false false) None rl
        (lcd_next_AC false (u8 c) ac) (lcd_next_DDRAM false (u8 c) ac dd) lat lat.
Proof.
  intros He. unfold command_events.
  cbn [drive foldl bus_write bus_elapse lcd_bus].
  rewrite (lcd_write_low _ p) by exact He.
  rewrite lcd_write_first by nibble_side.
  rewrite lcd_write_low by nibble_side.
  rewrite lcd_write_second by nibble_side.
  rewrite !wire_nibble, wire_rs, nibbles_u8 by nibble_side.
  reflexivity.
Qed.

Lemma lcd_drive_data c p rl ac dd br lat :
  en_of p = false ->
  drive (data_events c) (Lcd p None rl ac dd br lat) =
    Lcd (wire (low_nibble c) true false false true) None rl
        (lcd_next_AC true (u8 c) ac) (lcd_next_DDRAM true (u8 c) ac dd) lat lat.
Proof.
  intros He. unfold data_events.
  cbn [drive foldl bus_write bus_elapse lcd_bus].
  rewrite (lcd_write_low _ p) by exact He.
  rewrite lcd_write_low by reflexivity.
  rewrite lcd_write_first by nibble_side.
  rewrite lcd_write_low by nibble_side.
  rewrite lcd_write_second by nibble_side.
  rewrite !wire_nibble, wire_rs, nibbles_u8 by nibble_side.
  reflexivity.
Qed.

Lemma next_address_range a : 0 <= next_address a < 128.
Proof.
  unfold next_address.
  destruct (a =? 0x27); [lia|]. destruct (a =? 0x67); [lia|].
  apply Z.mod_pos_bound. lia.
Qed.

Lemma lcd_next_AC_range rs c ac : 0 <= ac < 128 -> 0 <= lcd_next_AC rs c ac < 128.
Proof.
  intros Ha. unfold lcd_next_AC.
  destruct rs; [apply next_address_range|].
  destruct (Z.testbit c 7); [apply (address_of_range c)|].
  destruct (c =? 1); [lia|]. destruct (Z.land c 254 =? 2); lia.
Qed.

Lemma length_lcd_next_DDRAM rs c ac dd :
  length (lcd_next_DDRAM rs c ac dd) = length dd.
Proof.
  unfold lcd_next_DDRAM. destruct rs; [apply length_insert|].
  destruct (Z.testbit c 7); [reflexivity|].
  destruct (c =? 1); [apply length_replicate | reflexivity].
Qed.

Lemma lcd_view_settled ac dd lat :
  0 <= ac < 128 -> (lat < 20)%nat -> lcd_view (lcd_settled ac dd lat) ac dd lat.
Proof. intros Ha Hl. unfold lcd_view, lcd_ready, lcd_settled. cbn. auto 10. Qed.

(** A checked frame against the controller at rest always returns. *)
Lemma lcd_confirmed (w : world lcd) evs ac dd lat p :
  en_of p = false -> 0 <= ac < 128 -> (lat < 20)%nat ->
  exists rs,
    (let '(rs, d) := poll_reads 20 (Lcd p None false ac dd lat lat) in
     confirmed w evs rs d)
    = Ret tt (World (set_State HD44780_READY (handle w)) ac
                    (lcd_settled ac dd lat) (trace w ++ evs ++ poll_events rs)).
Proof.
  intros He Ha Hl.
  destruct (lcd_poll lat 20 p None ac dd lat (AddressCounter w) Hl He Ha)
    as (rs & Hp & Hr & Hc).
  exists rs. rewrite Hp. unfold confirmed. rewrite Hr, Hc. reflexivity.
Qed.

Lemma lcd_Send_Command c (w : world lcd) ac dd lat :
  lcd_view (device w) ac dd lat ->
  exists w',
    HD44780_Send_Command c true w = Ret tt w' /\
    handle w' = set_State HD44780_READY (handle w) /\
    AddressCounter w' = lcd_next_AC false (u8 c) ac /\
    device w' = lcd_settled (lcd_next_AC false (u8 c) ac)
                            (lcd_next_DDRAM false (u8 c) ac dd) lat.
Proof.
  intros ((He & Hp & Hr & Hb & Ha & Hl) & <- & <- & <-).
  rewrite Send_Command_run.
  destruct (device w) as [p pe rl ac dd br lat].
  cbn [pins pending read_low busy_reads AC DDRAM latency] in *.
  subst pe rl br.
  rewrite lcd_drive_command by exact He.
  destruct (lcd_confirmed w (command_events c) (lcd_next_AC false (u8 c) ac)
              (lcd_next_DDRAM false (u8 c) ac dd) lat
              (wire (low_nibble c) true false false false)) as (rs & Hrun);
    [nibble_side | apply lcd_next_AC_range; exact Ha | exact Hl |].
  rewrite Hrun. eexists. split; [reflexivity|]. auto.
Qed.

Lemma lcd_Send_Data c (w : world lcd) ac dd lat :
  lcd_view (device w) ac dd lat ->
  exists w',
    HD44780_Send_Data c true w = Ret tt w' /\
    handle w' = set_State HD44780_READY (handle w) /\
    AddressCounter w' = next_address ac /\
    device w' = lcd_settled (next_address ac) (<[Z.to_nat ac := u8 c]> dd) lat.
Proof.
  intros ((He & Hp & Hr & Hb & Ha & Hl) & <- & <- & <-).
  rewrite Send_Data_run.
  destruct (device w) as [p pe rl ac dd br lat].
  cbn [pins pending read_low busy_reads AC DDRAM latency] in *.
  subst pe rl br.
  rewrite lcd_drive_data by exact He.
  destruct (lcd_confirmed w (data_events c) (lcd_next_AC true (u8 c) ac)
              (lcd_next_DDRAM true (u8 c) ac dd) lat
              (wire (low_nibble c) true false false true)) as (rs & Hrun);
    [nibble_side | apply lcd_next_AC_range; exact Ha | exact Hl |].
  rewrite Hrun. eexists. split; [reflexivity|]. auto.
Qed.


Lemma lcd_next_AC_ddram row column ac :
  0 <= row < HD44780_NUM_ROWS -> 0 <= column < HD44780_NUM_COLS ->
  lcd_next_AC false (0x80 + 0x40 * row + column) ac = ddram_address row column.
Proof.
  unfold HD44780_NUM_ROWS, HD44780_NUM_COLS, lcd_next_AC, ddram_address.
  intros Hr Hc.
  assert (row = 0 \/ row = 1) as [-> | ->] by lia.
  - assert (Z.testbit (0x80 + 0x40 * 0 + column) 7 = true) as ->
        by by_cases_below column 16.
    by_cases_below column 16.
  - assert (Z.testbit (0x80 + 0x40 * 1 + column) 7 = true) as ->
        by by_cases_below column 16.
    by_cases_below column 16.
Qed.

Lemma lcd_next_DDRAM_ddram row column ac dd :
  0 <= row < HD44780_NUM_ROWS -> 0 <= column < HD44780_NUM_COLS ->
  lcd_next_DDRAM false (0x80 + 0x40 * row + column) ac dd = dd.
Proof.
  unfold HD44780_NUM_ROWS, HD44780_NUM_COLS, lcd_next_DDRAM.
  intros Hr Hc.
  assert (row = 0 \/ row = 1) as [-> | ->] by lia.
  - assert (Z.testbit (0x80 + 0x40 * 0 + column) 7 = true) as ->
        by by_cases_below column 16.
    reflexivity.
  - assert (Z.testbit (0x80 + 0x40 * 1 + column) 7 = true) as ->
        by by_cases_below column 16.
    reflexivity.
Qed.

Lemma lcd_Set_Cursor_Position row column (w : world lcd) ac dd lat :
  0 <= row < HD44780_NUM_ROWS -> 0 <= column < HD44780_NUM_COLS ->
  lcd_view (device w) ac dd lat ->
  exists w',
    HD44780_Set_Cursor_Position row column w = Ret tt w' /\
    handle w' = set_State HD44780_READY (handle w) /\
    AddressCounter w' = ddram_address row column /\
    device w' = lcd_settled (ddram_address row column) dd lat.
Proof.
  intros Hr Hc Hv. rewrite Set_Cursor_Position_in_range by assumption.
  destruct (lcd_Send_Command (0x80 + 0x40 * row + column) w ac dd lat Hv)
    as (w' & Hrun & Hh & Ha & Hd).
  rewrite ddram_command_u8, lcd_next_AC_ddram in Ha, Hd by assumption.
  rewrite lcd_next_DDRAM_ddram in Hd by assumption.
  exists w'. auto.
Qed.

Lemma lcd_Get_Cursor_Position (w : world lcd) ac dd lat :
  lcd_view (device w) ac dd lat ->
  exists r,
    HD44780_Get_Cursor_Position w =
      Ret tt (World (set_Cursor_Position (cursor_of_address ac)
                       (set_State HD44780_READY (handle w)))
                    ac (lcd_settled ac dd lat) (trace w ++ status_events r)).
Proof.
  intros ((He & Hp & Hr & Hb & Ha & Hl) & <- & <- & <-).
  pose proof (Get_Cursor_Position_run w) as Hg.
  destruct (device w) as [p pe rl ac dd br lat].
  cbn [pins pending read_low busy_reads AC DDRAM latency] in *.
  subst pe rl br.
  rewrite lcd_status_read in Hg by assumption. cbv zeta in Hg.
  rewrite status_of_lcd in Hg by (apply status_byte_range; exact Ha).
  rewrite status_byte_busy, status_byte_address in Hg by exact Ha.
  cbn [Nat.ltb Nat.leb pred] in Hg.
  eexists. exact Hg.
Qed.

Lemma cell_address_range idx : 0 <= idx <= 32 -> 0 <= cell_address idx < 128.
Proof. unfold cell_address. intros Hi. destruct (idx <? 16) eqn:E; [apply Z.ltb_lt in E|]; lia. Qed.

Lemma next_cell_address idx :
  0 <= idx <= 31 -> idx <> 15 ->
  next_address (cell_address idx) = cell_address (idx + 1) /\
  cell_address (idx + 1) <> HD44780_NUM_COLS.
Proof.
  intros Hi N15. unfold next_address, cell_address, HD44780_NUM_COLS.
  destruct (idx <? 16) eqn:E1; destruct (idx + 1 <? 16) eqn:E2;
    try apply Z.ltb_lt in E1; try apply Z.ltb_lt in E2;
    try apply Z.ltb_ge in E1; try apply Z.ltb_ge in E2; try lia.
  - assert ((idx =? 39) = false) as -> by (apply Z.eqb_neq; lia).
    assert ((idx =? 103) = false) as -> by (apply Z.eqb_neq; lia).
    rewrite Z.mod_small by lia. lia.
  - assert ((64 + (idx - 16) =? 39) = false) as -> by (apply Z.eqb_neq; lia).
    assert ((64 + (idx - 16) =? 103) = false) as -> by (apply Z.eqb_neq; lia).
    rewrite Z.mod_small by lia. lia.
Qed.

(** One character away from column 15 of row 0: the controller's own
    increment moves the address counter to the next cell. *)
Lemma lcd_Print_loop_step_plain start i c (w : world lcd) dd lat :
  0 <= start + i <= 31 -> start + i <> 15 ->
  lcd_view (device w) (cell_address (start + i)) dd lat ->
  exists w',
    (forall rest,
        Print_loop start i (c :: rest) w = Print_loop start (i + 1) rest w') /\
    lcd_view (device w') (cell_address (start + i + 1))
             (<[Z.to_nat (cell_address (start + i)) := u8 c]> dd) lat /\
    sent_by w w' [Character (u8 c)].
Proof.
  intros Hi N15 Hv. pose proof Hv as ((_ & _ & _ & _ & _ & Hl) & _ & _ & Hlat).
  rewrite Hlat in Hl.
  destruct (lcd_Send_Data (u8 c) w _ _ _ Hv) as (w1 & Hrun & Hh & Ha & Hd).
  pose proof (Send_Data_Ret _ _ _ Hrun) as [_ (e1 & T1 & E1)].
  rewrite u8_idem in Hd, E1.
  destruct (next_cell_address (start + i) Hi N15) as [Hnext Hne].
  assert (start + i <= HD44780_NUM_ELEMENTS - 1) as Hroom
      by (change (HD44780_NUM_ELEMENTS - 1) with 31; lia).
  rewrite Hnext in Ha, Hd.
  eexists. split; [|split].
  - intros rest.
    rewrite (Print_loop_body start i c rest w w1 Hroom Hrun).
    rewrite Ha.
    assert ((cell_address (start + i + 1) =? HD44780_NUM_COLS) = false) as ->
        by (apply Z.eqb_neq; exact Hne).
    rewrite bind_ret. reflexivity.
  - cbn [device]. rewrite Hd. apply lcd_view_settled; [|exact Hl].
    apply cell_address_range. lia.
  - exists e1. cbn [trace]. auto.
Qed.

(** The character in column 15 of row 0: the address counter reads 16
    and the driver sends the DDRAM address command for (1, 0). *)
Lemma lcd_Print_loop_step_wrap start i c (w : world lcd) dd lat :
  start + i = 15 ->
  lcd_view (device w) (cell_address (start + i)) dd lat ->
  exists w',
    (forall rest,
        Print_loop start i (c :: rest) w = Print_loop start (i + 1) rest w') /\
    lcd_view (device w') (cell_address (start + i + 1))
             (<[Z.to_nat (cell_address (start + i)) := u8 c]> dd) lat /\
    sent_by w w' [Character (u8 c); Instruction 0xC0].
Proof.
  intros E15 Hv. pose proof Hv as ((_ & _ & _ & _ & _ & Hl) & _ & _ & Hlat).
  rewrite Hlat in Hl.
  destruct (lcd_Send_Data (u8 c) w _ _ _ Hv) as (w1 & Hrun & Hh & Ha & Hd).
  pose proof (Send_Data_Ret _ _ _ Hrun) as [_ S1].
  rewrite u8_idem in Hd, S1.
  rewrite E15 in Ha, Hd |- *.
  change (next_address (cell_address 15)) with 16 in Ha, Hd.
  destruct (lcd_Set_Cursor_Position 1 0
              (World (set_Text (<[Z.to_nat (start + i) := c]> (Text (handle w1)))
                               (handle w1))
                     (AddressCounter w1) (device w1) (trace w1))
              16 (<[Z.to_nat (cell_address 15) := u8 c]> dd) lat)
    as (w3 & Hset & _ & _ & Hd3).
  { unfold HD44780_NUM_ROWS. lia. }
  { unfold HD44780_NUM_COLS. lia. }
  { cbn [device]. rewrite Hd. apply lcd_view_settled; [lia | exact Hl]. }
  pose proof (Set_Cursor_Position_Ret 1 0 _ w3 ltac:(unfold HD44780_NUM_ROWS; lia)
                ltac:(unfold HD44780_NUM_COLS; lia) Hset) as [_ (e3 & T3 & E3)].
  cbn [trace] in T3.
  assert (start + i <= HD44780_NUM_ELEMENTS - 1) as Hroom
      by (change (HD44780_NUM_ELEMENTS - 1) with 31; lia).
  exists w3. split; [|split].
  - intros rest.
    rewrite (Print_loop_body start i c rest w w1 Hroom Hrun).
    rewrite Ha at 1. change (16 =? HD44780_NUM_COLS) with true. cbv iota.
    rewrite (bind_Ret _ _ _ _ _ Hset). reflexivity.
  - rewrite Hd3. change (cell_address (15 + 1)) with (ddram_address 1 0).
    apply lcd_view_settled; [unfold ddram_address; lia | exact Hl].
  - destruct S1 as (e1 & T1 & E1).
    exists (e1 ++ e3). rewrite T3, T1, <- app_assoc, strobes_app, E1, E3.
    split; reflexivity.
Qed.

(** One character of the loop against the controller: the cell of mirror
    index [start + i] is written, and the address counter ends on the cell
    of the next index. *)
Lemma lcd_Print_loop_step start i c (w : world lcd) dd lat :
  0 <= start + i <= 31 ->
  lcd_view (device w) (cell_address (start + i)) dd lat ->
  exists w',
    (forall rest,
        Print_loop start i (c :: rest) w = Print_loop start (i + 1) rest w') /\
    lcd_view (device w') (cell_address (start + i + 1))
             (<[Z.to_nat (cell_address (start + i)) := u8 c]> dd) lat /\
    sent_by w w' (Character (u8 c)
                    :: (if start + i =? 15 then [Instruction 0xC0] else [])).
Proof.
  intros Hi Hv.
  destruct (Z.eq_dec (start + i) 15) as [E15 | N15].
  - assert ((start + i =? 15) = true) as -> by (apply Z.eqb_eq; exact E15).
    apply lcd_Print_loop_step_wrap; assumption.
  - assert ((start + i =? 15) = false) as -> by (apply Z.eqb_neq; exact N15).
    apply lcd_Print_loop_step_plain; assumption.
Qed.

(** The loop over characters that fit: it runs through them all and goes
    on with whatever follows. *)
Lemma lcd_Print_loop chars : forall start i (w : world lcd) dd lat,
  0 <= start + i ->
  start + i + Z.of_nat (length chars) <= 32 ->
  lcd_view (device w) (cell_address (start + i)) dd lat ->
  exists w',
    (forall tail,
        Print_loop start i (chars ++ tail) w
        = Print_loop start (i + Z.of_nat (length chars)) tail w') /\
    lcd_view (device w') (cell_address (start + i + Z.of_nat (length chars)))
             (write_cells (start + i) (map u8 chars) dd) lat /\
    sent_by w w' (print_payloads (start + i) chars).
Proof.
  induction chars as [|c rest IH]; intros start i w dd lat Hi Hfit Hv.
  - exists w. cbn [app length map write_cells print_payloads].
    rewrite !Z.add_0_r. split; [reflexivity|]. split; [exact Hv | apply sent_by_refl].
  - cbn [length] in Hfit.
    destruct (lcd_Print_loop_step start i c w dd lat ltac:(lia) Hv)
      as (w1 & Hstep & Hv1 & S1).
    replace (start + i + 1) with (start + (i + 1)) in Hv1 by lia.
    destruct (IH start (i + 1) w1 _ lat ltac:(lia) ltac:(lia) Hv1)
      as (w' & Hrun & Hv' & S').
    exists w'. split; [|split].
    + intros tail. cbn [app length]. rewrite Hstep, Hrun.
      f_equal. lia.
    + cbn [length map write_cells].
      replace (start + i + Z.of_nat (S (length rest)))
        with (start + (i + 1) + Z.of_nat (length rest)) by lia.
      replace (start + i + 1) with (start + (i + 1)) by lia.
      exact Hv'.
    + cbn [print_payloads].
      replace (start + i + 1) with (start + (i + 1)) by lia.
      pose proof (sent_by_trans _ _ _ _ _ S1 S') as Hs.
      cbn [app] in Hs. exact Hs.
Qed.

(** ** Lists of cells and of payloads *)

Lemma print_payloads_app l1 : forall idx l2,
  print_payloads idx (l1 ++ l2)
  = print_payloads idx l1 ++ print_payloads (idx + Z.of_nat (length l1)) l2.
Proof.
  induction l1 as [|c l1 IH]; intros idx l2.
  - cbn [app length print_payloads]. rewrite Z.add_0_r. reflexivity.
  - cbn [app length print_payloads]. rewrite IH.
    replace (idx + 1 + Z.of_nat (length l1)) with (idx + Z.of_nat (S (length l1))) by lia.
    rewrite <- app_assoc, app_comm_cons. reflexivity.
Qed.

Lemma print_payloads_plain chars : forall idx,
  idx + Z.of_nat (length chars) <= 15 \/ 16 <= idx ->
  print_payloads idx chars = map (fun c => Character (u8 c)) chars.
Proof.
  induction chars as [|c rest IH]; intros idx Hrow; [reflexivity|].
  cbn [length] in Hrow. cbn [print_payloads map].
  assert ((idx =? 15) = false) as -> by (apply Z.eqb_neq; lia).
  cbn [app]. rewrite IH by lia. reflexivity.
Qed.

Lemma print_payloads_row_end chars : forall idx,
  chars <> [] -> idx + Z.of_nat (length chars) = 16 ->
  print_payloads idx chars
  = map (fun c => Character (u8 c)) chars ++ [Instruction 0xC0].
Proof.
  induction chars as [|c rest IH]; intros idx Hne Hrow; [congruence|].
  cbn [length] in Hrow. cbn [print_payloads map].
  destruct rest as [|c' rest].
  - cbn [length] in Hrow. assert ((idx =? 15) = true) as -> by (apply Z.eqb_eq; lia).
    reflexivity.
  - assert ((idx =? 15) = false) as -> by (apply Z.eqb_neq; cbn [length] in Hrow; lia).
    cbn [app]. rewrite IH by (try discriminate; lia). reflexivity.
Qed.

Lemma write_cells_app l1 : forall idx l2 dd,
  write_cells idx (l1 ++ l2) dd
  = write_cells (idx + Z.of_nat (length l1)) l2 (write_cells idx l1 dd).
Proof.
  induction l1 as [|c l1 IH]; intros idx l2 dd.
  - cbn [app length write_cells]. rewrite Z.add_0_r. reflexivity.
  - cbn [app length write_cells]. rewrite IH.
    replace (idx + 1 + Z.of_nat (length l1)) with (idx + Z.of_nat (S (length l1))) by lia.
    reflexivity.
Qed.

Lemma write_cells_row cs : forall idx dd,
  0 <= idx ->
  idx + Z.of_nat (length cs) <= 16 \/ 16 <= idx ->
  write_cells idx cs dd = list_inserts (Z.to_nat (cell_address idx)) cs dd.
Proof.
  induction cs as [|c rest IH]; intros idx dd Hi Hrow; [reflexivity|].
  cbn [length] in Hrow. cbn [write_cells list_inserts].
  destruct rest as [|c' rest]; [reflexivity|].
  rewrite IH by (cbn [length] in *; lia).
  assert (cell_address (idx + 1) = cell_address idx + 1) as ->.
  { unfold cell_address. cbn [length] in Hrow.
    destruct (idx <? 16) eqn:E1; destruct (idx + 1 <? 16) eqn:E2;
      try apply Z.ltb_lt in E1; try apply Z.ltb_lt in E2;
      try apply Z.ltb_ge in E1; try apply Z.ltb_ge in E2; lia. }
  assert (0 <= cell_address idx)
    by (unfold cell_address; destruct (idx <? 16); lia).
  replace (Z.to_nat (cell_address idx + 1)) with (S (Z.to_nat (cell_address idx))) by lia.
  rewrite list_insert_inserts_lt by lia. reflexivity.
Qed.

Lemma cursor_of_ddram_address row column :
  0 <= row < HD44780_NUM_ROWS -> 0 <= column <= HD44780_NUM_COLS ->
  cursor_of_address (ddram_address row column) = (row, column).
Proof.
  unfold HD44780_NUM_ROWS, HD44780_NUM_COLS, cursor_of_address, ddram_address, u8.
  intros Hr Hc.
  assert (row = 0 \/ row = 1) as [-> | ->] by lia.
  - assert ((0x40 * 0 + column <? 40) = true) as -> by (apply Z.ltb_lt; lia).
    f_equal; lia.
  - assert ((0x40 * 1 + column <? 40) = false) as -> by (apply Z.ltb_ge; lia).
    replace (0x40 * 1 + column - 64) with column by lia.
    rewrite Z.mod_small by lia. reflexivity.
Qed.

Lemma lcd_Check_Status (w : world lcd) ac dd lat :
  lcd_view (device w) ac dd lat ->
  exists r,
    status_of r = ac /\
    HD44780_Check_Status w =
      Ret tt (World (set_State HD44780_READY (handle w)) ac
                    (lcd_settled ac dd lat) (trace w ++ status_events r)).
Proof.
  intros ((He & Hp & Hr & Hb & Ha & Hl) & <- & <- & <-).
  pose proof (Check_Status_run w) as Hg.
  destruct (device w) as [p pe rl ac dd br lat].
  cbn [pins pending read_low busy_reads AC DDRAM latency] in *.
  subst pe rl br.
  rewrite lcd_status_read in Hg by assumption.
  pose proof (status_of_lcd (status_byte 0 ac) (status_byte_range 0 ac Ha)) as Hs.
  rewrite Hs in Hg.
  rewrite status_byte_busy, status_byte_address in Hg by exact Ha.
  cbn [Nat.ltb Nat.leb pred] in Hg.
  eexists. split; [|exact Hg]. rewrite Hs. unfold status_byte. reflexivity.
Qed.

(** C2.  Against the controller model: for row < 2 and column < 16,
    HD44780_Set_Cursor_Position returns after sending the one command
    0x80|column (row 0) or 0x80|0x40|column (row 1); the status read that
    follows finds the busy flag clear and the address counter at the
    DDRAM address of (row, column); HD44780_Get_Cursor_Position translates
    that address back to exactly (row, column). *)
Theorem set_cursor_reads_back (row column : Z) (w : world lcd) ac dd lat :
  0 <= row < HD44780_NUM_ROWS -> 0 <= column < HD44780_NUM_COLS ->
  lcd_view (device w) ac dd lat ->
  exists w1 w2,
    HD44780_Set_Cursor_Position row column w = Ret tt w1 /\
    payloads (emitted w w1) =
      [Instruction (if row =? 0 then Z.lor 0x80 column
                    else Z.lor (Z.lor 0x80 0x40) column)] /\
    HD44780_Check_Status w1 = Ret tt w2 /\
    statuses (emitted w1 w2) = [ddram_address row column] /\
    State (handle w2) = HD44780_READY /\
    AddressCounter w2 = ddram_address row column /\
    cursor_of_address (AddressCounter w2) = (row, column) /\
    Cursor_Position (handle (final (HD44780_Get_Cursor_Position w1))) = (row, column).
Proof.
  intros Hr Hc Hv.
  destruct (lcd_Set_Cursor_Position row column w ac dd lat Hr Hc Hv)
    as (w1 & Hset & Hh & Ha & Hd).
  pose proof Hv as ((_ & _ & _ & _ & _ & Hl) & _ & _ & Hlat). rewrite Hlat in Hl.
  assert (0 <= ddram_address row column < 128) as Hrange
      by (unfold ddram_address, HD44780_NUM_ROWS, HD44780_NUM_COLS in *; lia).
  assert (lcd_view (device w1) (ddram_address row column) dd lat) as Hv1
      by (rewrite Hd; apply lcd_view_settled; assumption).
  destruct (lcd_Check_Status w1 _ _ _ Hv1) as (r & Hst & Hcheck).
  destruct (lcd_Get_Cursor_Position w1 _ _ _ Hv1) as (r' & Hget).
  pose proof (cursor_of_ddram_address row column Hr ltac:(lia)) as Hback.
  eexists. eexists. split; [exact Hset|]. split.
  { pose proof (Set_Cursor_Position_Ret row column w w1 Hr Hc Hset) as [_ Hs].
    rewrite (sent_by_payloads _ _ _ Hs).
    - unfold HD44780_NUM_ROWS, HD44780_NUM_COLS in *.
      assert (row = 0 \/ row = 1) as [-> | ->] by lia; cbn [Z.eqb];
        do 2 f_equal; symmetry; by_cases_below column 16.
    - constructor; [|constructor]. cbn [byte_payload].
      unfold HD44780_NUM_ROWS, HD44780_NUM_COLS in *. lia. }
  split; [exact Hcheck|].
  rewrite Hget. cbn [final handle AddressCounter State set_State
                       Cursor_Position set_Cursor_Position].
  rewrite emitted_World.
  change (statuses (status_events r)) with [status_of r]. rewrite Hst.
  auto 10.
Qed.

Lemma byte_payload_characters l :
  Forall byte_payload (map (fun c => Character (u8 c)) l).
Proof.
  induction l as [|c l IH]; constructor; [apply u8_range | exact IH].
Qed.

(** The whole loop against the controller, whatever the length of the
    string: the characters that fit go to their cells; when some do not
    fit, the DDRAM address command for (0, 0) follows and the loop
    reports the early return. *)
Lemma lcd_Print_loop_run chars start (w : world lcd) dd lat :
  let fit := take (Z.to_nat (HD44780_NUM_ELEMENTS - start)) chars in
  let b := HD44780_NUM_ELEMENTS <? start + Z.of_nat (length chars) in
  0 <= start < HD44780_NUM_ELEMENTS ->
  lcd_view (device w) (cell_address start) dd lat ->
  exists w',
    Print_loop start 0 chars w = Ret b w' /\
    sent_by w w' (print_payloads start fit
                    ++ (if b then [Instruction 0x80] else [])) /\
    lcd_view (device w')
             (if b then ddram_address 0 0
              else cell_address (start + Z.of_nat (length chars)))
             (write_cells start (map u8 fit) dd) lat /\
    Text (handle w') = list_inserts (Z.to_nat start) fit (Text (handle w)) /\
    Cursor_Position (handle w') = Cursor_Position (handle w).
Proof.
  cbv zeta. change HD44780_NUM_ELEMENTS with 32. intros Hs Hv.
  set (m := Z.to_nat (32 - start)).
  pose proof Hv as ((_ & _ & _ & _ & _ & Hl) & _ & _ & Hlat). rewrite Hlat in Hl.
  assert (length (take m chars) = Nat.min m (length chars)) as Hlen
      by (rewrite length_take; lia).
  destruct (lcd_Print_loop (take m chars) start 0 w dd lat) as (w1 & Hloop & Hv1 & S1);
    [lia | lia | rewrite Z.add_0_r; exact Hv |].
  rewrite Z.add_0_r in Hv1, S1.
  pose proof (Hloop []) as Hfit. rewrite app_nil_r in Hfit.
  cbn [Print_loop] in Hfit. unfold ret in Hfit.
  pose proof (Print_loop_Ret (take m chars) start 0 w false w1 ltac:(lia) Hfit) as HT.
  cbv zeta in HT. destruct HT as (_ & HT & HC & _).
  rewrite Z.add_0_r in HT. change HD44780_NUM_ELEMENTS with 32 in HT. fold m in HT.
  rewrite Hlen in HT.
  replace (Nat.min (Nat.min m (length chars)) m) with (length (take m chars)) in HT
    by lia.
  rewrite firstn_all in HT.
  assert (Print_loop start 0 chars w
          = Print_loop start (0 + Z.of_nat (length (take m chars))) (drop m chars) w1)
    as -> by (rewrite <- Hloop, take_drop; reflexivity).
  destruct (drop m chars) as [|c rest] eqn:Hdrop.
  - assert (length chars <= m)%nat as Hle.
    { pose proof (length_drop chars m) as Hd. rewrite Hdrop in Hd. cbn in Hd. lia. }
    assert ((32 <? start + Z.of_nat (length chars)) = false) as ->
        by (apply Z.ltb_ge; lia).
    exists w1. rewrite app_nil_r.
    replace (start + Z.of_nat (length (take m chars)))
      with (start + Z.of_nat (length chars)) in Hv1 by lia.
    auto.
  - assert (m < length chars)%nat as Hlt.
    { pose proof (length_drop chars m) as Hd. rewrite Hdrop in Hd. cbn in Hd. lia. }
    assert ((32 <? start + Z.of_nat (length chars)) = true) as ->
        by (apply Z.ltb_lt; lia).
    cbn [Print_loop].
    assert ((start + (0 + Z.of_nat (length (take m chars))) >? HD44780_NUM_ELEMENTS - 1)
            = true) as ->
        by (change (HD44780_NUM_ELEMENTS - 1) with 31; apply Z.gtb_lt; lia).
    destruct (lcd_Set_Cursor_Position 0 0 w1 _ _ lat ltac:(unfold HD44780_NUM_ROWS; lia)
                ltac:(unfold HD44780_NUM_COLS; lia) Hv1) as (w2 & Hset & _ & _ & Hd2).
    pose proof (Set_Cursor_Position_Ret 0 0 w1 w2 ltac:(unfold HD44780_NUM_ROWS; lia)
                  ltac:(unfold HD44780_NUM_COLS; lia) Hset) as [(HC2 & HT2 & _) S2].
    rewrite (bind_Ret _ _ _ _ _ Hset). exists w2.
    split; [reflexivity|]. split; [exact (sent_by_trans _ _ _ _ _ S1 S2)|].
    split; [rewrite Hd2; apply lcd_view_settled;
            [unfold ddram_address; lia | exact Hl]|].
    split; congruence.
Qed.

(** C6.  Against the controller model, on the 16x2 glass: the cursor is
    on row 0 at column c0 and the string reaches column 15.  Of the
    string, [fit] are the characters that find room on the display.
    HD44780_Print returns; it has sent the characters up to column 15,
    then the DDRAM address command for (1, 0), then the rest of [fit],
    and, only when some character found no room, the DDRAM address
    command for (0, 0); DDRAM holds the first 16 - c0 characters in row 0
    from column c0 and the rest of [fit] in row 1 from column 0; the
    mirror holds the characters of [fit] at consecutive indices from c0,
    across index 15 to 16.  When the whole string found room, the
    controller's cursor and the cached one are on row 1 behind the last
    character. *)
Theorem print_continues_on_second_row (str : list Z) (w : world lcd) c0 dd lat :
  let chars := take (strlen str) str in
  let n := Z.of_nat (length chars) in
  let fit := take (Z.to_nat (HD44780_NUM_ELEMENTS - c0)) chars in
  let k := Z.to_nat (HD44780_NUM_COLS - c0) in
  lcd_view (device w) c0 dd lat ->
  0 <= c0 < HD44780_NUM_COLS ->
  HD44780_NUM_COLS <= c0 + n ->
  exists w',
    HD44780_Print str w = Ret tt w' /\
    payloads (emitted w w') =
      map (fun c => Character (u8 c)) (take k fit)
      ++ [Instruction 0xC0]
      ++ map (fun c => Character (u8 c)) (drop k fit)
      ++ (if HD44780_NUM_ELEMENTS <? c0 + n then [Instruction 0x80] else []) /\
    DDRAM (device w') =
      list_inserts (Z.to_nat (ddram_address 1 0)) (map u8 (drop k fit))
        (list_inserts (Z.to_nat (ddram_address 0 c0)) (map u8 (take k fit)) dd) /\
    Text (handle w') = list_inserts (Z.to_nat c0) fit (Text (handle w)) /\
    (c0 + n <= HD44780_NUM_ELEMENTS ->
     fit = chars /\
     AC (device w') = ddram_address 1 (c0 + n - HD44780_NUM_COLS) /\
     Cursor_Position (handle w') = (1, c0 + n - HD44780_NUM_COLS)).
Proof.
  cbv zeta. change HD44780_NUM_COLS with 16. change HD44780_NUM_ELEMENTS with 32.
  set (chars := take (strlen str) str). intros Hv Hc0 Hn.
  pose proof Hv as ((_ & _ & _ & _ & _ & Hl) & _ & _ & Hlat). rewrite Hlat in Hl.
  rewrite Print_unfold. cbv zeta. fold chars.
  destruct (lcd_Get_Cursor_Position w c0 dd lat Hv) as (r0 & Hg0).
  rewrite Hg0. cbn [final handle Cursor_Position set_Cursor_Position].
  assert (cursor_of_address c0 = (0, c0)) as ->
      by (unfold cursor_of_address; assert ((c0 <? 40) = true) as -> by
            (apply Z.ltb_lt; lia); reflexivity).
  cbn [fst snd]. change HD44780_NUM_COLS with 16.
  assert (u8 (0 * 16 + c0) = c0) as -> by (unfold u8; apply Z.mod_small; lia).
  set (w0 := World _ c0 (lcd_settled c0 dd lat) _).
  assert (sent_by w w0 []) as S0.
  { exists (status_events r0). split; [reflexivity|].
    change (status_events r0) with (poll_events [r0] ++ []).
    rewrite strobes_app, strobes_poll. reflexivity. }
  assert (cell_address c0 = c0) as Hcell
      by (unfold cell_address;
          assert ((c0 <? 16) = true) as -> by (apply Z.ltb_lt; lia); reflexivity).
  pose proof (lcd_Print_loop_run chars c0 w0 dd lat) as Hrun.
  cbv zeta in Hrun. change HD44780_NUM_ELEMENTS with 32 in Hrun.
  destruct Hrun as (w1 & Hloop & S1 & Hv1 & HT & _);
    [lia | rewrite Hcell; apply lcd_view_settled; [lia | exact Hl] |].
  set (fit := take (Z.to_nat (32 - c0)) chars) in *.
  rewrite (bind_Ret _ _ _ _ _ Hloop).
  (* the characters that fit split at column 15 *)
  set (k := Z.to_nat (16 - c0)).
  assert (length fit = Nat.min (Z.to_nat (32 - c0)) (length chars)) as Hfit
      by (unfold fit; rewrite length_take; lia).
  assert (k <= length fit)%nat as Hk by lia.
  assert (0 < k)%nat as Hk0 by lia.
  assert (length (take k fit) = k) as Hlen by (rewrite length_take; lia).
  assert (print_payloads c0 fit =
          map (fun c => Character (u8 c)) (take k fit) ++ [Instruction 0xC0]
          ++ map (fun c => Character (u8 c)) (drop k fit)) as Hpay.
  { rewrite <- (take_drop k fit) at 1.
    rewrite print_payloads_app, Hlen.
    rewrite print_payloads_row_end, print_payloads_plain by
        (try (intros E; rewrite E in Hlen; cbn in Hlen); lia).
    rewrite <- app_assoc. reflexivity. }
  assert (write_cells c0 (map u8 fit) dd =
          list_inserts (Z.to_nat (ddram_address 1 0)) (map u8 (drop k fit))
            (list_inserts (Z.to_nat (ddram_address 0 c0)) (map u8 (take k fit)) dd))
    as Hcells.
  { rewrite <- (take_drop k fit) at 1.
    rewrite map_app, write_cells_app, length_map, Hlen.
    rewrite (write_cells_row (map u8 (take k fit))) by (rewrite ?length_map; lia).
    rewrite write_cells_row by lia.
    replace (c0 + Z.of_nat k) with 16 by lia.
    unfold cell_address, ddram_address.
    assert ((c0 <? 16) = true) as -> by (apply Z.ltb_lt; lia).
    reflexivity. }
  rewrite Hpay, <- !app_assoc in S1.
  assert (Forall byte_payload
            (map (fun c => Character (u8 c)) (take k fit) ++ [Instruction 0xC0]
             ++ map (fun c => Character (u8 c)) (drop k fit)
             ++ (if 32 <? c0 + Z.of_nat (length chars)
                 then [Instruction 0x80] else []))) as Hbytes.
  { rewrite !Forall_app. repeat split.
    - apply byte_payload_characters.
    - constructor; [cbn; lia | constructor].
    - apply byte_payload_characters.
    - destruct (32 <? c0 + Z.of_nat (length chars));
        [constructor; [cbn; lia | constructor] | constructor]. }
  destruct (32 <? c0 + Z.of_nat (length chars)) eqn:Hover.
  - (* some character found no room: line 391 returns *)
    apply Z.ltb_lt in Hover.
    exists w1. split; [reflexivity|]. split.
    { apply sent_by_payloads; [|exact Hbytes].
      exact (sent_by_trans _ _ _ _ _ S0 S1). }
    destruct Hv1 as (_ & _ & Hd1 & _).
    split; [rewrite Hd1; exact Hcells|].
    split; [exact HT | lia].
  - (* the whole string found room: the cursor is read again *)
    apply Z.ltb_ge in Hover.
    destruct (lcd_Get_Cursor_Position w1 _ _ _ Hv1) as (r1 & Hg1).
    eexists. split; [exact Hg1|].
    cbn [handle device Cursor_Position set_Cursor_Position Text set_State
           DDRAM AC lcd_settled].
    split.
    { apply sent_by_payloads; [|exact Hbytes].
      assert (sent_by w1 (World (set_Cursor_Position
                 (cursor_of_address (cell_address (c0 + Z.of_nat (length chars))))
                 (set_State HD44780_READY (handle w1)))
                 (cell_address (c0 + Z.of_nat (length chars)))
                 (lcd_settled (cell_address (c0 + Z.of_nat (length chars)))
                              (write_cells c0 (map u8 fit) dd) lat)
                 (trace w1 ++ status_events r1)) []) as S2.
      { exists (status_events r1). split; [reflexivity|].
        change (status_events r1) with (poll_events [r1] ++ []).
        rewrite strobes_app, strobes_poll. reflexivity. }
      pose proof (sent_by_trans _ _ _ _ _ S0 (sent_by_trans _ _ _ _ _ S1 S2)) as Hs.
      rewrite <- !app_assoc in Hs. exact Hs. }
    split; [exact Hcells|].
    split; [exact HT|].
    intros _.
    split; [unfold fit; apply take_ge; lia|].
    assert (cell_address (c0 + Z.of_nat (length chars))
            = ddram_address 1 (c0 + Z.of_nat (length chars) - 16)) as ->.
    { unfold cell_address, ddram_address.
      assert ((c0 + Z.of_nat (length chars) <? 16) = false) as ->
          by (apply Z.ltb_ge; lia).
      lia. }
    split; [reflexivity|].
    apply cursor_of_ddram_address;
      [unfold HD44780_NUM_ROWS; lia | unfold HD44780_NUM_COLS; lia].
Qed.

(** ** Supporting facts: any bus reporting the address; the controller answering in time *)

(** On any bus: whenever the status read after the command reports the
    flag clear and the address the command carried, the translation gives
    back (row, column). *)
Lemma cursor_reads_back_any_bus {D} `{!Bus D} (row column : Z) (w1 : world D) :
  0 <= row < HD44780_NUM_ROWS -> 0 <= column < HD44780_NUM_COLS ->
  busy_flag (status_of (fst (status_read (device w1)))) = false ->
  address_of (status_of (fst (status_read (device w1))))
  = address_of (0x80 + 0x40 * row + column) ->
  Cursor_Position (handle (final (HD44780_Get_Cursor_Position w1))) = (row, column).
Proof.
  intros Hr Hc Hb Ha.
  pose proof (Get_Cursor_Position_run w1) as Hg.
  destruct (status_read (device w1)) as [r d]. cbn [fst] in Hb, Ha.
  cbv zeta in Hg. rewrite Hg, Hb, Ha.
  cbn [final handle Cursor_Position set_Cursor_Position].
  assert (address_of (0x80 + 0x40 * row + column) = ddram_address row column) as ->.
  { unfold address_of, ddram_address, HD44780_NUM_ROWS, HD44780_NUM_COLS in *.
    assert (row = 0 \/ row = 1) as [-> | ->] by lia; by_cases_below column 16. }
  apply cursor_of_ddram_address; [exact Hr | lia].
Qed.

(** Against the controller HD44780_Print always comes back, from any
    visible cursor position and whatever the length of the string. *)
Lemma lcd_Print_returns (str : list Z) (w : world lcd) row column dd lat :
  0 <= row < HD44780_NUM_ROWS -> 0 <= column < HD44780_NUM_COLS ->
  lcd_view (device w) (ddram_address row column) dd lat ->
  exists w', HD44780_Print str w = Ret tt w'.
Proof.
  intros Hr Hc Hv.
  pose proof Hv as ((_ & _ & _ & _ & Hrange & Hl) & Hac & _ & Hlat).
  rewrite Hac in Hrange. rewrite Hlat in Hl.
  rewrite Print_unfold. cbv zeta.
  destruct (lcd_Get_Cursor_Position w _ dd lat Hv) as (r0 & Hg0).
  rewrite Hg0. cbn [final handle Cursor_Position set_Cursor_Position].
  rewrite (cursor_of_ddram_address row column Hr ltac:(lia)). cbn [fst snd].
  set (w0 := World _ _ _ _).
  assert (lcd_view (device w0) (ddram_address row column) dd lat) as Hv0
      by (apply lcd_view_settled; assumption).
  assert (u8 (row * HD44780_NUM_COLS + column) = row * 16 + column) as Hstart
      by (unfold u8, HD44780_NUM_ROWS, HD44780_NUM_COLS in *; apply Z.mod_small; lia).
  rewrite Hstart.
  assert (cell_address (row * 16 + column) = ddram_address row column) as Hcell.
  { unfold cell_address, ddram_address, HD44780_NUM_ROWS, HD44780_NUM_COLS in *.
    assert (row = 0 \/ row = 1) as [-> | ->] by lia.
    - assert ((0 * 16 + column <? 16) = true) as -> by (apply Z.ltb_lt; lia). lia.
    - assert ((1 * 16 + column <? 16) = false) as -> by (apply Z.ltb_ge; lia). lia. }
  rewrite <- Hcell in Hv0.
  destruct (lcd_Print_loop_run (take (strlen str) str) (row * 16 + column) w0 dd lat)
    as (w1 & Hloop & _);
    [unfold HD44780_NUM_ELEMENTS, HD44780_NUM_ROWS, HD44780_NUM_COLS in *; lia
    | exact Hv0 |].
  rewrite (bind_Ret _ _ _ _ _ Hloop).
  destruct (HD44780_NUM_ELEMENTS <? _); [exists w1; reflexivity|].
  pose proof (Get_Cursor_Position_sent w1) as (w2 & Hg & _). exists w2. exact Hg.
Qed.

(** And a command with busy confirmation. *)
Lemma lcd_Transmit_Command_returns cmd (w : world lcd) ac dd lat :
  lcd_view (device w) ac dd lat ->
  exists w', HD44780_Transmit_Command cmd w = Ret tt w'.
Proof.
  intros Hv. unfold HD44780_Transmit_Command. rewrite bind_get_handle.
  destruct (PowerState (handle w)); destruct cmd;
    try (eexists; reflexivity);
    match goal with
    | |- context [HD44780_Send_Command ?c true] =>
        destruct (lcd_Send_Command c w ac dd lat Hv) as (w1 & Hrun & _)
    end;
    try (exists w1; exact Hrun);
    rewrite (bind_Ret _ _ _ _ _ Hrun); eexists; reflexivity.
Qed.

(** ** Truncation and clearing on the controller *)

(** Lines 388-400 against the controller at rest, from any address: the
    loop returns and leaves the controller at rest; when it left through
    line 390 the controller's cursor is at address 0. *)
Lemma lcd_Print_loop_returns chars : forall start i (w : world lcd) ac dd lat,
  lcd_view (device w) ac dd lat ->
  exists b w' ac' dd',
    Print_loop start i chars w = Ret b w' /\
    lcd_view (device w') ac' dd' lat /\
    (b = true -> ac' = 0).
Proof.
  induction chars as [|c rest IH]; intros start i w ac dd lat Hv.
  - exists false, w, ac, dd. split; [reflexivity|]. split; [exact Hv | discriminate].
  - pose proof Hv as ((_ & _ & _ & _ & Hrange & Hl) & Hac & _ & Hlat).
    rewrite Hac in Hrange. rewrite Hlat in Hl.
    destruct (Z_le_gt_dec (start + i) (HD44780_NUM_ELEMENTS - 1)) as [Hfit | Hover].
    + destruct (lcd_Send_Data (u8 c) w ac dd lat Hv) as (w1 & Hrun & _ & _ & Hd).
      rewrite (Print_loop_body start i c rest w w1 Hfit Hrun).
      set (w2 := World _ _ _ _).
      assert (lcd_view (device w2) (next_address ac)
                (<[Z.to_nat ac := u8 (u8 c)]> dd) lat) as Hv2.
      { unfold w2. cbn [device]. rewrite Hd. apply lcd_view_settled; [|exact Hl].
        apply (lcd_next_AC_range true 0 ac Hrange). }
      destruct (AddressCounter w1 =? HD44780_NUM_COLS).
      * destruct (lcd_Set_Cursor_Position 1 0 w2 _ _ lat
                    ltac:(unfold HD44780_NUM_ROWS; lia)
                    ltac:(unfold HD44780_NUM_COLS; lia) Hv2)
          as (w3 & Hset & _ & _ & Hd3).
        rewrite (bind_Ret _ _ _ _ _ Hset).
        apply (IH start (i + 1) w3 (ddram_address 1 0)
                  (<[Z.to_nat ac := u8 (u8 c)]> dd) lat).
        rewrite Hd3. apply lcd_view_settled; [|exact Hl].
        unfold ddram_address. lia.
      * rewrite bind_ret. exact (IH start (i + 1) w2 _ _ lat Hv2).
    + cbn [Print_loop].
      assert ((start + i >? HD44780_NUM_ELEMENTS - 1) = true) as ->
          by (apply Z.gtb_lt; lia).
      destruct (lcd_Set_Cursor_Position 0 0 w ac dd lat
                  ltac:(unfold HD44780_NUM_ROWS; lia)
                  ltac:(unfold HD44780_NUM_COLS; lia) Hv)
        as (w1 & Hset & _ & _ & Hd).
      rewrite (bind_Ret _ _ _ _ _ Hset).
      exists true, w1, (ddram_address 0 0), dd.
      split; [reflexivity|].
      split; [|reflexivity].
      rewrite Hd. apply lcd_view_settled; [|exact Hl].
      unfold ddram_address. lia.
Qed.

(** C7.  Against the controller at rest, whatever address its cursor is
    at: when the string is not empty and does not fit between the start
    index and the end of the mirror, HD44780_Print returns; it has written
    into the mirror exactly the characters that fit, at consecutive
    indices from the start index; it has sent exactly those characters as
    data, then the DDRAM address command for (0, 0) as the last byte, and
    nothing for the rest of the string.  The controller's cursor is then
    at address 0, while the cached cursor is the one read at the start of
    the call. *)
Theorem print_truncates (str : list Z) (w : world lcd) ac dd lat :
  let chars := take (strlen str) str in
  let start := u8 (fst (cursor_of_address ac) * HD44780_NUM_COLS
                   + snd (cursor_of_address ac)) in
  let k := Z.to_nat (HD44780_NUM_ELEMENTS - start) in
  lcd_view (device w) ac dd lat ->
  chars <> [] ->
  start + Z.of_nat (length chars) - 1 > HD44780_NUM_ELEMENTS - 1 ->
  exists w',
    HD44780_Print str w = Ret tt w' /\
    (k < length chars)%nat /\
    Text (handle w') = list_inserts (Z.to_nat start) (take k chars) (Text (handle w)) /\
    (exists sent,
        payloads (emitted w w') = sent ++ [Instruction 0x80] /\
        characters sent = map u8 (take k chars) /\
        Forall (fun p => p = Instruction 0xC0 \/ exists c, p = Character (u8 c)) sent) /\
    AC (device w') = 0 /\
    Cursor_Position (handle w') = cursor_of_address ac.
Proof.
  cbv zeta. intros Hv Hne Hover.
  pose proof Hv as ((_ & _ & _ & _ & Hrange & Hl) & Hac & _ & Hlat).
  rewrite Hac in Hrange. rewrite Hlat in Hl.
  destruct (lcd_Get_Cursor_Position w ac dd lat Hv) as (r0 & Hg0).
  assert (Cursor_Position (handle (final (HD44780_Get_Cursor_Position w)))
          = cursor_of_address ac) as Hcur by (rewrite Hg0; reflexivity).
  set (start := u8 (fst (cursor_of_address ac) * HD44780_NUM_COLS
                    + snd (cursor_of_address ac))) in *.
  assert (exists w', HD44780_Print str w = Ret tt w' /\ AC (device w') = 0)
    as (w' & Hrun & Hzero).
  { rewrite Print_unfold. cbv zeta. rewrite Hcur. fold start.
    rewrite Hg0. cbn [final].
    set (w0 := World _ _ _ _).
    assert (lcd_view (device w0) ac dd lat) as Hv0
        by (apply lcd_view_settled; assumption).
    destruct (lcd_Print_loop_returns (take (strlen str) str) start 0 w0 ac dd lat Hv0)
      as (b & w1 & ac1 & dd1 & Hloop & Hv1 & Hb).
    rewrite (bind_Ret _ _ _ _ _ Hloop).
    pose proof (u8_range (fst (cursor_of_address ac) * HD44780_NUM_COLS
                          + snd (cursor_of_address ac))) as Hs.
    fold start in Hs.
    apply Print_loop_Ret in Hloop; [|lia]. cbv zeta in Hloop.
    destruct Hloop as (Hearly & _).
    assert (b = true) as ->.
    { rewrite Hearly. apply Nat.ltb_lt.
      change HD44780_NUM_ELEMENTS with 32 in *.
      assert (0 < length (take (strlen str) str))%nat
        by (destruct (take (strlen str) str); [congruence | simpl; lia]).
      rewrite Nat.min_r by lia. lia. }
    exists w1. split; [reflexivity|].
    destruct Hv1 as (_ & -> & _). apply Hb. reflexivity. }
  exists w'. split; [exact Hrun|].
  pose proof (Print_Ret_truncates str w w') as Heff. cbv zeta in Heff.
  rewrite Hcur in Heff. fold start in Heff.
  destruct (Heff Hne Hover Hrun) as (Hk & HT & Hsent & Hc).
  auto 10.
Qed.

(** C8.  Against the controller at rest with the display on,
    HD44780_Transmit_Command(CLEAR_DISPLAY) returns; every one of the 32
    cells of the mirror is then zero and the cached cursor is (0, 0);
    HD44780_Read_Character returns 0 for every coordinate and both index
    getters return 0. *)
Theorem clear_display_resets (w : world lcd) ac dd lat :
  PowerState (handle w) = LCD1602_ON ->
  handle_wf (handle w) ->
  lcd_view (device w) ac dd lat ->
  exists w',
    HD44780_Transmit_Command CLEAR_DISPLAY w = Ret tt w' /\
    Text (handle w') = replicate (Z.to_nat HD44780_NUM_ELEMENTS) 0 /\
    Cursor_Position (handle w') = (0, 0) /\
    (forall row column, HD44780_Read_Character row column w' = Ret 0 w') /\
    HD44780_Get_Row_Index w' = Ret 0 w' /\
    HD44780_Get_Column_Index w' = Ret 0 w'.
Proof.
  intros HP Hwf Hv.
  destruct (lcd_Transmit_Command_returns CLEAR_DISPLAY w ac dd lat Hv) as (w' & Hrun).
  exists w'. split; [exact Hrun|].
  exact (clear_display_Ret w w' HP Hwf Hrun).
Qed.

(** ** The status read on the wire, on any bus *)

Lemma busy_flag_first_read r1 r2 :
  0 <= r1 < 256 -> 0 <= r2 < 256 ->
  busy_flag (status_of (r1, r2)) = Z.testbit r1 7.
Proof.
  intros H1 H2. rewrite status_of_arith by assumption.
  assert (0 <= r2 / 16 < 16)
    by (split; [apply Z.div_pos | apply Z.div_lt_upper_bound]; lia).
  assert (Z.testbit r1 7 = (8 <=? r1 / 16)) as -> by by_cases_below r1 256.
  assert (0 <= r1 / 16 < 16)
    by (split; [apply Z.div_pos | apply Z.div_lt_upper_bound]; lia).
  generalize dependent (r1 / 16). generalize dependent (r2 / 16).
  intros l Hl h Hh.
  assert (forall st, 0 <= st < 256 -> busy_flag st = (128 <=? st)) as Hb
      by (intros st Hst; unfold busy_flag; by_cases_below st 256).
  rewrite Hb by lia.
  destruct (8 <=? h) eqn:E; [apply Z.leb_le in E; apply Z.leb_le
                            | apply Z.leb_gt in E; apply Z.leb_gt]; lia.
Qed.

Lemma address_of_reads r1 r2 :
  0 <= r1 < 256 -> 0 <= r2 < 256 ->
  address_of (status_of (r1, r2)) = 16 * ((r1 / 16) mod 8) + r2 / 16.
Proof.
  intros H1 H2. rewrite status_of_arith by assumption.
  assert (0 <= r2 / 16 < 16)
    by (split; [apply Z.div_pos | apply Z.div_lt_upper_bound]; lia).
  assert (0 <= r1 / 16 < 16)
    by (split; [apply Z.div_pos | apply Z.div_lt_upper_bound]; lia).
  generalize dependent (r1 / 16). generalize dependent (r2 / 16).
  intros l Hl h Hh.
  assert (forall st, 0 <= st < 256 -> address_of st = st mod 128) as Ha
      by (intros st Hst; unfold address_of; by_cases_below st 256).
  rewrite Ha by lia.
  pose proof (Z.div_mod h 8 ltac:(lia)) as Hdm.
  pose proof (Z.mod_pos_bound h 8 ltac:(lia)) as Hm.
  replace (16 * h + l) with (16 * (h mod 8) + l + (h / 8) * 128) by lia.
  rewrite Z.mod_add by lia. apply Z.mod_small. lia.
Qed.

Section StatusRead.
Context {D : Type} `{!Bus D}.
Implicit Types (w : world D).

(** X1.  Lines 32-74.  One status read is five writes, 0xFA 0xFE 0xFA 0xFE
    0xFA (data bits high, read mode, backlight on, enable low, high,
    low, high, low), with one byte read while enable is high each time,
    and 5 ms of HAL_Delay.  It always returns.  The busy flag is bit 7
    of the first byte read; when it is clear, AddressCounter becomes bits
    6 to 4 of the first byte followed by bits 7 to 4 of the second, and
    when it is set AddressCounter is not written.  The low four bits of
    both bytes are never looked at.  Of the handle only State is
    written. *)
Theorem status_read_protocol w :
  let w' := final (HD44780_Check_Status w) in
  exists r1 r2,
    HD44780_Check_Status w = Ret tt w' /\
    emitted w w' = status_events (r1, r2) /\
    tx_bytes (emitted w w') = [0xFA; 0xFE; 0xFA; 0xFE; 0xFA] /\
    rx_bytes (emitted w w') = [r1; r2] /\
    elapsed (emitted w w') = 5 /\
    0 <= r1 < 256 /\ 0 <= r2 < 256 /\
    State (handle w') = (if Z.testbit r1 7 then HD44780_BUSY else HD44780_READY) /\
    AddressCounter w' = (if Z.testbit r1 7 then AddressCounter w
                         else 16 * ((r1 / 16) mod 8) + r2 / 16) /\
    same_cache w w'.
Proof.
  cbv zeta.
  pose proof (Check_Status_run w) as Hc.
  pose proof (status_read_range (device w)) as [R1 R2].
  destruct (status_read (device w)) as [[r1 r2] d]. cbn [fst snd] in R1, R2.
  rewrite Hc. cbn [final]. rewrite emitted_World.
  rewrite busy_flag_first_read, address_of_reads by assumption.
  exists r1, r2.
  split; [reflexivity|]. split; [reflexivity|]. split; [reflexivity|].
  split; [reflexivity|]. split; [reflexivity|]. split; [exact R1|].
  split; [exact R2|].
  cbn [handle AddressCounter State set_State].
  split; [reflexivity|]. split; [reflexivity|].
  unfold same_cache. cbn [handle]. auto.
Qed.
End StatusRead.

(** ** Busy confirmation, frames and time, on any bus *)

Lemma elapsed_app t1 t2 : elapsed (t1 ++ t2) = elapsed t1 + elapsed t2.
Proof.
  induction t1 as [|e t1 IH]; [reflexivity|].
  cbn [app]. unfold elapsed in *. cbn [foldr]. rewrite IH. destruct e; lia.
Qed.

Lemma elapsed_poll rs : elapsed (poll_events rs) = 5 * Z.of_nat (length rs).
Proof.
  unfold poll_events.
  induction rs as [|r rs IH]; [reflexivity|].
  cbn [map concat length]. rewrite elapsed_app, IH.
  change (elapsed (status_events r)) with 5. lia.
Qed.

Lemma elapsed_tail tail :
  tail = [] \/ tail = [Error_Handler_Entered] -> elapsed tail = 0.
Proof. intros [-> | ->]; reflexivity. Qed.

Lemma statuses_frame evs rs :
  rx_bytes evs = [] -> statuses (evs ++ poll_events rs) = map status_of rs.
Proof.
  intros He. rewrite <- statuses_poll. unfold statuses.
  rewrite rx_bytes_app, He. reflexivity.
Qed.

Section Confirmation.
Context {D : Type} `{!Bus D}.
Implicit Types (w : world D).

(** A checked send, of a command or of data, as a frame and a poll. *)
Lemma checked_send (is_data : bool) (c : Z) w :
  exists evs rs d,
    poll_shape 20 rs /\ rx_bytes evs = [] /\ handler_entries evs = O /\
    elapsed evs = (if is_data then 5 else 4) /\
    strobes evs = [(is_data, high_nibble c); (is_data, low_nibble c)] /\
    (if is_data then HD44780_Send_Data c true w
     else HD44780_Send_Command c true w) = confirmed w evs rs d.
Proof.
  destruct is_data.
  - destruct (Send_Data_checked c w) as (rs & d & Hs & Hr).
    exists (data_events c), rs, d. rewrite strobes_data. auto 10.
  - destruct (Send_Command_checked c w) as (rs & d & Hs & Hr).
    exists (command_events c), rs, d. rewrite strobes_command. auto 10.
Qed.

(** X2.  Lines 108-120 and 162-173.  The status reads of a checked send are:
    reads that find the busy flag set, fewer than twenty of them, then
    one more read.  The send returns exactly when that last read finds the
    flag clear, and then State is READY, AddressCounter holds the seven
    address bits of that read and the error handler was not entered; the
    last read can only find the flag set when it is the twentieth.  The
    HAL_Delay time is that of the frame, 4 ms for a command and 5 ms for
    data, and 5 ms for each status read. *)
Theorem busy_confirmation (is_data : bool) (c : Z) w :
  let o := if is_data then HD44780_Send_Data c true w
           else HD44780_Send_Command c true w in
  let sts := statuses (emitted w (final o)) in
  exists busy st,
    sts = busy ++ [st] /\
    Forall (fun s => busy_flag s = true) busy /\
    (length busy < 20)%nat /\
    returned o = negb (busy_flag st) /\
    (busy_flag st = false ->
       State (handle (final o)) = HD44780_READY /\
       AddressCounter (final o) = address_of st /\
       handler_entries (emitted w (final o)) = O) /\
    (busy_flag st = true -> length busy = 19%nat) /\
    elapsed (emitted w (final o))
    = (if is_data then 5 else 4) + 5 * Z.of_nat (length sts).
Proof.
  cbv zeta.
  destruct (checked_send is_data c w)
    as (evs & rs & d & Hshape & Hrx & Hhe & Hms & _ & ->).
  destruct Hshape as (Hlen & _ & Hshape).
  unfold confirmed. destruct (polled_ready rs) eqn:Hready; cbn [final returned].
  - destruct Hshape as (rs0 & r & -> & Hbusy & Hr).
    rewrite emitted_World.
    rewrite (statuses_frame evs _ Hrx).
    rewrite map_app. cbn [map].
    exists (map status_of rs0), (status_of r).
    rewrite length_app in Hlen. cbn [length] in Hlen.
    split; [reflexivity|]. split; [apply Forall_map; exact Hbusy|].
    split; [rewrite length_map; lia|].
    split; [rewrite Hr; reflexivity|].
    split.
    + intros _. cbn [handle State set_State AddressCounter].
      split; [reflexivity|]. split.
      * unfold polled_counter. rewrite last_snoc, Hr. reflexivity.
      * rewrite handler_entries_app, Hhe, handler_entries_poll. reflexivity.
    + split; [congruence|].
      rewrite elapsed_app, elapsed_poll, Hms, !length_app, !length_map.
      reflexivity.
  - destruct Hshape as (Hn & Hbusy).
    rewrite emitted_World.
    rewrite statuses_frame_poll by auto.
    destruct (last rs) as [r|] eqn:Hlast;
      [|apply last_None in Hlast; subst rs; discriminate].
    apply last_Some in Hlast as [rs0 ->].
    rewrite Forall_app in Hbusy. destruct Hbusy as [Hbusy Hr].
    inversion Hr as [|? ? Hr' _]; subst.
    rewrite length_app in Hn. cbn [length] in Hn.
    rewrite map_app. cbn [map].
    exists (map status_of rs0), (status_of r).
    split; [reflexivity|]. split; [apply Forall_map; exact Hbusy|].
    split; [rewrite length_map; lia|].
    split; [rewrite Hr'; reflexivity|].
    split; [congruence|].
    split; [intros _; rewrite length_map; lia|].
    rewrite !elapsed_app, elapsed_poll, Hms.
    change (elapsed [Error_Handler_Entered]) with 0.
    rewrite !length_app, !length_map. cbn [length]. lia.
Qed.

(** X3.  Lines 88-106 and 138-159, read from the controller's side: the two
    nibbles latched on the falling edges of enable give back the byte
    passed in (as a uint8_t), as an instruction from
    HD44780_Send_Command and as a character from HD44780_Send_Data; the
    set-up write of a data frame and the writes of the status polls are
    not latched.  This holds with and without the busy check and whether
    or not the call returns. *)
Theorem frame_round_trip (c : Z) (chk : bool) w :
  payloads (emitted w (final (HD44780_Send_Command c chk w))) = [Instruction (u8 c)] /\
  payloads (emitted w (final (HD44780_Send_Data c chk w))) = [Character (u8 c)] /\
  16 * high_nibble c + low_nibble c = u8 c.
Proof.
  split; [|split; [|apply nibbles_u8]].
  - destruct chk.
    + destruct (Send_Command_checked c w) as (rs & d & _ & ->).
      apply confirmed_payloads_command.
    + rewrite Send_Command_unchecked. cbn [final]. rewrite emitted_World.
      unfold payloads. rewrite <- (app_nil_r (strobes _)).
      apply payloads_command.
  - destruct chk.
    + destruct (Send_Data_checked c w) as (rs & d & _ & ->).
      apply confirmed_payloads_data.
    + rewrite Send_Data_unchecked. cbn [final]. rewrite emitted_World.
      unfold payloads. rewrite <- (app_nil_r (strobes _)).
      apply payloads_data.
Qed.

End Confirmation.

(** ** Software reset, on any bus *)

Lemma lit_nil : lit [].
Proof. constructor. Qed.

Lemma lit_app t1 t2 : lit t1 -> lit t2 -> lit (t1 ++ t2).
Proof. unfold lit. rewrite tx_bytes_app, Forall_app. auto. Qed.

Lemma lit_command c : lit (command_events c).
Proof.
  pose proof (wire_bits (high_nibble c)) as Hh.
  pose proof (wire_bits (low_nibble c)) as Hl.
  pose proof (high_nibble_range c) as Rh.
  pose proof (low_nibble_range c) as Rl.
  unfold lit. rewrite tx_bytes_command.
  repeat (constructor; [first [apply Hh | apply Hl]; assumption|]). constructor.
Qed.

Lemma lit_data c : lit (data_events c).
Proof.
  pose proof (wire_bits (high_nibble c)) as Hh.
  pose proof (wire_bits (low_nibble c)) as Hl.
  pose proof (high_nibble_range c) as Rh.
  pose proof (low_nibble_range c) as Rl.
  unfold lit. rewrite tx_bytes_data. constructor; [reflexivity|].
  repeat (constructor; [first [apply Hh | apply Hl]; assumption|]). constructor.
Qed.

Lemma lit_poll rs : lit (poll_events rs).
Proof.
  unfold lit. eapply Forall_impl; [apply tx_bytes_poll|].
  intros b [_ Hb]. exact Hb.
Qed.

Section Wake.
Context {D : Type} `{!Bus D}.
Implicit Types (w : world D).

Lemma bind_Transmit {B} b (k : unit -> M D B) w :
  bind (HAL_I2C_Master_Transmit b) k w
  = k tt (World (handle w) (AddressCounter w) (bus_write b (device w))
                (trace w ++ [I2C_Tx b])).
Proof. reflexivity. Qed.

Lemma bind_Delay {B} ms (k : unit -> M D B) w :
  bind (HAL_Delay ms) k w
  = k tt (World (handle w) (AddressCounter w) (bus_elapse ms (device w))
                (trace w ++ [Delay ms])).
Proof. reflexivity. Qed.

(** Lines 239-272 and 296-298: the probe, then either nothing more or
    the wake-up writes. *)
Lemma Init_run w :
  HD44780_Init w =
    if fst (bus_probe (device w)) then
      reset_commands
        (World (set_Cursor_Position (0, 0) (handle w)) (AddressCounter w)
               (drive wake_events (snd (bus_probe (device w))))
               (trace w ++ I2C_Probe true :: wake_events))
    else
      Ret false (World (handle w) (AddressCounter w) (snd (bus_probe (device w)))
                       (trace w ++ [I2C_Probe false])).
Proof.
  unfold HD44780_Init, reset_commands. cbv zeta.
  match goal with
  | |- context [bind (HD44780_Send_Command (if ?b then ?x else ?y) true) ?k] =>
      generalize (bind (HD44780_Send_Command (if b then x else y) true) k)
  end.
  intros K. unfold bind at 1. unfold HAL_I2C_IsDeviceReady.
  destruct (bus_probe (device w)) as [[|] d]; cbn [fst snd]; [|reflexivity].
  rewrite bind_Delay, bind_modify_handle. cbn [handle AddressCounter device trace].
  do 8 (rewrite bind_Transmit, bind_Delay; cbn [handle AddressCounter device trace]).
  rewrite <- !app_assoc. reflexivity.
Qed.


Lemma framed_refl w : framed w w [].
Proof.
  exists []. rewrite app_nil_r. split; [reflexivity|].
  split; [reflexivity | apply lit_nil].
Qed.

Lemma framed_trans w w1 w2 ps qs :
  framed w w1 ps -> framed w1 w2 qs -> framed w w2 (ps ++ qs).
Proof.
  intros (e1 & H1 & S1 & L1) (e2 & H2 & S2 & L2). exists (e1 ++ e2).
  rewrite H2, H1, <- app_assoc, strobes_app, S1, S2, flat_map_app.
  split; [reflexivity|]. split; [reflexivity | apply lit_app; assumption].
Qed.

Lemma framed_sent_by w w' ps : framed w w' ps -> sent_by w w' ps.
Proof. intros (evs & Ht & Hs & _). exists evs. auto. Qed.

Lemma framed_emitted w w' ps :
  framed w w' ps ->
  trace w' = trace w ++ emitted w w' /\
  strobes (emitted w w') = flat_map nibbles ps /\ lit (emitted w w').
Proof. intros (evs & Ht & Hs & Hl). rewrite (emitted_app _ _ _ Ht). auto. Qed.

(** A checked command that returns: the frame, then polls; State is
    READY and no other field of the handle has changed. *)
Lemma Send_Command_Ret_framed c w w' :
  HD44780_Send_Command c true w = Ret tt w' ->
  handle w' = set_State HD44780_READY (handle w) /\
  framed w w' [Instruction (u8 c)].
Proof.
  destruct (Send_Command_checked c w) as (rs & d & _ & ->).
  intros Hr. apply confirmed_Ret in Hr as [Hh Ht]. split; [exact Hh|].
  exists (command_events c ++ poll_events rs). split; [exact Ht|]. split.
  - rewrite strobes_app, strobes_poll, strobes_command, app_nil_r.
    simpl. rewrite high_nibble_u8, low_nibble_u8. reflexivity.
  - apply lit_app; [apply lit_command | apply lit_poll].
Qed.

Lemma Send_Data_Ret_framed c w w' :
  HD44780_Send_Data c true w = Ret tt w' ->
  handle w' = set_State HD44780_READY (handle w) /\
  framed w w' [Character (u8 c)].
Proof.
  destruct (Send_Data_checked c w) as (rs & d & _ & ->).
  intros Hr. apply confirmed_Ret in Hr as [Hh Ht]. split; [exact Hh|].
  exists (data_events c ++ poll_events rs). split; [exact Ht|]. split.
  - rewrite strobes_app, strobes_poll, strobes_data, app_nil_r.
    simpl. rewrite high_nibble_u8, low_nibble_u8. reflexivity.
  - apply lit_app; [apply lit_data | apply lit_poll].
Qed.

(** Lines 275-293 when they return. *)
Lemma reset_commands_Ret w b w' :
  reset_commands w = Ret b w' ->
  b = true /\
  handle w' = set_PowerState LCD1602_ON (set_State HD44780_READY (handle w)) /\
  framed w w' ([Instruction 0x28; Instruction 0x08; Instruction 0x01;
                Instruction 0x06; Instruction 0x0C]
               ++ match PowerState (handle w) with
                  | LCD1602_ON => [Instruction 0x0E]
                  | LCD1602_OFF => []
                  end).
Proof.
  unfold reset_commands. cbv zeta.
  change (if HD44780_NUM_ROWS =? 2
          then Z.lor HD44780_FUNCTION_SET (Z.shiftl 1 3)
          else HD44780_FUNCTION_SET) with 0x28.
  intros Hrun.
  apply bind_Ret_inv in Hrun as ([] & w1 & H1 & Hrun).
  apply bind_Ret_inv in Hrun as ([] & w2 & H2 & Hrun).
  apply bind_Ret_inv in Hrun as ([] & w3 & H3 & Hrun).
  apply bind_Ret_inv in Hrun as ([] & w4 & H4 & Hrun).
  apply bind_Ret_inv in Hrun as ([] & w5 & H5 & Hrun).
  apply bind_Ret_inv in Hrun as ([] & w6 & H6 & Hrun).
  apply bind_Ret_inv in Hrun as ([] & w7 & H7 & Hrun).
  apply ret_inv in Hrun as [-> ->].
  apply modify_handle_inv in H7 as ->.
  apply Send_Command_Ret_framed in H1 as [A1 F1].
  apply Send_Command_Ret_framed in H2 as [A2 F2].
  apply Send_Command_Ret_framed in H3 as [A3 F3].
  apply Send_Command_Ret_framed in H4 as [A4 F4].
  apply Send_Command_Ret_framed in H5 as [A5 F5].
  pose proof (framed_trans _ _ _ _ _ F1
               (framed_trans _ _ _ _ _ F2
                 (framed_trans _ _ _ _ _ F3
                   (framed_trans _ _ _ _ _ F4 F5)))) as F.
  cbn [app] in F. change (u8 40) with 40 in F. change (u8 8) with 8 in F.
  change (u8 1) with 1 in F. change (u8 6) with 6 in F. change (u8 12) with 12 in F.
  assert (handle w5 = set_State HD44780_READY (handle w)) as Hh5
      by (rewrite A5, A4, A3, A2, A1; reflexivity).
  split; [reflexivity|].
  unfold HD44780_Transmit_Command in H6. rewrite bind_get_handle in H6.
  rewrite Hh5 in H6. cbn [PowerState set_State] in H6.
  cbn [handle trace].
  destruct (PowerState (handle w)) eqn:HP.
  - apply Send_Command_Ret_framed in H6 as [A6 F6].
    change (u8 14) with 14 in F6.
    split; [rewrite A6, Hh5; reflexivity|].
    destruct (framed_trans _ _ _ _ _ F F6) as (evs & Ht & Hs & Hl).
    exists evs. auto.
  - apply ret_inv in H6 as [_ ->].
    split; [rewrite Hh5; reflexivity|].
    destruct F as (evs & Ht & Hs & Hl).
    exists evs. rewrite app_nil_r. auto.
Qed.

Lemma bind_Spin {A B} (m : M D A) (k : A -> M D B) w w1 :
  m w = Spin w1 -> bind m k w = Spin w1.
Proof. intros Hm. unfold bind. rewrite Hm. reflexivity. Qed.

(** A checked command, however it ends: its frame has gone out, and
    State is READY if it returned and TIMEOUT if it did not. *)
Lemma Send_Command_final c w :
  exists w1,
    framed w w1 [Instruction (u8 c)] /\ same_cache w w1 /\
    (HD44780_Send_Command c true w = Ret tt w1 /\
     State (handle w1) = HD44780_READY
     \/ HD44780_Send_Command c true w = Spin w1 /\
        State (handle w1) = HD44780_TIMEOUT).
Proof.
  destruct (Send_Command_checked c w) as (rs & d & _ & ->).
  assert (strobes (command_events c) = flat_map nibbles [Instruction (u8 c)]) as Hs.
  { rewrite strobes_command. simpl. rewrite high_nibble_u8, low_nibble_u8. reflexivity. }
  unfold confirmed. destruct (polled_ready rs);
    match goal with
    | |- context [Ret tt ?x = Ret tt _] => exists x
    | |- context [Spin ?x = Spin _] => exists x
    end; (split; [|split]).
  - exists (command_events c ++ poll_events rs). split; [reflexivity|]. split.
    + rewrite strobes_app, strobes_poll, app_nil_r. exact Hs.
    + apply lit_app; [apply lit_command | apply lit_poll].
  - unfold same_cache. auto.
  - left. split; reflexivity.
  - exists (command_events c ++ poll_events rs ++ [Error_Handler_Entered]).
    split; [reflexivity|]. split.
    + rewrite !strobes_app, strobes_poll. cbn [app]. rewrite Hs.
      change (strobes [Error_Handler_Entered]) with (@nil (bool * Z)).
      rewrite app_nil_r. reflexivity.
    + apply lit_app; [apply lit_command|].
      apply lit_app; [apply lit_poll | constructor].
  - unfold same_cache. auto.
  - right. split; reflexivity.
Qed.

(** What follows a checked command: the continuation if it returned,
    nothing if it did not. *)
Lemma Send_Command_then {B} c (k : unit -> M D B) w (P : outcome D B -> Prop) :
  (forall w1, framed w w1 [Instruction (u8 c)] -> same_cache w w1 ->
              State (handle w1) = HD44780_READY -> P (k tt w1)) ->
  (forall w1, framed w w1 [Instruction (u8 c)] -> same_cache w w1 ->
              State (handle w1) = HD44780_TIMEOUT -> P (Spin w1)) ->
  P (bind (HD44780_Send_Command c true) k w).
Proof.
  intros Hret Hspin.
  destruct (Send_Command_final c w) as (w1 & F & C & [[R S] | [R S]]).
  - rewrite (bind_Ret _ _ _ _ _ R). apply Hret; assumption.
  - rewrite (bind_Spin _ _ _ _ R). apply Hspin; assumption.
Qed.

Lemma Transmit_Command_CURSOR_ON w :
  HD44780_Transmit_Command CURSOR_ON w =
    match PowerState (handle w) with
    | LCD1602_ON => HD44780_Send_Command 0x0E true w
    | LCD1602_OFF => Ret tt w
    end.
Proof.
  unfold HD44780_Transmit_Command. rewrite bind_get_handle.
  destruct (PowerState (handle w)); reflexivity.
Qed.

(** Lines 275-293, however they end: the commands sent are the first [n]
    of the list, at least one; all of them if the lines return, and then
    with the result true. *)
Lemma reset_commands_final w :
  let cmds := [Instruction 0x28; Instruction 0x08; Instruction 0x01;
               Instruction 0x06; Instruction 0x0C]
              ++ match PowerState (handle w) with
                 | LCD1602_ON => [Instruction 0x0E]
                 | LCD1602_OFF => []
                 end in
  let o := reset_commands w in
  exists n,
    (1 <= n <= length cmds)%nat /\
    framed w (final o) (take n cmds) /\
    Cursor_Position (handle (final o)) = Cursor_Position (handle w) /\
    Text (handle (final o)) = Text (handle w) /\
    if returned o then
      o = Ret true (final o) /\ n = length cmds /\
      PowerState (handle (final o)) = LCD1602_ON /\
      State (handle (final o)) = HD44780_READY
    else
      State (handle (final o)) = HD44780_TIMEOUT /\
      PowerState (handle (final o)) = PowerState (handle w).
Proof.
  cbv zeta. unfold reset_commands. cbv zeta.
  change (if HD44780_NUM_ROWS =? 2
          then Z.lor HD44780_FUNCTION_SET (Z.shiftl 1 3)
          else HD44780_FUNCTION_SET) with 0x28.
  set (cmds := _ ++ _).
  set (P := fun o : outcome D bool =>
    exists n : nat,
      (1 <= n <= length cmds)%nat /\
      framed w (final o) (take n cmds) /\
      Cursor_Position (handle (final o)) = Cursor_Position (handle w) /\
      Text (handle (final o)) = Text (handle w) /\
      if returned o then
        o = Ret true (final o) /\ n = length cmds /\
        PowerState (handle (final o)) = LCD1602_ON /\
        State (handle (final o)) = HD44780_READY
      else
        State (handle (final o)) = HD44780_TIMEOUT /\
        PowerState (handle (final o)) = PowerState (handle w)).
  match goal with |- ?G => change G with (P (bind (HD44780_Send_Command 0x28 true)
    (fun _ => bind (HD44780_Send_Command 0x08 true)
    (fun _ => bind (HD44780_Send_Command 0x01 true)
    (fun _ => bind (HD44780_Send_Command 0x06 true)
    (fun _ => bind (HD44780_Send_Command 0x0C true)
    (fun _ => bind (HD44780_Transmit_Command CURSOR_ON)
    (fun _ => bind (modify_handle (set_PowerState LCD1602_ON))
    (fun _ => ret true))))))) w)) end.
  assert (length cmds = 5 \/ length cmds = 6)%nat as Hlen
      by (unfold cmds; destruct (PowerState (handle w)); auto).
  assert (forall n w', (n <= 5)%nat -> (1 <= n)%nat ->
            framed w w' (take n [Instruction 0x28; Instruction 0x08; Instruction 0x01;
                                 Instruction 0x06; Instruction 0x0C]) ->
            same_cache w w' -> State (handle w') = HD44780_TIMEOUT ->
            P (Spin w')) as Hstop.
  { intros n w' Hn H1 F (C1 & C2 & C3) S. exists n. cbn [final returned].
    split; [lia|]. split; [|auto].
    unfold cmds. rewrite take_app_le by (cbn [length]; lia). exact F. }
  apply Send_Command_then; intros w1 F1 C1 S1;
    [|apply (Hstop 1%nat); [lia | lia | exact F1 | exact C1 | exact S1]].
  apply Send_Command_then; intros w2 F2 C2 S2;
    pose proof (framed_trans _ _ _ _ _ F1 F2) as G2;
    pose proof (same_cache_trans _ _ _ C1 C2) as D2;
    [|apply (Hstop 2%nat); [lia | lia | exact G2 | exact D2 | exact S2]].
  apply Send_Command_then; intros w3 F3 C3 S3;
    pose proof (framed_trans _ _ _ _ _ G2 F3) as G3;
    pose proof (same_cache_trans _ _ _ D2 C3) as D3;
    [|apply (Hstop 3%nat); [lia | lia | exact G3 | exact D3 | exact S3]].
  apply Send_Command_then; intros w4 F4 C4 S4;
    pose proof (framed_trans _ _ _ _ _ G3 F4) as G4;
    pose proof (same_cache_trans _ _ _ D3 C4) as D4;
    [|apply (Hstop 4%nat); [lia | lia | exact G4 | exact D4 | exact S4]].
  apply Send_Command_then; intros w5 F5 C5 S5;
    pose proof (framed_trans _ _ _ _ _ G4 F5) as G5;
    pose proof (same_cache_trans _ _ _ D4 C5) as D5;
    [|apply (Hstop 5%nat); [lia | lia | exact G5 | exact D5 | exact S5]].
  clear Hstop. cbn [app] in G5. destruct D5 as (A5 & B5 & E5).
  unfold bind at 1. rewrite Transmit_Command_CURSOR_ON, E5.
  unfold cmds in *. destruct (PowerState (handle w)) eqn:HP.
  - destruct (Send_Command_final 0x0E w5) as (w6 & F6 & (A6 & B6 & E6) & [[R S] | [R S]]);
      rewrite R; pose proof (framed_trans _ _ _ _ _ G5 F6) as G6; cbn [app] in G6;
      exists 6%nat; cbn [final returned length app];
      (split; [lia|]); (split; [exact G6|]).
    + rewrite bind_modify_handle. cbn [ret final returned handle].
      cbn [Cursor_Position Text PowerState State set_PowerState].
      rewrite A6, B6, A5, B5. auto 10.
    + rewrite A6, B6, E6, A5, B5, E5. auto 10.
  - rewrite bind_modify_handle.
    exists 5%nat. cbn [ret final returned handle length app].
    cbn [Cursor_Position Text PowerState State set_PowerState].
    split; [lia|]. split; [exact G5|].
    rewrite A5, B5. auto 10.
Qed.

(** X5.  Lines 237-299, on any bus and whether or not the call returns.
    When the device does not answer the probe, HD44780_Init returns
    false and nothing else has happened: no write, no delay, the handle
    untouched.  When it answers, HD44780_Init never returns false.  The
    bus has seen the 45 ms wait and the eight wake-up writes 0x34 0x30
    0x34 0x30 0x34 0x30 0x24 0x20 with their delays, none of them with
    the backlight bit, and after them only bytes with the backlight bit;
    the controller has been strobed with the nibbles 3, 3, 3, 2 and then
    with the first n, at least one, of the commands 0x28, 0x08, 0x01,
    0x06, 0x0C and, only if PowerState was ON at entry, 0x0E; the cached
    cursor is (0, 0) and the mirror is as it was.  If the call returns,
    it returns true, all of the commands have been sent, PowerState is ON
    and State is READY.  If it does not return, State is TIMEOUT and
    PowerState is what it was. *)
Theorem init_reset_sequence w :
  let o := HD44780_Init w in
  let w' := final o in
  let cmds := [Instruction 0x28; Instruction 0x08; Instruction 0x01;
               Instruction 0x06; Instruction 0x0C]
              ++ match PowerState (handle w) with
                 | LCD1602_ON => [Instruction 0x0E]
                 | LCD1602_OFF => []
                 end in
  (fst (bus_probe (device w)) = false ->
     o = Ret false (World (handle w) (AddressCounter w) (snd (bus_probe (device w)))
                          (trace w ++ [I2C_Probe false]))) /\
  (fst (bus_probe (device w)) = true ->
     (exists rest,
         emitted w w' = I2C_Probe true :: wake_events ++ rest /\ lit rest) /\
     Forall (fun x => backlight_of x = false) (tx_bytes wake_events) /\
     (exists n,
         (1 <= n <= length cmds)%nat /\
         strobes (emitted w w') =
           [(false, 3); (false, 3); (false, 3); (false, 2)]
           ++ flat_map nibbles (take n cmds) /\
         (returned o = true -> n = length cmds)) /\
     Cursor_Position (handle w') = (0, 0) /\
     Text (handle w') = Text (handle w) /\
     if returned o then
       o = Ret true w' /\
       PowerState (handle w') = LCD1602_ON /\
       State (handle w') = HD44780_READY
     else
       State (handle w') = HD44780_TIMEOUT /\
       PowerState (handle w') = PowerState (handle w)).
Proof.
  cbv zeta. rewrite Init_run.
  destruct (bus_probe (device w)) as [[|] d]; cbn [fst snd];
    (split; intros Hp); try discriminate; [clear Hp | reflexivity].
  set (w0 := World _ _ _ _).
  destruct (reset_commands_final w0) as (n & Hn & F & Hc & HT & Hend).
  cbv zeta in Hn, F. cbn [w0 handle PowerState Cursor_Position Text
                          set_Cursor_Position] in Hn, F, Hc, HT, Hend.
  destruct F as (rest & Ht & Hs & Hl). cbn [w0 trace] in Ht.
  assert (emitted w (final (reset_commands w0))
          = I2C_Probe true :: wake_events ++ rest) as He.
  { apply emitted_app. rewrite Ht, <- app_assoc. reflexivity. }
  rewrite He.
  split; [exists rest; auto|].
  split; [repeat constructor|].
  split.
  { exists n. split; [exact Hn|]. split.
    - change (I2C_Probe true :: wake_events ++ rest)
        with ((I2C_Probe true :: wake_events) ++ rest).
      rewrite strobes_app, Hs. reflexivity.
    - intros Hr. rewrite Hr in Hend. tauto. }
  split; [exact Hc|]. split; [exact HT|].
  destruct (returned (reset_commands w0)); tauto.
Qed.
End Wake.

(** ** Scrolling and the command table, on any bus *)

Lemma text_present_from_false n : forall i (t : list Z),
  text_present_from i n t = false <->
  (forall j, (i <= j < i + n)%nat -> default 0 (t !! j) = 0).
Proof.
  induction n as [|n IH]; intros i t; cbn [text_present_from].
  - split; [intros _ j Hj; lia | reflexivity].
  - destruct (default 0 (t !! i) =? 0) eqn:E; cbn [negb].
    + apply Z.eqb_eq in E. rewrite IH. split.
      * intros Hall j Hj. destruct (Nat.eq_dec j i) as [-> | Hne]; [exact E|].
        apply Hall. lia.
      * intros Hall j Hj. apply Hall. lia.
    + apply Z.eqb_neq in E. split; [discriminate|].
      intros Hall. exfalso. apply E, Hall. lia.
Qed.

Lemma strobes_scroll n :
  pair_up (strobes (scroll_events n)) = replicate n (Instruction 0x1C).
Proof.
  unfold scroll_events.
  induction n as [|n IH]; [reflexivity|].
  cbn [replicate concat]. rewrite <- app_assoc, strobes_app, payloads_command.
  change (strobes ([Delay 100] ++ ?t)) with (strobes t). rewrite IH. reflexivity.
Qed.

Lemma elapsed_scroll n : elapsed (scroll_events n) = 104 * Z.of_nat n.
Proof.
  unfold scroll_events.
  induction n as [|n IH]; [reflexivity|].
  cbn [replicate concat]. rewrite elapsed_app, IH.
  change (elapsed (command_events 28 ++ [Delay 100])) with 104. lia.
Qed.

Lemma rx_bytes_scroll n : rx_bytes (scroll_events n) = [].
Proof.
  unfold scroll_events.
  induction n as [|n IH]; [reflexivity|].
  cbn [replicate concat]. rewrite rx_bytes_app, IH. reflexivity.
Qed.

Lemma handler_entries_scroll n : handler_entries (scroll_events n) = O.
Proof.
  unfold scroll_events.
  induction n as [|n IH]; [reflexivity|].
  cbn [replicate concat]. rewrite handler_entries_app, IH. reflexivity.
Qed.

Lemma lit_scroll n : lit (scroll_events n).
Proof.
  unfold scroll_events.
  induction n as [|n IH]; [apply lit_nil|].
  cbn [replicate concat]. apply lit_app; [|exact IH].
  apply lit_app; [apply lit_command | apply lit_nil].
Qed.

Section Scroll.
Context {D : Type} `{!Bus D}.
Implicit Types (w : world D).

(** Lines 492-495: the loop sends without busy check, so it comes back
    whatever the bus answers. *)
Lemma shift_loop_run n : forall w,
  exists w',
    shift_loop n w = Ret tt w' /\
    trace w' = trace w ++ scroll_events n /\
    same_cache w w' /\
    AddressCounter w' = AddressCounter w /\
    (n = O -> w' = w).
Proof.
  induction n as [|n IH]; intros w.
  - exists w. unfold scroll_events. cbn [replicate concat]. rewrite app_nil_r.
    split; [reflexivity|]. split; [reflexivity|].
    split; [apply same_cache_refl | auto].
  - cbn [shift_loop]. rewrite (bind_Ret _ _ _ _ _ (Send_Command_unchecked 0x1C w)).
    rewrite bind_Delay. cbn [handle AddressCounter device trace].
    match goal with |- context [shift_loop n ?w1] =>
      destruct (IH w1) as (w' & Hrun & Ht & (C1 & C2 & C3) & Ha & _) end.
    cbn [handle AddressCounter trace Cursor_Position Text PowerState set_State]
      in Ht, C1, C2, C3, Ha.
    exists w'. split; [exact Hrun|]. split.
    + rewrite Ht. unfold scroll_events. cbn [replicate concat].
      rewrite <- !app_assoc. reflexivity.
    + split; [unfold same_cache; auto|]. split; [exact Ha | discriminate].
Qed.

Lemma Read_Character_in_range row column w :
  0 <= row < HD44780_NUM_ROWS -> 0 <= column < HD44780_NUM_COLS ->
  HD44780_Read_Character row column w
  = Ret (default 0 (Text (handle w) !! Z.to_nat (row * 16 + column))) w.
Proof.
  unfold HD44780_NUM_ROWS, HD44780_NUM_COLS. intros Hr Hc.
  unfold HD44780_Read_Character, HD44780_NUM_ROWS, HD44780_NUM_COLS.
  assert ((row >=? 2) || (column >=? 16) = false) as ->.
  { apply orb_false_iff. split; rewrite Z.geb_leb; apply Z.leb_gt; lia. }
  rewrite bind_get_handle. unfold ret, u8.
  rewrite Z.mod_small by lia. reflexivity.
Qed.

(** The cell of mirror index [i], as HD44780_Read_Character reads it. *)
Lemma Read_Character_index (i : nat) w :
  (i < 32)%nat ->
  HD44780_Read_Character (Z.of_nat i / 16) (Z.of_nat i mod 16) w
  = Ret (default 0 (Text (handle w) !! i)) w.
Proof.
  intros Hi.
  rewrite Read_Character_in_range.
  - replace (Z.of_nat i / 16 * 16 + Z.of_nat i mod 16) with (Z.of_nat i)
      by (pose proof (Z.div_mod (Z.of_nat i) 16); lia).
    rewrite Nat2Z.id. reflexivity.
  - unfold HD44780_NUM_ROWS. split; [apply Z.div_pos; lia|].
    apply Z.div_lt_upper_bound; lia.
  - unfold HD44780_NUM_COLS. apply Z.mod_pos_bound. lia.
Qed.

(** X6.  Lines 478-497.  HD44780_Animate_Text always returns.  When
    HD44780_Read_Character reads 0 in every cell it does nothing at all.
    When some cell reads non-zero it sends 40 display-shift commands
    (0x1C) for each scroll asked for, each followed by a 100 ms wait,
    which makes 104 ms a shift.  In either case it reads nothing from the
    bus, checks no busy flag, cannot time out, and leaves the cached
    cursor, the mirror, PowerState and AddressCounter as they were. *)
Theorem animate_text_scrolls (NumberOfScrolls : Z) w :
  0 <= NumberOfScrolls < 256 ->
  let w' := final (HD44780_Animate_Text NumberOfScrolls w) in
  let shifts := Z.to_nat (40 * NumberOfScrolls) in
  HD44780_Animate_Text NumberOfScrolls w = Ret tt w' /\
  ((forall row column,
       0 <= row < HD44780_NUM_ROWS -> 0 <= column < HD44780_NUM_COLS ->
       HD44780_Read_Character row column w = Ret 0 w) -> w' = w) /\
  (forall row column c,
      0 <= row < HD44780_NUM_ROWS -> 0 <= column < HD44780_NUM_COLS ->
      HD44780_Read_Character row column w = Ret c w -> c <> 0 ->
      emitted w w' = scroll_events shifts /\
      payloads (emitted w w') = replicate shifts (Instruction 0x1C) /\
      elapsed (emitted w w') = 104 * Z.of_nat shifts) /\
  rx_bytes (emitted w w') = [] /\
  handler_entries (emitted w w') = O /\
  lit (emitted w w') /\
  same_cache w w' /\
  AddressCounter w' = AddressCounter w.
Proof.
  intros Hn. cbv zeta.
  unfold HD44780_Animate_Text. rewrite bind_get_handle.
  change (Z.to_nat HD44780_NUM_ELEMENTS) with 32%nat.
  change (Z.quot 80 HD44780_NUM_ROWS) with 40.
  replace (NumberOfScrolls * 40) with (40 * NumberOfScrolls) by lia.
  destruct (text_present_from 0 32 (Text (handle w))) eqn:Hpresent.
  - destruct (shift_loop_run (Z.to_nat (40 * NumberOfScrolls)) w)
      as (w' & Hrun & Ht & Hc & Ha & _).
    rewrite Hrun. cbn [final]. rewrite (emitted_app _ _ _ Ht).
    split; [reflexivity|]. split.
    { intros Hblank. exfalso.
      assert (text_present_from 0 32 (Text (handle w)) = false) as Hno.
      { apply text_present_from_false. intros j Hj.
        pose proof (Read_Character_index j w ltac:(lia)) as Hread.
        rewrite Hblank in Hread.
        - injection Hread as Hread. symmetry. exact Hread.
        - unfold HD44780_NUM_ROWS. split; [apply Z.div_pos; lia|].
          apply Z.div_lt_upper_bound; lia.
        - unfold HD44780_NUM_COLS. apply Z.mod_pos_bound. lia. }
      congruence. }
    split.
    { intros _ _ _ _ _ _ _. split; [reflexivity|].
      split; [apply strobes_scroll | apply elapsed_scroll]. }
    split; [apply rx_bytes_scroll|]. split; [apply handler_entries_scroll|].
    split; [apply lit_scroll|]. auto.
  - unfold ret. cbn [final]. rewrite emitted_refl.
    split; [reflexivity|]. split; [reflexivity|]. split.
    { intros row column c Hr Hc Hread Hnz. exfalso.
      pose proof (proj1 (text_present_from_false 32 0 (Text (handle w))) Hpresent)
        as Hall.
      rewrite Read_Character_in_range in Hread by assumption.
      injection Hread as Hread.
      unfold HD44780_NUM_ROWS, HD44780_NUM_COLS in *.
      rewrite Hall in Hread by lia. congruence. }
    split; [reflexivity|]. split; [reflexivity|].
    split; [apply lit_nil|]. split; [apply same_cache_refl | reflexivity].
Qed.
End Scroll.

Section Table.
Context {D : Type} `{!Bus D}.
Implicit Types (w : world D).

(** X7.  Lines 310-356.  With PowerState ON, what reaches the controller when
    HD44780_Transmit_Command returns: one instruction byte for the six
    commands that are sent as frames, CURSOR_OFF and CURSOR_UNBLINK being
    the same byte 0x0C, and no instruction at all for DISPLAY_OFF (its
    single write carries no enable strobe) and for DISPLAY_ON.  The cached
    cursor is set to (0, 0) by CLEAR_DISPLAY and RETURN_HOME only, the
    mirror is written by CLEAR_DISPLAY only, and the commands sent as
    frames leave State READY. *)
Theorem command_table (cmd : HD44780_User_Command_List) w w' :
  PowerState (handle w) = LCD1602_ON ->
  HD44780_Transmit_Command cmd w = Ret tt w' ->
  payloads (emitted w w') =
    match cmd with
    | CLEAR_DISPLAY => [Instruction 0x01]
    | RETURN_HOME => [Instruction 0x02]
    | CURSOR_ON => [Instruction 0x0E]
    | CURSOR_BLINK => [Instruction 0x0D]
    | CURSOR_OFF | CURSOR_UNBLINK => [Instruction 0x0C]
    | DISPLAY_ON | DISPLAY_OFF => []
    end /\
  Cursor_Position (handle w') =
    match cmd with
    | CLEAR_DISPLAY | RETURN_HOME => (0, 0)
    | _ => Cursor_Position (handle w)
    end /\
  (cmd <> CLEAR_DISPLAY -> Text (handle w') = Text (handle w)) /\
  State (handle w') =
    match cmd with
    | DISPLAY_ON | DISPLAY_OFF => State (handle w)
    | _ => HD44780_READY
    end /\
  PowerState (handle w') =
    match cmd with
    | DISPLAY_OFF => LCD1602_OFF
    | _ => LCD1602_ON
    end.
Proof.
  intros HP. unfold HD44780_Transmit_Command. rewrite bind_get_handle, HP.
  assert (forall c w1,
             HD44780_Send_Command c true w = Ret tt w1 ->
             0 <= c < 256 ->
             payloads (drop (length (trace w)) (trace w1)) = [Instruction c] /\
             handle w1 = set_State HD44780_READY (handle w)) as Hframe.
  { intros c w1 Hsend Hc. apply Send_Command_Ret_framed in Hsend as [Hh F].
    split; [|exact Hh].
    apply framed_sent_by in F. apply sent_by_payloads in F.
    - unfold u8 in F. rewrite Z.mod_small in F by exact Hc. exact F.
    - constructor; [|constructor]. cbn [byte_payload]. unfold u8.
      apply Z.mod_pos_bound. lia. }
  unfold emitted.
  destruct cmd; intros Hrun.
  - (* CLEAR_DISPLAY *)
    apply bind_Ret_inv in Hrun as ([] & w1 & Hsend & Hrun).
    apply bind_Ret_inv in Hrun as ([] & w2 & Hclear & Hrun).
    apply modify_handle_inv in Hclear as ->. apply modify_handle_inv in Hrun as ->.
    destruct (Hframe 1 w1 Hsend ltac:(lia)) as [Hp Hh].
    cbn [handle trace Cursor_Position Text State PowerState
           set_Cursor_Position set_Text].
    rewrite Hh. cbn [Cursor_Position Text State PowerState set_State].
    repeat split; auto. congruence.
  - (* RETURN_HOME *)
    apply bind_Ret_inv in Hrun as ([] & w1 & Hsend & Hrun).
    apply modify_handle_inv in Hrun as ->.
    destruct (Hframe 2 w1 Hsend ltac:(lia)) as [Hp Hh].
    cbn [handle trace Cursor_Position Text State PowerState set_Cursor_Position].
    rewrite Hh. cbn [Cursor_Position Text State PowerState set_State].
    repeat split; auto.
  - (* DISPLAY_ON *)
    apply ret_inv in Hrun as [_ ->].
    rewrite drop_all. repeat split; auto.
  - (* DISPLAY_OFF *)
    rewrite bind_Transmit in Hrun. apply modify_handle_inv in Hrun as ->.
    cbn [handle trace Cursor_Position Text State PowerState set_PowerState].
    rewrite drop_app_length. repeat split; auto.
  - destruct (Hframe 14 w' Hrun ltac:(lia)) as [Hp Hh].
    rewrite Hh. cbn [Cursor_Position Text State PowerState set_State].
    repeat split; auto.
  - destruct (Hframe 12 w' Hrun ltac:(lia)) as [Hp Hh].
    rewrite Hh. cbn [Cursor_Position Text State PowerState set_State].
    repeat split; auto.
  - destruct (Hframe 13 w' Hrun ltac:(lia)) as [Hp Hh].
    rewrite Hh. cbn [Cursor_Position Text State PowerState set_State].
    repeat split; auto.
  - destruct (Hframe 12 w' Hrun ltac:(lia)) as [Hp Hh].
    rewrite Hh. cbn [Cursor_Position Text State PowerState set_State].
    repeat split; auto.
Qed.
End Table.

(** ** Printing, on any bus *)

Section Prints.
Context {D : Type} `{!Bus D}.
Implicit Types (w : world D).

(** The mirror after a HD44780_Print that returns: the characters that
    fit, from the start index on. *)
Lemma Print_Ret_Text (str : list Z) w w' :
  let chars := take (strlen str) str in
  let w0 := final (HD44780_Get_Cursor_Position w) in
  let start := u8 (fst (Cursor_Position (handle w0)) * HD44780_NUM_COLS
                   + snd (Cursor_Position (handle w0))) in
  HD44780_Print str w = Ret tt w' ->
  Text (handle w') =
    list_inserts (Z.to_nat start)
      (take (Z.to_nat (HD44780_NUM_ELEMENTS - start)) chars) (Text (handle w)) /\
  PowerState (handle w') = PowerState (handle w).
Proof.
  cbv zeta. intros Hrun.
  rewrite Print_unfold in Hrun. cbv zeta in Hrun.
  destruct (Get_Cursor_Position_sent w) as (w0 & Hg & _ & T0 & P0).
  rewrite Hg in *. cbn [final] in *.
  set (start := u8 (fst (Cursor_Position (handle w0)) * HD44780_NUM_COLS
                    + snd (Cursor_Position (handle w0)))) in *.
  assert (0 <= start < 256) as Hstart by apply u8_range.
  apply bind_Ret_inv in Hrun as (early & w1 & Hloop & Hend).
  apply Print_loop_Ret in Hloop; [|lia]. cbv zeta in Hloop.
  rewrite Z.add_0_r in Hloop.
  set (chars := take (strlen str) str) in *.
  clearbody start chars.
  destruct Hloop as (_ & HT & _ & HP & _).
  assert (take (Nat.min (length chars) (Z.to_nat (HD44780_NUM_ELEMENTS - start))) chars
          = take (Z.to_nat (HD44780_NUM_ELEMENTS - start)) chars) as Htake.
  { destruct (le_lt_dec (length chars) (Z.to_nat (HD44780_NUM_ELEMENTS - start))).
    - rewrite Nat.min_l by lia. rewrite !take_ge by lia. reflexivity.
    - rewrite Nat.min_r by lia. reflexivity. }
  rewrite Htake in HT.
  assert (Text (handle w') = Text (handle w1) /\
          PowerState (handle w') = PowerState (handle w1)) as [-> ->].
  { destruct early.
    - apply ret_inv in Hend as [_ ->]. auto.
    - destruct (Get_Cursor_Position_sent w1) as (w2 & Hg2 & _ & T2 & P2).
      rewrite Hg2 in Hend. injection Hend as <-. auto. }
  rewrite HT, HP, T0, P0. auto.
Qed.

(** X8.  Lines 394-395 with 447-448.  After a HD44780_Print that returns,
    HD44780_Read_Character gives back the string: the cell at distance j
    from the start index holds character j of the string, for every
    cell of the mirror reached before the string ends, and every other
    cell holds what it held before.  The start index is the one computed
    from the cursor read at the start of the call. *)
Theorem print_then_read (str : list Z) w w' (row column : Z) :
  let chars := take (strlen str) str in
  let w0 := final (HD44780_Get_Cursor_Position w) in
  let start := u8 (fst (Cursor_Position (handle w0)) * HD44780_NUM_COLS
                   + snd (Cursor_Position (handle w0))) in
  let idx := row * HD44780_NUM_COLS + column in
  handle_wf (handle w) ->
  HD44780_Print str w = Ret tt w' ->
  0 <= row < HD44780_NUM_ROWS -> 0 <= column < HD44780_NUM_COLS ->
  handle_wf (handle w') /\
  HD44780_Read_Character row column w' =
    Ret (if (start <=? idx) && (idx <? start + Z.of_nat (length chars))
         then default 0 (chars !! Z.to_nat (idx - start))
         else default 0 (Text (handle w) !! Z.to_nat idx)) w'.
Proof.
  cbv zeta. intros Hwf Hrun Hr Hc.
  apply Print_Ret_Text in Hrun as [HT _]. cbv zeta in HT.
  set (chars := take (strlen str) str) in *.
  set (start := u8 _) in *.
  assert (0 <= start < 256) as Hstart by apply u8_range.
  clearbody start chars.
  unfold handle_wf in *. rewrite HT, length_inserts.
  split; [exact Hwf|].
  rewrite Read_Character_in_range by assumption. rewrite HT. f_equal.
  unfold HD44780_NUM_ELEMENTS, HD44780_NUM_ROWS, HD44780_NUM_COLS in *.
  change (Z.to_nat (2 * 16)) with 32%nat in Hwf. change (2 * 16) with 32.
  set (idx := row * 16 + column). assert (0 <= idx < 32) as Hidx by (unfold idx; lia).
  clearbody idx.
  destruct (start <=? idx) eqn:E1; cbn [andb].
  - apply Z.leb_le in E1.
    destruct (idx <? start + Z.of_nat (length chars)) eqn:E2.
    + apply Z.ltb_lt in E2.
      rewrite list_lookup_inserts by (rewrite ?length_take; lia).
      rewrite lookup_take_lt by lia.
      replace (Z.to_nat idx - Z.to_nat start)%nat with (Z.to_nat (idx - start)) by lia.
      reflexivity.
    + apply Z.ltb_ge in E2.
      rewrite list_lookup_inserts_ge by (rewrite ?length_take; lia). reflexivity.
  - apply Z.leb_gt in E1.
    rewrite list_lookup_inserts_lt by lia. reflexivity.
Qed.
End Prints.

Section EmptyString.
Context {D : Type} `{!Bus D}.
Implicit Types (w : world D).

(** X9.  Lines 383, 388 and 401 for a string of length 0.  HD44780_Print
    returns, whatever the bus answers; it has read the status twice and
    sent nothing the controller would latch; the mirror and PowerState
    are as they were; AddressCounter and the cached cursor are refreshed
    from the last status read that found the busy flag clear, the cached
    cursor being the translation of AddressCounter. *)
Theorem print_empty_string (str : list Z) w :
  strlen str = O ->
  let w' := final (HD44780_Print str w) in
  HD44780_Print str w = Ret tt w' /\
  strobes (emitted w w') = [] /\
  length (statuses (emitted w w')) = 2%nat /\
  elapsed (emitted w w') = 10 /\
  Text (handle w') = Text (handle w) /\
  PowerState (handle w') = PowerState (handle w) /\
  Cursor_Position (handle w') = cursor_of_address (AddressCounter w') /\
  AddressCounter w' =
    fold_left (fun a st => if busy_flag st then a else address_of st)
              (statuses (emitted w w')) (AddressCounter w).
Proof.
  intros Hlen. cbv zeta. rewrite Print_unfold. cbv zeta. rewrite Hlen.
  rewrite take_0. cbn [Print_loop]. rewrite bind_ret.
  pose proof (Get_Cursor_Position_run w) as Hg.
  destruct (status_read (device w)) as [r d]. cbv zeta in Hg. rewrite Hg.
  cbn [final].
  match goal with |- context [HD44780_Get_Cursor_Position ?w0] =>
    pose proof (Get_Cursor_Position_run w0) as Hg' end.
  cbn [device handle AddressCounter trace] in Hg'.
  destruct (status_read d) as [r' d']. cbv zeta in Hg'. rewrite Hg'.
  cbn [final handle AddressCounter trace Text PowerState Cursor_Position
         set_Cursor_Position set_State].
  rewrite <- app_assoc, emitted_World.
  split; [reflexivity|].
  split.
  { change (status_events r ++ status_events r') with (poll_events [r; r']).
    apply strobes_poll. }
  change (statuses (status_events r ++ status_events r'))
    with [status_of r; status_of r'].
  repeat split; reflexivity.
Qed.
End EmptyString.

(** ** Rules kept by whole calls, on any bus *)

Lemma pairs_app rs1 rs2 : pairs (rs1 ++ rs2) = pairs rs1 ++ pairs rs2.
Proof. apply flat_map_app. Qed.

Lemma statuses_of_pairs rs : statuses_of (pairs rs) = map status_of rs.
Proof.
  induction rs as [|[r1 r2] rs IH]; [reflexivity|].
  cbn [pairs flat_map app fst snd statuses_of map] in *.
  fold (pairs rs). rewrite IH. reflexivity.
Qed.

Lemma rx_bytes_poll_pairs rs : rx_bytes (poll_events rs) = pairs rs.
Proof. rewrite rx_bytes_poll. unfold pairs. rewrite flat_map_concat_map. reflexivity. Qed.

Section Discipline.
Context {D : Type} `{!Bus D}.
Implicit Types (w : world D).

Lemma disciplined_bind {A B} (m : M D A) (k : A -> M D B) w :
  disciplined w (m w) ->
  (forall a w1, m w = Ret a w1 -> disciplined w1 (k a w1)) ->
  disciplined w (bind m k w).
Proof.
  unfold bind. intros Hm Hk.
  destruct (m w) as [a w1|w1]; [|exact Hm].
  destruct Hm as (e1 & r1 & T1 & R1 & H1). cbn [final] in T1.
  specialize (Hk a w1 eq_refl).
  destruct Hk as (e2 & r2 & T2 & R2 & H2).
  exists (e1 ++ e2), (r1 ++ r2).
  split; [rewrite T2, T1, <- app_assoc; reflexivity|].
  split; [rewrite rx_bytes_app, pairs_app, R1, R2; reflexivity|].
  destruct (k a w1) as [b w2|w2].
  - rewrite handler_entries_app, H1, H2. reflexivity.
  - destruct H2 as (E2 & L2 & S2 & pre & busy & -> & Hlen & Hbusy).
    split; [rewrite handler_entries_app, H1, E2; reflexivity|].
    split.
    { destruct e2 as [|e e2]; [discriminate|].
      rewrite last_app. rewrite L2. reflexivity. }
    split; [exact S2|].
    exists (r1 ++ pre), busy. rewrite <- app_assoc. auto.
Qed.

Lemma disciplined_quiet {A} (a : A) w w' evs :
  trace w' = trace w ++ evs -> rx_bytes evs = [] -> handler_entries evs = O ->
  disciplined w (Ret a w').
Proof. intros Ht Hr Hh. exists evs, []. auto. Qed.

Lemma disciplined_same {A} (a : A) w w' :
  trace w' = trace w -> disciplined w (Ret a w').
Proof.
  intros Ht. apply (disciplined_quiet a w w' []); try reflexivity.
  rewrite app_nil_r. exact Ht.
Qed.

Lemma disciplined_confirmed w evs rs (d : D) :
  poll_shape 20 rs -> rx_bytes evs = [] -> handler_entries evs = O ->
  disciplined w (confirmed w evs rs d).
Proof.
  intros (_ & _ & Hshape) Hr Hh. unfold confirmed.
  exists (evs ++ poll_events rs
            ++ (if polled_ready rs then [] else [Error_Handler_Entered])), rs.
  destruct (polled_ready rs); cbn [final trace].
  - rewrite app_nil_r.
    split; [reflexivity|].
    split; [rewrite rx_bytes_app, Hr, rx_bytes_poll_pairs; reflexivity|].
    rewrite handler_entries_app, Hh, handler_entries_poll. reflexivity.
  - destruct Hshape as [Hlen Hbusy].
    split; [reflexivity|].
    split; [rewrite !rx_bytes_app, Hr, rx_bytes_poll_pairs; apply app_nil_r|].
    split; [rewrite !handler_entries_app, Hh, handler_entries_poll; reflexivity|].
    split; [rewrite !app_assoc; apply last_snoc|].
    split; [reflexivity|].
    exists [], rs. auto.
Qed.

Lemma disciplined_Send_Command c chk w :
  disciplined w (HD44780_Send_Command c chk w).
Proof.
  destruct chk.
  - destruct (Send_Command_checked c w) as (rs & d & Hs & ->).
    apply disciplined_confirmed; auto.
  - rewrite Send_Command_unchecked.
    apply (disciplined_quiet tt w _ (command_events c)); reflexivity.
Qed.

Lemma disciplined_Send_Data c chk w :
  disciplined w (HD44780_Send_Data c chk w).
Proof.
  destruct chk.
  - destruct (Send_Data_checked c w) as (rs & d & Hs & ->).
    apply disciplined_confirmed; auto.
  - rewrite Send_Data_unchecked.
    apply (disciplined_quiet tt w _ (data_events c)); reflexivity.
Qed.

Lemma disciplined_Set_Cursor_Position row column w :
  disciplined w (HD44780_Set_Cursor_Position row column w).
Proof.
  unfold HD44780_Set_Cursor_Position.
  destruct ((row >=? HD44780_NUM_ROWS) || (column >=? HD44780_NUM_COLS)).
  - apply disciplined_same. reflexivity.
  - destruct (row =? 0); apply disciplined_Send_Command.
Qed.

Lemma disciplined_Get_Cursor_Position w :
  disciplined w (HD44780_Get_Cursor_Position w).
Proof.
  pose proof (Get_Cursor_Position_run w) as Hg.
  destruct (status_read (device w)) as [r d]. cbv zeta in Hg. rewrite Hg.
  exists (status_events r), [r]. cbn [final trace].
  split; [reflexivity|]. split; reflexivity.
Qed.

Lemma disciplined_modify_handle f w : disciplined w (modify_handle f w).
Proof. apply disciplined_same. reflexivity. Qed.

Lemma disciplined_ret {A} (a : A) w : disciplined w (ret a w).
Proof. apply disciplined_same. reflexivity. Qed.

Lemma disciplined_Transmit_Command cmd w :
  disciplined w (HD44780_Transmit_Command cmd w).
Proof.
  unfold HD44780_Transmit_Command. rewrite bind_get_handle.
  destruct (PowerState (handle w)); destruct cmd;
    try apply disciplined_ret;
    try apply disciplined_Send_Command.
  - apply disciplined_bind; [apply disciplined_Send_Command|]. intros _ w1 _.
    apply disciplined_bind; [apply disciplined_modify_handle|]. intros _ w2 _.
    apply disciplined_modify_handle.
  - apply disciplined_bind; [apply disciplined_Send_Command|]. intros _ w1 _.
    apply disciplined_modify_handle.
  - rewrite bind_Transmit. apply (disciplined_quiet tt w _ [I2C_Tx 0]); reflexivity.
  - rewrite bind_Transmit.
    apply (disciplined_quiet tt w _ [I2C_Tx HD44780_BACKLIGHT]); reflexivity.
Qed.

Lemma disciplined_Print_loop chars : forall start i w,
  disciplined w (Print_loop start i chars w).
Proof.
  induction chars as [|c rest IH]; intros start i w; cbn [Print_loop].
  - apply disciplined_ret.
  - destruct (start + i >? HD44780_NUM_ELEMENTS - 1).
    + apply disciplined_bind; [apply disciplined_Set_Cursor_Position|].
      intros _ w1 _. apply disciplined_ret.
    + apply disciplined_bind; [apply disciplined_Send_Data|]. intros _ w1 _.
      apply disciplined_bind; [apply disciplined_modify_handle|]. intros _ w2 _.
      rewrite bind_get_AddressCounter.
      apply disciplined_bind; [|intros _ w3 _; apply IH].
      destruct (AddressCounter w2 =? HD44780_NUM_COLS);
        [apply disciplined_Set_Cursor_Position | apply disciplined_ret].
Qed.

Lemma disciplined_Print str w : disciplined w (HD44780_Print str w).
Proof.
  unfold HD44780_Print.
  apply disciplined_bind; [apply disciplined_Get_Cursor_Position|]. intros _ w0 _.
  rewrite bind_get_handle. cbv zeta.
  apply disciplined_bind; [apply disciplined_Print_loop|]. intros early w1 _.
  destruct early; [apply disciplined_ret | apply disciplined_Get_Cursor_Position].
Qed.

Lemma disciplined_Animate_Text n w : disciplined w (HD44780_Animate_Text n w).
Proof.
  unfold HD44780_Animate_Text. rewrite bind_get_handle. cbv zeta.
  destruct (text_present_from _ _ _); [|apply disciplined_ret].
  destruct (shift_loop_run (Z.to_nat (n * Z.quot 80 HD44780_NUM_ROWS)) w)
    as (w' & -> & Ht & _).
  apply (disciplined_quiet tt w w' _ Ht);
    [apply rx_bytes_scroll | apply handler_entries_scroll].
Qed.

Lemma disciplined_reset_commands w : disciplined w (reset_commands w).
Proof.
  unfold reset_commands. cbv zeta.
  do 5 (apply disciplined_bind; [apply disciplined_Send_Command|]; intros _ ? _).
  apply disciplined_bind; [apply disciplined_Transmit_Command|]. intros _ ? _.
  apply disciplined_bind; [apply disciplined_modify_handle|]. intros _ ? _.
  apply disciplined_ret.
Qed.

Lemma disciplined_Init w : disciplined w (HD44780_Init w).
Proof.
  rewrite Init_run. destruct (fst (bus_probe (device w))).
  - destruct (disciplined_reset_commands
                (World (set_Cursor_Position (0, 0) (handle w)) (AddressCounter w)
                       (drive wake_events (snd (bus_probe (device w))))
                       (trace w ++ I2C_Probe true :: wake_events)))
      as (evs & rs & Ht & Hr & Ho).
    cbn [trace] in Ht.
    exists ((I2C_Probe true :: wake_events) ++ evs), rs.
    split; [rewrite Ht, <- app_assoc; reflexivity|].
    split; [rewrite rx_bytes_app, Hr; reflexivity|].
    destruct (reset_commands _) as [b w'|w'].
    + rewrite handler_entries_app, Ho. reflexivity.
    + destruct Ho as (E & L & S & Hbusy).
      split; [rewrite handler_entries_app, E; reflexivity|].
      split; [|auto].
      destruct evs as [|e evs]; [discriminate|].
      rewrite last_app, L. reflexivity.
  - apply (disciplined_quiet false w _ [I2C_Probe false]); reflexivity.
Qed.

Lemma disciplined_rule {A} w (o : outcome D A) :
  disciplined w o -> escalation_rule w o.
Proof.
  intros (evs & rs & Ht & Hr & Ho). unfold escalation_rule. cbv zeta.
  rewrite (emitted_app _ _ _ Ht).
  destruct o as [a w'|w']; cbn [returned final]; [exact Ho|].
  destruct Ho as (E & L & S & pre & busy & -> & Hlen & Hbusy).
  split; [exact E|]. split; [exact L|]. split; [exact S|].
  exists (map status_of pre), (map status_of busy).
  unfold statuses. rewrite Hr, statuses_of_pairs, map_app, length_map.
  split; [reflexivity|]. split; [exact Hlen|].
  apply Forall_map. exact Hbusy.
Qed.

(** X10.  Lines 108-120 and 162-173, seen from every public function.
    Whatever the bus answers: a public call that returns has not entered
    HD44780_Error_Handler; a public call that does not return has entered
    it exactly once, as the last thing it did, with State TIMEOUT, and the
    twenty status reads before that all found the busy flag set.
    HD44780_Read_Character, the two index getters and
    HD44780_Animate_Text always return. *)
Theorem public_calls_escalate_only_on_timeout
    (str : list Z) (row column n : Z) (cmd : HD44780_User_Command_List) w :
  escalation_rule w (HD44780_Init w) /\
  escalation_rule w (HD44780_Print str w) /\
  escalation_rule w (HD44780_Transmit_Command cmd w) /\
  escalation_rule w (HD44780_Set_Cursor_Position row column w) /\
  escalation_rule w (HD44780_Animate_Text n w) /\
  returned (HD44780_Animate_Text n w) = true /\
  returned (HD44780_Read_Character row column w) = true /\
  returned (HD44780_Get_Row_Index w) = true /\
  returned (HD44780_Get_Column_Index w) = true.
Proof.
  split; [apply disciplined_rule, disciplined_Init|].
  split; [apply disciplined_rule, disciplined_Print|].
  split; [apply disciplined_rule, disciplined_Transmit_Command|].
  split; [apply disciplined_rule, disciplined_Set_Cursor_Position|].
  split; [apply disciplined_rule, disciplined_Animate_Text|].
  split.
  { unfold HD44780_Animate_Text. rewrite bind_get_handle. cbv zeta.
    destruct (text_present_from _ _ _); [|reflexivity].
    destruct (shift_loop_run (Z.to_nat (n * Z.quot 80 HD44780_NUM_ROWS)) w)
      as (w' & -> & _). reflexivity. }
  split.
  { unfold HD44780_Read_Character.
    destruct (_ || _); [reflexivity|]. rewrite bind_get_handle. reflexivity. }
  split; reflexivity.
Qed.
End Discipline.

Section Backlight.
Context {D : Type} `{!Bus D}.
Implicit Types (w : world D).

Lemma backlit_bind {A B} (m : M D A) (k : A -> M D B) w :
  backlit w (m w) ->
  (forall a w1, m w = Ret a w1 -> backlit w1 (k a w1)) ->
  backlit w (bind m k w).
Proof.
  unfold bind. intros Hm Hk.
  destruct (m w) as [a w1|w1]; [|exact Hm].
  destruct Hm as (e1 & T1 & L1 & P1). cbn [final] in T1, P1.
  destruct (Hk a w1 eq_refl) as (e2 & T2 & L2 & P2).
  exists (e1 ++ e2).
  split; [rewrite T2, T1, <- app_assoc; reflexivity|].
  split; [apply lit_app; assumption | congruence].
Qed.

Lemma backlit_same {A} (a : A) w w' :
  trace w' = trace w -> PowerState (handle w') = PowerState (handle w) ->
  backlit w (Ret a w').
Proof.
  intros Ht Hp. exists []. rewrite app_nil_r.
  split; [exact Ht|]. split; [apply lit_nil | exact Hp].
Qed.

Lemma backlit_ret {A} (a : A) w : backlit w (ret a w).
Proof. apply backlit_same; reflexivity. Qed.

Lemma backlit_confirmed w evs rs (d : D) :
  lit evs -> backlit w (confirmed w evs rs d).
Proof.
  intros Hl.
  destruct (confirmed_final w evs rs d) as (s & tail & Hh & Ht & Htail & _).
  exists (evs ++ poll_events rs ++ tail).
  split; [exact Ht|]. split; [|rewrite Hh; reflexivity].
  apply lit_app; [exact Hl|]. apply lit_app; [apply lit_poll|].
  destruct Htail as [-> | ->]; apply lit_nil.
Qed.

Lemma backlit_Send_Command c chk w : backlit w (HD44780_Send_Command c chk w).
Proof.
  destruct chk.
  - destruct (Send_Command_checked c w) as (rs & d & _ & ->).
    apply backlit_confirmed, lit_command.
  - rewrite Send_Command_unchecked. exists (command_events c).
    split; [reflexivity|]. split; [apply lit_command | reflexivity].
Qed.

Lemma backlit_Send_Data c chk w : backlit w (HD44780_Send_Data c chk w).
Proof.
  destruct chk.
  - destruct (Send_Data_checked c w) as (rs & d & _ & ->).
    apply backlit_confirmed, lit_data.
  - rewrite Send_Data_unchecked. exists (data_events c).
    split; [reflexivity|]. split; [apply lit_data | reflexivity].
Qed.

Lemma backlit_Set_Cursor_Position row column w :
  backlit w (HD44780_Set_Cursor_Position row column w).
Proof.
  unfold HD44780_Set_Cursor_Position.
  destruct ((row >=? HD44780_NUM_ROWS) || (column >=? HD44780_NUM_COLS)).
  - apply backlit_ret.
  - destruct (row =? 0); apply backlit_Send_Command.
Qed.

Lemma backlit_Get_Cursor_Position w :
  backlit w (HD44780_Get_Cursor_Position w).
Proof.
  pose proof (Get_Cursor_Position_run w) as Hg.
  destruct (status_read (device w)) as [r d]. cbv zeta in Hg. rewrite Hg.
  exists (status_events r). cbn [final trace handle].
  split; [reflexivity|]. split; [|reflexivity].
  change (status_events r) with (poll_events [r] ++ []).
  apply lit_app; [apply lit_poll | apply lit_nil].
Qed.

Lemma backlit_Print_loop chars : forall start i w,
  backlit w (Print_loop start i chars w).
Proof.
  induction chars as [|c rest IH]; intros start i w; cbn [Print_loop].
  - apply backlit_ret.
  - destruct (start + i >? HD44780_NUM_ELEMENTS - 1).
    + apply backlit_bind; [apply backlit_Set_Cursor_Position|].
      intros _ w1 _. apply backlit_ret.
    + apply backlit_bind; [apply backlit_Send_Data|]. intros _ w1 _.
      apply backlit_bind; [apply backlit_same; reflexivity|]. intros _ w2 _.
      rewrite bind_get_AddressCounter.
      apply backlit_bind; [|intros _ w3 _; apply IH].
      destruct (AddressCounter w2 =? HD44780_NUM_COLS);
        [apply backlit_Set_Cursor_Position | apply backlit_ret].
Qed.

(** X11.  Lines 381-430 and 478-497 against lines 310 and 358.  Whatever
    PowerState is, OFF included, HD44780_Print,
    HD44780_Set_Cursor_Position and HD44780_Animate_Text leave it as it
    was, and every byte they write has the backlight bit set;
    HD44780_Print writes in every case, its first byte being 0xFA.  So
    after DISPLAY_OFF these calls switch the backlight on again while
    PowerState stays OFF.  The commands that HD44780_Transmit_Command
    sends as frames keep the same rule. *)
Theorem frames_keep_backlight
    (str : list Z) (row column n : Z) (cmd : HD44780_User_Command_List) w :
  backlit w (HD44780_Print str w) /\
  (exists rest,
      tx_bytes (emitted w (final (HD44780_Print str w))) = 0xFA :: rest) /\
  backlit w (HD44780_Set_Cursor_Position row column w) /\
  backlit w (HD44780_Animate_Text n w) /\
  (cmd <> DISPLAY_ON -> cmd <> DISPLAY_OFF ->
   backlit w (HD44780_Transmit_Command cmd w)).
Proof.
  assert (forall w0, backlit w0
            (bind (Print_loop
                     (u8 (fst (Cursor_Position (handle w0)) * HD44780_NUM_COLS
                          + snd (Cursor_Position (handle w0)))) 0
                     (take (strlen str) str))
                  (fun early => if early : bool then ret tt
                                else HD44780_Get_Cursor_Position) w0)) as Hrest.
  { intros w0. apply backlit_bind; [apply backlit_Print_loop|].
    intros early w1 _.
    destruct early; [apply backlit_ret | apply backlit_Get_Cursor_Position]. }
  split; [|split; [|split; [|split]]].
  - unfold HD44780_Print.
    apply backlit_bind; [apply backlit_Get_Cursor_Position|]. intros _ w0 _.
    rewrite bind_get_handle. cbv zeta. apply Hrest.
  - rewrite Print_unfold. cbv zeta.
    pose proof (Get_Cursor_Position_run w) as Hg.
    destruct (status_read (device w)) as [r d]. cbv zeta in Hg. rewrite Hg.
    cbn [final].
    match goal with |- context [bind ?m ?k ?w0] =>
      destruct (Hrest w0) as (evs & Ht & _) end.
    cbn [trace] in Ht. rewrite <- app_assoc in Ht.
    rewrite (emitted_app _ _ _ Ht), tx_bytes_app.
    eexists. reflexivity.
  - apply backlit_Set_Cursor_Position.
  - unfold HD44780_Animate_Text. rewrite bind_get_handle. cbv zeta.
    destruct (text_present_from _ _ _); [|apply backlit_ret].
    destruct (shift_loop_run (Z.to_nat (n * Z.quot 80 HD44780_NUM_ROWS)) w)
      as (w' & -> & Ht & (_ & _ & Hp) & _).
    exists (scroll_events (Z.to_nat (n * Z.quot 80 HD44780_NUM_ROWS))).
    split; [exact Ht|]. split; [apply lit_scroll | exact Hp].
  - intros Hon Hoff.
    unfold HD44780_Transmit_Command. rewrite bind_get_handle.
    destruct (PowerState (handle w)); destruct cmd; try congruence;
      try apply backlit_ret; try apply backlit_Send_Command.
    + apply backlit_bind; [apply backlit_Send_Command|]. intros _ w1 _.
      apply backlit_bind; [apply backlit_same; reflexivity|]. intros _ w2 _.
      apply backlit_same; reflexivity.
    + apply backlit_bind; [apply backlit_Send_Command|]. intros _ w1 _.
      apply backlit_same; reflexivity.
Qed.
End Backlight.

(** ** Whole bytes on the wire, on any bus *)

Lemma tidy_writes_nil : tidy_writes [].
Proof. split; [exact I | constructor]. Qed.

Lemma tidy_writes_app t1 t2 :
  tidy_writes t1 -> tidy_writes t2 -> tidy_writes (t1 ++ t2).
Proof.
  intros [L1 F1] [L2 F2]. split; [|apply Forall_app; auto].
  rewrite last_app. destruct (last t2); [exact L2 | exact L1].
Qed.

Lemma whole_bytes_nil : whole_bytes [].
Proof.
  split; [|apply tidy_writes_nil].
  exists []. split; [reflexivity | constructor].
Qed.

Lemma whole_bytes_app t1 t2 :
  whole_bytes t1 -> whole_bytes t2 -> whole_bytes (t1 ++ t2).
Proof.
  intros [(p1 & S1 & B1) T1] [(p2 & S2 & B2) T2]. split.
  - exists (p1 ++ p2). rewrite strobes_app, S1, S2, flat_map_app.
    split; [reflexivity | apply Forall_app; auto].
  - rewrite tx_bytes_app. apply tidy_writes_app; assumption.
Qed.

Lemma wire_write_mode h bl en rs :
  0 <= h < 16 ->
  rw_of (wire h bl en false rs) = true ->
  rs_of (wire h bl en false rs) = false /\ nibble_of (wire h bl en false rs) = 15.
Proof. intros Hh. rewrite wire_rw by exact Hh. discriminate. Qed.

Lemma whole_bytes_command c : whole_bytes (command_events c).
Proof.
  pose proof (high_nibble_range c) as Rh. pose proof (low_nibble_range c) as Rl.
  split.
  - exists [Instruction (u8 c)]. split.
    + rewrite strobes_command. cbn [flat_map nibbles app].
      rewrite high_nibble_u8, low_nibble_u8. reflexivity.
    + constructor; [apply u8_range | constructor].
  - rewrite tx_bytes_command. split.
    + cbn [last]. apply wire_en. exact Rl.
    + repeat (constructor; [apply wire_write_mode; assumption|]). constructor.
Qed.

Lemma whole_bytes_data c : whole_bytes (data_events c).
Proof.
  pose proof (high_nibble_range c) as Rh. pose proof (low_nibble_range c) as Rl.
  split.
  - exists [Character (u8 c)]. split.
    + rewrite strobes_data. cbn [flat_map nibbles app].
      rewrite high_nibble_u8, low_nibble_u8. reflexivity.
    + constructor; [apply u8_range | constructor].
  - rewrite tx_bytes_data. split.
    + cbn [last]. apply wire_en. exact Rl.
    + constructor; [apply wire_write_mode; lia|].
      repeat (constructor; [apply wire_write_mode; assumption|]). constructor.
Qed.

Lemma whole_bytes_status r : whole_bytes (status_events r).
Proof.
  split.
  - exists []. split; [|constructor].
    change (status_events r) with (poll_events [r] ++ []).
    rewrite strobes_app, strobes_poll. reflexivity.
  - split; [reflexivity|].
    repeat (constructor; [intros _; split; reflexivity|]). constructor.
Qed.

Lemma whole_bytes_poll rs : whole_bytes (poll_events rs).
Proof.
  unfold poll_events.
  induction rs as [|r rs IH]; [apply whole_bytes_nil|].
  cbn [map concat]. apply whole_bytes_app; [apply whole_bytes_status | exact IH].
Qed.

Lemma whole_bytes_quiet evs : tx_bytes evs = [] -> whole_bytes evs.
Proof.
  intros Ht. split.
  - exists []. split; [|constructor]. unfold strobes. rewrite Ht. reflexivity.
  - rewrite Ht. apply tidy_writes_nil.
Qed.

Lemma whole_bytes_scroll n : whole_bytes (scroll_events n).
Proof.
  unfold scroll_events.
  induction n as [|n IH]; [apply whole_bytes_nil|].
  cbn [replicate concat]. apply whole_bytes_app; [|exact IH].
  apply whole_bytes_app; [apply whole_bytes_command|].
  apply whole_bytes_quiet. reflexivity.
Qed.

Lemma whole_bytes_wake : whole_bytes (I2C_Probe true :: wake_events).
Proof.
  split.
  - exists [Instruction 0x33; Instruction 0x32].
    split; [reflexivity|]. repeat constructor; cbn; lia.
  - split; [reflexivity|]. repeat (constructor; [discriminate|]). constructor.
Qed.

Section Wire.
Context {D : Type} `{!Bus D}.
Implicit Types (w : world D).

Lemma emits_bind (P : list event -> Prop) {A B} (m : M D A) (k : A -> M D B) w :
  (forall t1 t2, P t1 -> P t2 -> P (t1 ++ t2)) ->
  emits P w (m w) ->
  (forall a w1, m w = Ret a w1 -> emits P w1 (k a w1)) ->
  emits P w (bind m k w).
Proof.
  unfold bind. intros Happ Hm Hk.
  destruct (m w) as [a w1|w1]; [|exact Hm].
  destruct Hm as (e1 & T1 & P1). cbn [final] in T1.
  destruct (Hk a w1 eq_refl) as (e2 & T2 & P2).
  exists (e1 ++ e2).
  split; [rewrite T2, T1, <- app_assoc; reflexivity | apply Happ; assumption].
Qed.

Lemma emits_same (P : list event -> Prop) {A} (a : A) w w' :
  P [] -> trace w' = trace w -> emits P w (Ret a w').
Proof. intros HP Ht. exists []. rewrite app_nil_r. auto. Qed.

Lemma whole_confirmed w evs rs (d : D) :
  whole_bytes evs -> emits whole_bytes w (confirmed w evs rs d).
Proof.
  intros He.
  destruct (confirmed_final w evs rs d) as (s & tail & _ & Ht & Htail & _).
  exists (evs ++ poll_events rs ++ tail). split; [exact Ht|].
  apply whole_bytes_app; [exact He|].
  apply whole_bytes_app; [apply whole_bytes_poll|].
  apply whole_bytes_quiet. destruct Htail as [-> | ->]; reflexivity.
Qed.

Lemma whole_Send_Command c chk w :
  emits whole_bytes w (HD44780_Send_Command c chk w).
Proof.
  destruct chk.
  - destruct (Send_Command_checked c w) as (rs & d & _ & ->).
    apply whole_confirmed, whole_bytes_command.
  - rewrite Send_Command_unchecked. exists (command_events c).
    split; [reflexivity | apply whole_bytes_command].
Qed.

Lemma whole_Send_Data c chk w :
  emits whole_bytes w (HD44780_Send_Data c chk w).
Proof.
  destruct chk.
  - destruct (Send_Data_checked c w) as (rs & d & _ & ->).
    apply whole_confirmed, whole_bytes_data.
  - rewrite Send_Data_unchecked. exists (data_events c).
    split; [reflexivity | apply whole_bytes_data].
Qed.

Lemma whole_ret {A} (a : A) w : emits whole_bytes w (ret a w).
Proof. apply emits_same; [apply whole_bytes_nil | reflexivity]. Qed.

Lemma whole_modify_handle f w : emits whole_bytes w (modify_handle f w).
Proof. apply emits_same; [apply whole_bytes_nil | reflexivity]. Qed.

Lemma whole_Set_Cursor_Position row column w :
  emits whole_bytes w (HD44780_Set_Cursor_Position row column w).
Proof.
  unfold HD44780_Set_Cursor_Position.
  destruct ((row >=? HD44780_NUM_ROWS) || (column >=? HD44780_NUM_COLS)).
  - apply whole_ret.
  - destruct (row =? 0); apply whole_Send_Command.
Qed.

Lemma whole_Get_Cursor_Position w :
  emits whole_bytes w (HD44780_Get_Cursor_Position w).
Proof.
  pose proof (Get_Cursor_Position_run w) as Hg.
  destruct (status_read (device w)) as [r d]. cbv zeta in Hg. rewrite Hg.
  exists (status_events r). split; [reflexivity | apply whole_bytes_status].
Qed.

Lemma whole_Print_loop chars : forall start i w,
  emits whole_bytes w (Print_loop start i chars w).
Proof.
  induction chars as [|c rest IH]; intros start i w; cbn [Print_loop].
  - apply whole_ret.
  - destruct (start + i >? HD44780_NUM_ELEMENTS - 1).
    + apply emits_bind; [exact whole_bytes_app | apply whole_Set_Cursor_Position|].
      intros _ w1 _. apply whole_ret.
    + apply emits_bind; [exact whole_bytes_app | apply whole_Send_Data|].
      intros _ w1 _.
      apply emits_bind; [exact whole_bytes_app | apply whole_modify_handle|].
      intros _ w2 _. rewrite bind_get_AddressCounter.
      apply emits_bind; [exact whole_bytes_app | | intros _ w3 _; apply IH].
      destruct (AddressCounter w2 =? HD44780_NUM_COLS);
        [apply whole_Set_Cursor_Position | apply whole_ret].
Qed.

Lemma whole_Transmit_Command cmd w :
  emits whole_bytes w (HD44780_Transmit_Command cmd w).
Proof.
  unfold HD44780_Transmit_Command. rewrite bind_get_handle.
  destruct (PowerState (handle w)); destruct cmd;
    try apply whole_ret; try apply whole_Send_Command.
  - apply emits_bind; [exact whole_bytes_app | apply whole_Send_Command|].
    intros _ w1 _.
    apply emits_bind; [exact whole_bytes_app | apply whole_modify_handle|].
    intros _ w2 _. apply whole_modify_handle.
  - apply emits_bind; [exact whole_bytes_app | apply whole_Send_Command|].
    intros _ w1 _. apply whole_modify_handle.
  - rewrite bind_Transmit. exists [I2C_Tx 0]. split; [reflexivity|].
    split; [exists []; split; [reflexivity | constructor]|].
    split; [reflexivity|]. constructor; [discriminate | constructor].
  - rewrite bind_Transmit. exists [I2C_Tx HD44780_BACKLIGHT]. split; [reflexivity|].
    split; [exists []; split; [reflexivity | constructor]|].
    split; [reflexivity|]. constructor; [discriminate | constructor].
Qed.

Lemma whole_reset_commands w : emits whole_bytes w (reset_commands w).
Proof.
  unfold reset_commands. cbv zeta.
  do 5 (apply emits_bind; [exact whole_bytes_app | apply whole_Send_Command|];
        intros _ ? _).
  apply emits_bind; [exact whole_bytes_app | apply whole_Transmit_Command|].
  intros _ ? _.
  apply emits_bind; [exact whole_bytes_app | apply whole_modify_handle|].
  intros _ ? _. apply whole_ret.
Qed.

(** X12.  Lines 83-106, 133-159, 32-74 and 246-272, seen from every
    public function.  Whatever the bus answers and whether or not the
    call returns, what a public call has put on the bus leaves the
    controller with whole bytes: the nibbles latched are the two halves
    of a list of bytes, in order, so a timeout never strikes between the
    halves of a byte; the enable line is low after the last write; and
    every write in read mode has register select low and the four data
    pins high, so the driver reads the status and never the data
    register. *)
Theorem public_calls_send_whole_bytes
    (str : list Z) (row column n : Z) (cmd : HD44780_User_Command_List) w :
  emits whole_bytes w (HD44780_Init w) /\
  emits whole_bytes w (HD44780_Print str w) /\
  emits whole_bytes w (HD44780_Transmit_Command cmd w) /\
  emits whole_bytes w (HD44780_Set_Cursor_Position row column w) /\
  emits whole_bytes w (HD44780_Animate_Text n w).
Proof.
  split; [|split; [|split; [|split]]].
  - rewrite Init_run. destruct (fst (bus_probe (device w))).
    + match goal with |- emits _ _ (reset_commands ?w0) =>
        destruct (whole_reset_commands w0) as (evs & Ht & Hw) end.
      cbn [trace] in Ht.
      exists ((I2C_Probe true :: wake_events) ++ evs).
      split; [rewrite Ht, <- app_assoc; reflexivity|].
      apply whole_bytes_app; [apply whole_bytes_wake | exact Hw].
    + exists [I2C_Probe false]. split; [reflexivity|].
      apply whole_bytes_quiet. reflexivity.
  - unfold HD44780_Print.
    apply emits_bind; [exact whole_bytes_app | apply whole_Get_Cursor_Position|].
    intros _ w0 _. rewrite bind_get_handle. cbv zeta.
    apply emits_bind; [exact whole_bytes_app | apply whole_Print_loop|].
    intros early w1 _.
    destruct early; [apply whole_ret | apply whole_Get_Cursor_Position].
  - apply whole_Transmit_Command.
  - apply whole_Set_Cursor_Position.
  - unfold HD44780_Animate_Text. rewrite bind_get_handle. cbv zeta.
    destruct (text_present_from _ _ _); [|apply whole_ret].
    destruct (shift_loop_run (Z.to_nat (n * Z.quot 80 HD44780_NUM_ROWS)) w)
      as (w' & -> & Ht & _).
    exists (scroll_events (Z.to_nat (n * Z.quot 80 HD44780_NUM_ROWS))).
    split; [exact Ht | apply whole_bytes_scroll].
Qed.
End Wire.

(** ** Whole calls against the controller model *)

(** The wake-up writes of HD44780_Init as a controller in 4-bit mode
    takes them: two bytes, 0x33 and 0x32, which move nothing. *)
Lemma lcd_drive_wake p rl ac dd br lat :
  en_of p = false ->
  drive wake_events (Lcd p None rl ac dd br lat) = Lcd 0x20 None rl ac dd lat lat.
Proof.
  intros He. unfold wake_events.
  cbn [drive foldl bus_write bus_elapse lcd_bus].
  rewrite (lcd_write_low _ p) by exact He.
  rewrite lcd_write_first by reflexivity.
  rewrite lcd_write_low by reflexivity.
  rewrite lcd_write_second by reflexivity.
  rewrite lcd_write_low by reflexivity.
  rewrite lcd_write_first by reflexivity.
  rewrite lcd_write_low by reflexivity.
  rewrite lcd_write_second by reflexivity.
  reflexivity.
Qed.

(** A checked command to a controller that may still be busy. *)
Lemma lcd_Send_Command_busy c (w : world lcd) p ac dd br lat :
  device w = Lcd p None false ac dd br lat ->
  en_of p = false -> 0 <= ac < 128 -> (lat < 20)%nat ->
  exists w',
    HD44780_Send_Command c true w = Ret tt w' /\
    handle w' = set_State HD44780_READY (handle w) /\
    AddressCounter w' = lcd_next_AC false (u8 c) ac /\
    device w' = lcd_settled (lcd_next_AC false (u8 c) ac)
                            (lcd_next_DDRAM false (u8 c) ac dd) lat.
Proof.
  intros Hd He Ha Hl.
  rewrite Send_Command_run, Hd.
  rewrite lcd_drive_command by exact He.
  destruct (lcd_confirmed w (command_events c) (lcd_next_AC false (u8 c) ac)
              (lcd_next_DDRAM false (u8 c) ac dd) lat
              (wire (low_nibble c) true false false false)) as (rs & Hrun);
    [nibble_side | apply lcd_next_AC_range; exact Ha | exact Hl |].
  rewrite Hrun. eexists. split; [reflexivity|]. auto.
Qed.

(** Lines 275-293 against the controller. *)
Lemma lcd_reset_commands (w : world lcd) p ac dd br lat :
  device w = Lcd p None false ac dd br lat ->
  en_of p = false -> 0 <= ac < 128 -> (lat < 20)%nat ->
  exists w',
    reset_commands w = Ret true w' /\
    lcd_view (device w') 0 (replicate (length dd) 0x20) lat /\
    AddressCounter w' = 0.
Proof.
  intros Hd He Ha Hl. unfold reset_commands. cbv zeta.
  change (if HD44780_NUM_ROWS =? 2
          then Z.lor HD44780_FUNCTION_SET (Z.shiftl 1 3)
          else HD44780_FUNCTION_SET) with 0x28.
  destruct (lcd_Send_Command_busy 0x28 w p ac dd br lat Hd He Ha Hl)
    as (w1 & R1 & H1 & A1 & D1).
  rewrite (bind_Ret _ _ _ _ _ R1).
  change (lcd_next_AC false (u8 40) ac) with ac in A1, D1.
  change (lcd_next_DDRAM false (u8 40) ac dd) with dd in D1.
  assert (lcd_view (device w1) ac dd lat) as V1
      by (rewrite D1; apply lcd_view_settled; assumption).
  destruct (lcd_Send_Command 0x08 w1 ac dd lat V1) as (w2 & R2 & H2 & A2 & D2).
  rewrite (bind_Ret _ _ _ _ _ R2).
  change (lcd_next_AC false (u8 8) ac) with ac in A2, D2.
  change (lcd_next_DDRAM false (u8 8) ac dd) with dd in D2.
  assert (lcd_view (device w2) ac dd lat) as V2
      by (rewrite D2; apply lcd_view_settled; assumption).
  destruct (lcd_Send_Command 0x01 w2 ac dd lat V2) as (w3 & R3 & H3 & A3 & D3).
  rewrite (bind_Ret _ _ _ _ _ R3).
  change (lcd_next_AC false (u8 1) ac) with 0 in A3, D3.
  change (lcd_next_DDRAM false (u8 1) ac dd) with (replicate (length dd) 0x20) in D3.
  set (blank := replicate (length dd) 0x20) in *.
  assert (lcd_view (device w3) 0 blank lat) as V3
      by (rewrite D3; apply lcd_view_settled; [lia | assumption]).
  destruct (lcd_Send_Command 0x06 w3 0 blank lat V3) as (w4 & R4 & H4 & A4 & D4).
  rewrite (bind_Ret _ _ _ _ _ R4).
  change (lcd_next_AC false (u8 6) 0) with 0 in A4, D4.
  change (lcd_next_DDRAM false (u8 6) 0 blank) with blank in D4.
  assert (lcd_view (device w4) 0 blank lat) as V4
      by (rewrite D4; apply lcd_view_settled; [lia | assumption]).
  destruct (lcd_Send_Command 0x0C w4 0 blank lat V4) as (w5 & R5 & H5 & A5 & D5).
  rewrite (bind_Ret _ _ _ _ _ R5).
  change (lcd_next_AC false (u8 12) 0) with 0 in A5, D5.
  change (lcd_next_DDRAM false (u8 12) 0 blank) with blank in D5.
  assert (lcd_view (device w5) 0 blank lat) as V5
      by (rewrite D5; apply lcd_view_settled; [lia | assumption]).
  assert (exists w6,
             HD44780_Transmit_Command CURSOR_ON w5 = Ret tt w6 /\
             lcd_view (device w6) 0 blank lat /\ AddressCounter w6 = 0)
    as (w6 & R6 & V6 & A6).
  { unfold HD44780_Transmit_Command. rewrite bind_get_handle.
    destruct (PowerState (handle w5)).
    - destruct (lcd_Send_Command 0x0E w5 0 blank lat V5) as (w6 & R6 & H6 & A6 & D6).
      change (lcd_next_AC false (u8 14) 0) with 0 in A6, D6.
      change (lcd_next_DDRAM false (u8 14) 0 blank) with blank in D6.
      exists w6. split; [exact R6|]. rewrite D6.
      split; [apply lcd_view_settled; [lia | assumption] | exact A6].
    - exists w5. split; [reflexivity|]. split; [exact V5 | exact A5]. }
  rewrite (bind_Ret _ _ _ _ _ R6), bind_modify_handle.
  eexists. split; [reflexivity|].
  cbn [device AddressCounter]. split; [exact V6 | exact A6].
Qed.

(** HD44780_Init against the controller. *)
Lemma init_on_controller_run (w : world lcd) ac dd lat :
  lcd_view (device w) ac dd lat ->
  exists w',
    HD44780_Init w = Ret true w' /\
    lcd_view (device w') 0 (replicate (length dd) 0x20) lat /\
    handle w' = set_PowerState LCD1602_ON
                  (set_State HD44780_READY (set_Cursor_Position (0, 0) (handle w))).
Proof.
  intros ((He & Hp & Hr & Hb & Ha & Hl) & Hac & Hdd & Hlat).
  rewrite Init_run. cbn [bus_probe lcd_bus fst snd].
  destruct (device w) as [p pe rl ac' dd' br lat'] eqn:Hd.
  cbn [pins pending read_low busy_reads AC DDRAM latency] in *.
  subst pe rl br ac' dd' lat'.
  rewrite lcd_drive_wake by exact He.
  match goal with |- context [reset_commands ?w0] =>
    destruct (lcd_reset_commands w0 0x20 ac dd lat lat eq_refl eq_refl Ha Hl)
      as (w' & Hrun & Hv & _);
    pose proof (reset_commands_Ret w0 true w' Hrun) as (_ & Hh & _)
  end.
  exists w'. auto.
Qed.

(** X13.  Lines 237-299 against the controller model, which answers the probe
    and is in 4-bit mode already (a restart of the microcontroller with
    the display powered).  HD44780_Init returns true; the display is
    blank and the address counter is 0, which is what the cached cursor
    (0, 0) says; the controller is at rest.  The mirror has not been
    written, so it still holds what it held. *)
Theorem init_on_controller (w : world lcd) ac dd lat :
  lcd_view (device w) ac dd lat ->
  exists w',
    HD44780_Init w = Ret true w' /\
    lcd_view (device w') 0 (replicate (length dd) 0x20) lat /\
    AddressCounter w' = 0 /\
    Cursor_Position (handle w') = cursor_of_address (AC (device w')) /\
    Cursor_Position (handle w') = (0, 0) /\
    PowerState (handle w') = LCD1602_ON /\
    Text (handle w') = Text (handle w).
Proof.
  intros ((He & Hp & Hr & Hb & Ha & Hl) & Hac & Hdd & Hlat).
  rewrite Init_run. cbn [bus_probe lcd_bus fst snd].
  destruct (device w) as [p pe rl ac' dd' br lat'] eqn:Hd.
  cbn [pins pending read_low busy_reads AC DDRAM latency] in *.
  subst pe rl br ac' dd' lat'.
  rewrite lcd_drive_wake by exact He.
  match goal with |- context [reset_commands ?w0] =>
    destruct (lcd_reset_commands w0 0x20 ac dd lat lat eq_refl eq_refl Ha Hl)
      as (w' & Hrun & Hv & Hcount);
    pose proof (reset_commands_Ret w0 true w' Hrun) as (_ & Hh & _)
  end.
  cbn [handle] in Hh.
  exists w'. split; [exact Hrun|]. split; [exact Hv|]. split; [exact Hcount|].
  destruct Hv as (_ & HAC & _). rewrite HAC, Hh.
  repeat split; reflexivity.
Qed.

Lemma cursor_of_cell idx :
  0 <= idx <= 32 ->
  cursor_of_address (cell_address idx) = (if idx <? 16 then (0, idx) else (1, idx - 16)).
Proof.
  intros Hi. unfold cursor_of_address, cell_address, u8.
  destruct (idx <? 16) eqn:E.
  - apply Z.ltb_lt in E.
    assert ((idx <? 40) = true) as -> by (apply Z.ltb_lt; lia). reflexivity.
  - apply Z.ltb_ge in E.
    assert ((64 + (idx - 16) <? 40) = false) as -> by (apply Z.ltb_ge; lia).
    replace (64 + (idx - 16) - 64) with (idx - 16) by lia.
    rewrite Z.mod_small by lia. reflexivity.
Qed.

Lemma index_of_cell idx :
  0 <= idx <= 32 ->
  u8 (fst (cursor_of_address (cell_address idx)) * HD44780_NUM_COLS
      + snd (cursor_of_address (cell_address idx))) = idx.
Proof.
  intros Hi. rewrite cursor_of_cell by exact Hi. unfold HD44780_NUM_COLS, u8.
  destruct (idx <? 16) eqn:E; cbn [fst snd];
    [apply Z.ltb_lt in E | apply Z.ltb_ge in E]; rewrite Z.mod_small by lia; lia.
Qed.

Lemma cell_of_position row column :
  0 <= row < HD44780_NUM_ROWS -> 0 <= column < HD44780_NUM_COLS ->
  cell_address (row * 16 + column) = ddram_address row column.
Proof.
  unfold HD44780_NUM_ROWS, HD44780_NUM_COLS, cell_address, ddram_address.
  intros Hr Hc. assert (row = 0 \/ row = 1) as [-> | ->] by lia.
  - assert ((0 * 16 + column <? 16) = true) as -> by (apply Z.ltb_lt; lia). lia.
  - assert ((1 * 16 + column <? 16) = false) as -> by (apply Z.ltb_ge; lia). lia.
Qed.

Lemma cell_address_inj i j :
  0 <= i < 32 -> 0 <= j < 32 -> cell_address i = cell_address j -> i = j.
Proof.
  unfold cell_address. intros Hi Hj.
  destruct (i <? 16) eqn:Ei; destruct (j <? 16) eqn:Ej;
    try apply Z.ltb_lt in Ei; try apply Z.ltb_lt in Ej;
    try apply Z.ltb_ge in Ei; try apply Z.ltb_ge in Ej; lia.
Qed.

(** HD44780_Print against the controller, from the cell of any mirror
    index, the one past the last cell included. *)
Lemma lcd_Print_run (str : list Z) (w : world lcd) idx dd lat :
  let chars := take (strlen str) str in
  let n := Z.of_nat (length chars) in
  let fit := take (Z.to_nat (32 - idx)) chars in
  let over := 32 <? idx + n in
  0 <= idx <= 32 ->
  lcd_view (device w) (cell_address idx) dd lat ->
  exists w',
    HD44780_Print str w = Ret tt w' /\
    sent_by w w' (print_payloads idx fit
                    ++ (if over then [Instruction 0x80] else [])) /\
    lcd_view (device w') (if over then 0 else cell_address (idx + n))
             (write_cells idx (map u8 fit) dd) lat /\
    Text (handle w') = list_inserts (Z.to_nat idx) fit (Text (handle w)) /\
    Cursor_Position (handle w')
    = cursor_of_address (cell_address (if over then idx else idx + n)).
Proof.
  cbv zeta. set (chars := take (strlen str) str). intros Hi Hv.
  pose proof Hv as ((_ & _ & _ & _ & Hrange & Hl) & Hac & _ & Hlat).
  rewrite Hlat in Hl. rewrite Hac in Hrange.
  rewrite Print_unfold. cbv zeta. fold chars.
  destruct (lcd_Get_Cursor_Position w _ dd lat Hv) as (r0 & Hg0).
  rewrite Hg0. cbn [final handle Cursor_Position set_Cursor_Position].
  rewrite index_of_cell by exact Hi.
  set (w0 := World _ _ (lcd_settled _ dd lat) _).
  assert (sent_by w w0 []) as S0.
  { exists (status_events r0). split; [reflexivity|].
    change (status_events r0) with (poll_events [r0] ++ []).
    rewrite strobes_app, strobes_poll. reflexivity. }
  assert (lcd_view (device w0) (cell_address idx) dd lat) as Hv0
      by (apply lcd_view_settled; assumption).
  assert (exists w1,
             Print_loop idx 0 chars w0
             = Ret (32 <? idx + Z.of_nat (length chars)) w1 /\
             sent_by w0 w1 (print_payloads idx (take (Z.to_nat (32 - idx)) chars)
                              ++ (if 32 <? idx + Z.of_nat (length chars)
                                  then [Instruction 0x80] else [])) /\
             lcd_view (device w1)
                      (if 32 <? idx + Z.of_nat (length chars) then 0
                       else cell_address (idx + Z.of_nat (length chars)))
                      (write_cells idx (map u8 (take (Z.to_nat (32 - idx)) chars)) dd)
                      lat /\
             Text (handle w1)
             = list_inserts (Z.to_nat idx) (take (Z.to_nat (32 - idx)) chars)
                            (Text (handle w0)) /\
             Cursor_Position (handle w1) = Cursor_Position (handle w0))
    as (w1 & Hloop & S1 & Hv1 & HT & HC).
  { destruct (Z.eq_dec idx 32) as [-> | Hne].
    - change (Z.to_nat (32 - 32)) with O. rewrite take_0.
      cbn [map write_cells print_payloads list_inserts app].
      destruct chars as [|c rest].
      + exists w0. cbn [length Print_loop]. change (32 <? 32 + Z.of_nat 0) with false.
        cbv iota. split; [reflexivity|]. split; [apply sent_by_refl|].
        split; [exact Hv0|]. split; reflexivity.
      + assert ((32 <? 32 + Z.of_nat (length (c :: rest))) = true) as ->
            by (apply Z.ltb_lt; cbn [length]; lia).
        cbn [Print_loop]. change (32 + 0 >? HD44780_NUM_ELEMENTS - 1) with true.
        cbv iota.
        destruct (lcd_Set_Cursor_Position 0 0 w0 _ _ lat
                    ltac:(unfold HD44780_NUM_ROWS; lia)
                    ltac:(unfold HD44780_NUM_COLS; lia) Hv0)
          as (w1 & Hset & _ & _ & Hd1).
        pose proof (Set_Cursor_Position_Ret 0 0 w0 w1
                      ltac:(unfold HD44780_NUM_ROWS; lia)
                      ltac:(unfold HD44780_NUM_COLS; lia) Hset)
          as [(HC1 & HT1 & _) S1].
        rewrite (bind_Ret _ _ _ _ _ Hset). exists w1.
        split; [reflexivity|]. split; [exact S1|].
        split; [rewrite Hd1; apply lcd_view_settled;
                [unfold ddram_address; lia | exact Hl]|].
        split; [exact HT1 | exact HC1].
    - pose proof (lcd_Print_loop_run chars idx w0 dd lat) as Hrun.
      cbv zeta in Hrun. change HD44780_NUM_ELEMENTS with 32 in Hrun.
      destruct Hrun as (w1 & Hloop & S1 & Hv1 & HT & HC); [lia | exact Hv0 |].
      exists w1. auto. }
  rewrite (bind_Ret _ _ _ _ _ Hloop).
  destruct (32 <? idx + Z.of_nat (length chars)) eqn:Hover.
  - exists w1. split; [reflexivity|].
    split; [exact (sent_by_trans _ _ _ _ _ S0 S1)|].
    split; [exact Hv1|]. split; [exact HT | exact HC].
  - destruct (lcd_Get_Cursor_Position w1 _ _ _ Hv1) as (r1 & Hg1).
    eexists. split; [exact Hg1|].
    cbn [handle device Cursor_Position set_Cursor_Position Text set_State AddressCounter].
    split.
    { assert (sent_by w1 (World (set_Cursor_Position
                 (cursor_of_address (cell_address (idx + Z.of_nat (length chars))))
                 (set_State HD44780_READY (handle w1)))
                 (cell_address (idx + Z.of_nat (length chars)))
                 (lcd_settled (cell_address (idx + Z.of_nat (length chars)))
                    (write_cells idx (map u8 (take (Z.to_nat (32 - idx)) chars)) dd) lat)
                 (trace w1 ++ status_events r1)) []) as S2.
      { exists (status_events r1). split; [reflexivity|].
        change (status_events r1) with (poll_events [r1] ++ []).
        rewrite strobes_app, strobes_poll. reflexivity. }
      pose proof (sent_by_trans _ _ _ _ _ S0 (sent_by_trans _ _ _ _ _ S1 S2)) as Hs.
      rewrite !app_nil_r in Hs. rewrite app_nil_r. exact Hs. }
    apply Z.ltb_ge in Hover.
    split; [apply lcd_view_settled; [apply cell_address_range; lia | exact Hl]|].
    split; [exact HT | reflexivity].
Qed.

(** The mirror cell of index [idx] after the characters that fit went in
    from index [start] on. *)
Lemma lookup_inserts_fit (chars t : list Z) start idx :
  0 <= start -> 0 <= idx < 32 -> length t = 32%nat ->
  list_inserts (Z.to_nat start) (take (Z.to_nat (32 - start)) chars) t !! Z.to_nat idx
  = if (start <=? idx) && (idx <? start + Z.of_nat (length chars))
    then chars !! Z.to_nat (idx - start)
    else t !! Z.to_nat idx.
Proof.
  intros Hs Hi Ht.
  destruct (start <=? idx) eqn:E1; cbn [andb].
  - apply Z.leb_le in E1.
    destruct (idx <? start + Z.of_nat (length chars)) eqn:E2.
    + apply Z.ltb_lt in E2.
      rewrite list_lookup_inserts by (rewrite ?length_take; lia).
      rewrite lookup_take_lt by lia.
      replace (Z.to_nat idx - Z.to_nat start)%nat with (Z.to_nat (idx - start)) by lia.
      reflexivity.
    + apply Z.ltb_ge in E2.
      rewrite list_lookup_inserts_ge by (rewrite ?length_take; lia). reflexivity.
  - apply Z.leb_gt in E1.
    rewrite list_lookup_inserts_lt by lia. reflexivity.
Qed.

Lemma length_write_cells cs : forall idx dd,
  length (write_cells idx cs dd) = length dd.
Proof.
  induction cs as [|c rest IH]; intros idx dd; [reflexivity|].
  cbn [write_cells]. rewrite IH. apply length_insert.
Qed.

(** The DDRAM cell behind mirror index [idx] after the bytes [cs] went to
    the cells of indices [start], [start+1], ... *)
Lemma write_cells_lookup cs : forall start dd idx,
  0 <= start -> start + Z.of_nat (length cs) <= 32 -> 0 <= idx < 32 ->
  (80 <= length dd)%nat ->
  write_cells start cs dd !! Z.to_nat (cell_address idx)
  = if (start <=? idx) && (idx <? start + Z.of_nat (length cs))
    then cs !! Z.to_nat (idx - start)
    else dd !! Z.to_nat (cell_address idx).
Proof.
  induction cs as [|c rest IH]; intros start dd idx Hs Hfit Hi Hdd.
  - cbn [write_cells length]. rewrite Z.add_0_r.
    destruct (start <=? idx) eqn:E1; destruct (idx <? start) eqn:E2; cbn [andb];
      try reflexivity.
    apply Z.leb_le in E1. apply Z.ltb_lt in E2. lia.
  - cbn [write_cells length] in *.
    rewrite IH by (rewrite ?length_insert; lia).
    pose proof (cell_address_range start ltac:(lia)) as Rs.
    pose proof (cell_address_range idx ltac:(lia)) as Ri.
    assert (cell_address start < 80)
      by (unfold cell_address; destruct (start <? 16) eqn:E;
          [apply Z.ltb_lt in E|]; lia).
    destruct (Z.eq_dec idx start) as [-> | Hne].
    + assert ((start + 1 <=? start) = false) as -> by (apply Z.leb_gt; lia).
      assert ((start <=? start) = true) as -> by (apply Z.leb_le; lia).
      assert ((start <? start + Z.of_nat (S (length rest))) = true) as ->
          by (apply Z.ltb_lt; lia).
      cbn [andb]. rewrite Z.sub_diag. cbn [Z.to_nat lookup list_lookup].
      rewrite list_lookup_insert_eq by lia. reflexivity.
    + rewrite list_lookup_insert_ne
        by (intros E; apply Hne; symmetry; apply cell_address_inj; lia).
      destruct (start + 1 <=? idx) eqn:E1.
      * apply Z.leb_le in E1.
        assert ((start <=? idx) = true) as -> by (apply Z.leb_le; lia).
        replace (start + 1 + Z.of_nat (length rest))
          with (start + Z.of_nat (S (length rest))) by lia.
        destruct (idx <? start + Z.of_nat (S (length rest))); cbn [andb];
          [|reflexivity].
        replace (Z.to_nat (idx - start)) with (S (Z.to_nat (idx - (start + 1)))) by lia.
        reflexivity.
      * apply Z.leb_gt in E1.
        assert ((start <=? idx) = false) as -> by (apply Z.leb_gt; lia).
        reflexivity.
Qed.

(** X14.  Lines 394-395 and 447-448 against the controller.  After
    HD44780_Set_Cursor_Position to a cell of the glass, HD44780_Print of
    any string returns, and then the mirror and the display agree: for a
    cell reached before the string ends, HD44780_Read_Character returns
    the character of the string for that cell, and the DDRAM cell at the
    same row and column holds that character as a byte; for any other
    cell, the mirror and DDRAM hold what they held before. *)
Theorem mirror_agrees_with_display
    (str : list Z) (w : world lcd) ac dd lat (row0 column0 row column : Z) :
  let chars := take (strlen str) str in
  let start := row0 * 16 + column0 in
  let idx := row * 16 + column in
  lcd_view (device w) ac dd lat ->
  handle_wf (handle w) -> (80 <= length dd)%nat ->
  0 <= row0 < HD44780_NUM_ROWS -> 0 <= column0 < HD44780_NUM_COLS ->
  0 <= row < HD44780_NUM_ROWS -> 0 <= column < HD44780_NUM_COLS ->
  exists w1 w',
    HD44780_Set_Cursor_Position row0 column0 w = Ret tt w1 /\
    HD44780_Print str w1 = Ret tt w' /\
    if (start <=? idx) && (idx <? start + Z.of_nat (length chars)) then
      exists c,
        chars !! Z.to_nat (idx - start) = Some c /\
        HD44780_Read_Character row column w' = Ret c w' /\
        DDRAM (device w') !! Z.to_nat (ddram_address row column) = Some (u8 c)
    else
      HD44780_Read_Character row column w'
      = Ret (default 0 (Text (handle w) !! Z.to_nat idx)) w' /\
      DDRAM (device w') !! Z.to_nat (ddram_address row column)
      = dd !! Z.to_nat (ddram_address row column).
Proof.
  cbv zeta. intros Hv Hwf Hdd Hr0 Hc0 Hr Hc.
  destruct (lcd_Set_Cursor_Position row0 column0 w ac dd lat Hr0 Hc0 Hv)
    as (w1 & Hset & Hh1 & _ & Hd1).
  pose proof Hv as ((_ & _ & _ & _ & _ & Hl) & _ & _ & Hlat). rewrite Hlat in Hl.
  set (start := row0 * 16 + column0).
  set (idx := row * 16 + column).
  assert (0 <= start < 32) as Hstart
      by (unfold start, HD44780_NUM_ROWS, HD44780_NUM_COLS in *; lia).
  assert (0 <= idx < 32) as Hidx
      by (unfold idx, HD44780_NUM_ROWS, HD44780_NUM_COLS in *; lia).
  assert (lcd_view (device w1) (cell_address start) dd lat) as Hv1.
  { rewrite Hd1. unfold start. rewrite cell_of_position by assumption.
    apply lcd_view_settled; [|exact Hl].
    unfold ddram_address, HD44780_NUM_ROWS, HD44780_NUM_COLS in *. lia. }
  pose proof (lcd_Print_run str w1 start dd lat) as Hrun. cbv zeta in Hrun.
  destruct Hrun as (w' & Hrun & _ & (_ & _ & Hdd' & _) & HT & _); [lia | exact Hv1 |].
  set (chars := take (strlen str) str) in *.
  exists w1, w'. split; [exact Hset|]. split; [exact Hrun|].
  rewrite Read_Character_in_range by assumption. fold idx.
  rewrite HT, Hdd', Hh1. cbn [Text set_State].
  rewrite lookup_inserts_fit by (try exact Hwf; lia).
  rewrite <- (cell_of_position row column Hr Hc). fold idx.
  assert (length (take (Z.to_nat (32 - start)) chars)
          = Nat.min (Z.to_nat (32 - start)) (length chars)) as Hlen
      by (rewrite length_take; lia).
  rewrite write_cells_lookup by (rewrite ?length_map; lia).
  rewrite length_map, Hlen.
  destruct (start <=? idx) eqn:E1; cbn [andb]; [|split; reflexivity].
  apply Z.leb_le in E1.
  destruct (idx <? start + Z.of_nat (length chars)) eqn:E2.
  - apply Z.ltb_lt in E2.
    assert ((idx <? start + Z.of_nat (Nat.min (Z.to_nat (32 - start)) (length chars)))
            = true) as -> by (apply Z.ltb_lt; lia).
    destruct (chars !! Z.to_nat (idx - start)) as [c|] eqn:Hc';
      [|apply lookup_ge_None in Hc'; lia].
    exists c. split; [reflexivity|]. split; [reflexivity|].
    rewrite list_lookup_fmap, lookup_take_lt by lia. rewrite Hc'. reflexivity.
  - apply Z.ltb_ge in E2.
    assert ((idx <? start + Z.of_nat (Nat.min (Z.to_nat (32 - start)) (length chars)))
            = false) as -> by (apply Z.ltb_ge; lia).
    split; reflexivity.
Qed.

Lemma strlen_no_zero s1 s2 :
  Forall (fun c => c <> 0) s1 -> strlen (s1 ++ s2) = (length s1 + strlen s2)%nat.
Proof.
  induction 1 as [|c s1 Hc _ IH]; [reflexivity|].
  cbn [app strlen length]. apply Z.eqb_neq in Hc. rewrite Hc, IH. reflexivity.
Qed.

Lemma chars_no_zero s1 s2 :
  Forall (fun c => c <> 0) s1 ->
  take (strlen (s1 ++ s2)) (s1 ++ s2) = s1 ++ take (strlen s2) s2.
Proof.
  intros Hs. rewrite strlen_no_zero by exact Hs.
  rewrite take_app_ge by lia.
  replace (length s1 + strlen s2 - length s1)%nat with (strlen s2) by lia.
  reflexivity.
Qed.

Lemma chars_whole s1 : Forall (fun c => c <> 0) s1 -> take (strlen s1) s1 = s1.
Proof.
  intros Hs. pose proof (strlen_no_zero s1 [] Hs) as Hl.
  rewrite app_nil_r in Hl. cbn [strlen] in Hl. rewrite Nat.add_0_r in Hl.
  rewrite Hl. apply firstn_all.
Qed.

Lemma list_inserts_app (k1 k2 l : list Z) : forall i,
  list_inserts i (k1 ++ k2) l
  = list_inserts (i + length k1) k2 (list_inserts i k1 l).
Proof.
  induction k1 as [|y k1 IH]; intros i.
  - cbn [app length list_inserts]. rewrite Nat.add_0_r. reflexivity.
  - cbn [app length list_inserts]. rewrite IH.
    rewrite list_insert_inserts_lt by lia.
    replace (S i + length k1)%nat with (i + S (length k1))%nat by lia.
    reflexivity.
Qed.

Lemma byte_payload_print chars : forall idx,
  Forall byte_payload (print_payloads idx chars).
Proof.
  induction chars as [|c rest IH]; intros idx; [constructor|].
  cbn [print_payloads]. constructor; [apply u8_range|].
  apply Forall_app. split; [|apply IH].
  destruct (idx =? 15); [constructor; [cbn; lia | constructor] | constructor].
Qed.

Lemma byte_payload_tail (b : bool) :
  Forall byte_payload (if b then [Instruction 0x80] else []).
Proof. destruct b; [constructor; [cbn; lia | constructor] | constructor]. Qed.

(** X15.  Lines 383-401 twice against once, on the controller.  When the first
    string has no zero byte and ends on the glass, printing it and then
    a second string leaves the same DDRAM, the same controller cursor
    and the same mirror, and sends the same bytes, as printing the two
    strings as one; the cached cursor is the same too when the second
    string also ends on the glass. *)
Theorem print_appends (s1 s2 : list Z) (w : world lcd) idx dd lat :
  let n1 := Z.of_nat (length s1) in
  let n2 := Z.of_nat (strlen s2) in
  Forall (fun c => c <> 0) s1 ->
  0 <= idx -> idx + n1 <= 32 ->
  lcd_view (device w) (cell_address idx) dd lat ->
  exists w1 w2 w12,
    HD44780_Print s1 w = Ret tt w1 /\
    HD44780_Print s2 w1 = Ret tt w2 /\
    HD44780_Print (s1 ++ s2) w = Ret tt w12 /\
    DDRAM (device w2) = DDRAM (device w12) /\
    AC (device w2) = AC (device w12) /\
    Text (handle w2) = Text (handle w12) /\
    payloads (emitted w w2) = payloads (emitted w w12) /\
    (idx + n1 + n2 <= 32 ->
     Cursor_Position (handle w2) = Cursor_Position (handle w12)).
Proof.
  cbv zeta. intros Hs Hi Hfit Hv.
  pose proof (chars_whole s1 Hs) as Hc1.
  pose proof (chars_no_zero s1 s2 Hs) as Hc12.
  set (chars2 := take (strlen s2) s2) in *.
  assert (length chars2 = strlen s2) as Hlen2.
  { unfold chars2. rewrite length_take.
    assert (strlen s2 <= length s2)%nat; [|lia].
    clear. induction s2 as [|c s2 IH]; cbn [strlen length]; [lia|].
    destruct (c =? 0); lia. }
  (* the first string *)
  pose proof (lcd_Print_run s1 w idx dd lat) as R1. cbv zeta in R1.
  rewrite Hc1 in R1.
  destruct R1 as (w1 & Hrun1 & S1 & Hv1 & HT1 & _); [lia | exact Hv |].
  assert ((32 <? idx + Z.of_nat (length s1)) = false) as Hover1
      by (apply Z.ltb_ge; lia).
  rewrite Hover1 in S1, Hv1. rewrite app_nil_r in S1.
  rewrite take_ge in S1, Hv1, HT1 by lia.
  (* the second string *)
  pose proof (lcd_Print_run s2 w1 (idx + Z.of_nat (length s1))
                (write_cells idx (map u8 s1) dd) lat) as R2.
  cbv zeta in R2. fold chars2 in R2.
  destruct R2 as (w2 & Hrun2 & S2 & Hv2 & HT2 & HC2); [lia | exact Hv1 |].
  (* the two as one *)
  pose proof (lcd_Print_run (s1 ++ s2) w idx dd lat) as R12. cbv zeta in R12.
  rewrite Hc12 in R12.
  destruct R12 as (w12 & Hrun12 & S12 & Hv12 & HT12 & HC12); [lia | exact Hv |].
  rewrite length_app in S12, Hv12, HC12.
  replace (idx + Z.of_nat (length s1 + length chars2))
    with (idx + Z.of_nat (length s1) + Z.of_nat (length chars2)) in S12, Hv12, HC12
    by lia.
  rewrite take_app_ge in S12, Hv12, HT12 by lia.
  replace (Z.to_nat (32 - idx) - length s1)%nat
    with (Z.to_nat (32 - (idx + Z.of_nat (length s1)))) in S12, Hv12, HT12 by lia.
  rewrite print_payloads_app, <- app_assoc in S12.
  rewrite map_app, write_cells_app, length_map in Hv12.
  rewrite list_inserts_app in HT12.
  replace (Z.to_nat idx + length s1)%nat
    with (Z.to_nat (idx + Z.of_nat (length s1))) in HT12 by lia.
  exists w1, w2, w12.
  split; [exact Hrun1|]. split; [exact Hrun2|]. split; [exact Hrun12|].
  destruct Hv2 as (_ & Hac2 & Hdd2 & _). destruct Hv12 as (_ & Hac12 & Hdd12 & _).
  split; [congruence|]. split; [congruence|].
  split; [rewrite HT2, HT12, HT1; reflexivity|].
  split.
  - rewrite (sent_by_payloads _ _ _ (sent_by_trans _ _ _ _ _ S1 S2)),
      (sent_by_payloads _ _ _ S12); [reflexivity| |];
      repeat (apply Forall_app; split);
      first [apply byte_payload_print | apply byte_payload_tail].
  - rewrite <- Hlen2. intros Hroom.
    assert ((32 <? idx + Z.of_nat (length s1) + Z.of_nat (length chars2)) = false)
      as Hover by (apply Z.ltb_ge; lia).
    rewrite Hover in HC2, HC12. congruence.
Qed.

(** X16.  Lines 386-391 and 401 at the end of the display, on the controller.
    After a string that ends exactly in the last cell, the controller's
    address counter is past row 1 and the cached cursor is (1, 16), so
    HD44780_Get_Column_Index returns HD44780_NUM_COLS, which is no
    column of the glass.  The next HD44780_Print of a string that is not
    empty prints nothing: it sends the DDRAM address command for (0, 0)
    and returns, with DDRAM and the mirror as they were and the cached
    cursor still (1, 16), though the controller's cursor is now at
    (0, 0). *)
Theorem print_on_full_display (s1 s2 : list Z) (w : world lcd) idx dd lat :
  Forall (fun c => c <> 0) s1 ->
  0 <= idx -> idx + Z.of_nat (length s1) = 32 ->
  strlen s2 <> O ->
  lcd_view (device w) (cell_address idx) dd lat ->
  exists w1 w2,
    HD44780_Print s1 w = Ret tt w1 /\
    AC (device w1) = 0x50 /\
    Cursor_Position (handle w1) = (1, 16) /\
    HD44780_Get_Column_Index w1 = Ret HD44780_NUM_COLS w1 /\
    HD44780_Print s2 w1 = Ret tt w2 /\
    payloads (emitted w1 w2) = [Instruction 0x80] /\
    DDRAM (device w2) = DDRAM (device w1) /\
    Text (handle w2) = Text (handle w1) /\
    AC (device w2) = 0 /\
    Cursor_Position (handle w2) = (1, 16).
Proof.
  intros Hs Hi Hfull Hne Hv.
  pose proof (chars_whole s1 Hs) as Hc1.
  pose proof (lcd_Print_run s1 w idx dd lat) as R1. cbv zeta in R1.
  rewrite Hc1 in R1.
  destruct R1 as (w1 & Hrun1 & _ & Hv1 & _ & HC1); [lia | exact Hv |].
  assert ((32 <? idx + Z.of_nat (length s1)) = false) as Hover1
      by (apply Z.ltb_ge; lia).
  rewrite Hover1, Hfull in Hv1, HC1.
  change (cursor_of_address (cell_address 32)) with (1, 16) in HC1.
  pose proof (lcd_Print_run s2 w1 32
                (write_cells idx (map u8 (take (Z.to_nat (32 - idx)) s1)) dd) lat) as R2.
  cbv zeta in R2.
  destruct R2 as (w2 & Hrun2 & S2 & Hv2 & HT2 & HC2); [lia | exact Hv1 |].
  assert (length (take (strlen s2) s2) <> O) as Hlen2.
  { destruct s2 as [|c s2]; [exact Hne|]. cbn [strlen] in *.
    destruct (c =? 0); [congruence|]. cbn [take length]. lia. }
  assert ((32 <? 32 + Z.of_nat (length (take (strlen s2) s2))) = true) as Hover2
      by (apply Z.ltb_lt; lia).
  rewrite Hover2 in S2, Hv2, HC2.
  change (Z.to_nat (32 - 32)) with O in S2, Hv2, HT2. rewrite take_0 in S2, Hv2, HT2.
  cbn [map write_cells print_payloads list_inserts app] in S2, Hv2, HT2.
  change (cursor_of_address (cell_address 32)) with (1, 16) in HC2.
  destruct Hv1 as (_ & Hac1 & Hdd1 & _). destruct Hv2 as (_ & Hac2 & Hdd2 & _).
  exists w1, w2.
  split; [exact Hrun1|]. split; [exact Hac1|]. split; [exact HC1|].
  split; [unfold HD44780_Get_Column_Index; rewrite bind_get_handle, HC1; reflexivity|].
  split; [exact Hrun2|].
  split; [apply (sent_by_payloads _ _ _ S2); constructor; [cbn; lia | constructor]|].
  split; [congruence|]. auto.
Qed.

(** X17.  Lines 312-325 against the controller.  CLEAR_DISPLAY and RETURN_HOME
    set the cached cursor to (0, 0) without reading it back, and that is
    where the controller's cursor is after either command.  After
    RETURN_HOME, DDRAM and the mirror are as they were.  After
    CLEAR_DISPLAY every cell of the glass is blank on both sides, but not
    with the same byte: the DDRAM cell holds the space 0x20 and
    HD44780_Read_Character returns 0. *)
Theorem home_commands_on_controller
    (cmd : HD44780_User_Command_List) (w : world lcd) ac dd lat :
  cmd = CLEAR_DISPLAY \/ cmd = RETURN_HOME ->
  PowerState (handle w) = LCD1602_ON ->
  handle_wf (handle w) -> (80 <= length dd)%nat ->
  lcd_view (device w) ac dd lat ->
  exists w',
    HD44780_Transmit_Command cmd w = Ret tt w' /\
    lcd_view (device w') 0 (DDRAM (device w')) lat /\
    Cursor_Position (handle w') = cursor_of_address (AC (device w')) /\
    (cmd = RETURN_HOME ->
     DDRAM (device w') = dd /\ Text (handle w') = Text (handle w)) /\
    (cmd = CLEAR_DISPLAY ->
     forall row column,
       0 <= row < HD44780_NUM_ROWS -> 0 <= column < HD44780_NUM_COLS ->
       HD44780_Read_Character row column w' = Ret 0 w' /\
       DDRAM (device w') !! Z.to_nat (ddram_address row column) = Some 0x20).
Proof.
  intros Hcmd HP Hwf Hdd Hv.
  pose proof Hv as ((_ & _ & _ & _ & _ & Hl) & _ & _ & Hlat). rewrite Hlat in Hl.
  unfold HD44780_Transmit_Command. rewrite bind_get_handle, HP.
  destruct Hcmd as [-> | ->].
  - destruct (lcd_Send_Command 0x01 w ac dd lat Hv) as (w1 & Hrun & Hh & _ & Hd).
    change (lcd_next_AC false (u8 1) ac) with 0 in Hd.
    change (lcd_next_DDRAM false (u8 1) ac dd) with (replicate (length dd) 0x20) in Hd.
    rewrite (bind_Ret _ _ _ _ _ Hrun).
    unfold Clear_Text_Buffer. rewrite bind_modify_handle.
    eexists. split; [reflexivity|].
    cbn [device handle Cursor_Position Text set_Cursor_Position set_Text].
    rewrite Hd. cbn [DDRAM AC lcd_settled].
    split; [apply lcd_view_settled; [lia | exact Hl]|].
    split; [reflexivity|]. split; [discriminate|]. intros _ row column Hr Hc.
    rewrite Read_Character_in_range by assumption.
    cbn [handle Text set_Cursor_Position set_Text].
    assert (handle_wf (handle w1)) as Hwf1
        by (unfold handle_wf; rewrite Hh; exact Hwf).
    rewrite (Clear_Text_Buffer_all _ Hwf1), default_lookup_replicate.
    split; [reflexivity|].
    apply lookup_replicate_2.
    unfold ddram_address, HD44780_NUM_ROWS, HD44780_NUM_COLS in *. lia.
  - destruct (lcd_Send_Command 0x02 w ac dd lat Hv) as (w1 & Hrun & Hh & _ & Hd).
    change (lcd_next_AC false (u8 2) ac) with 0 in Hd.
    change (lcd_next_DDRAM false (u8 2) ac dd) with dd in Hd.
    rewrite (bind_Ret _ _ _ _ _ Hrun).
    eexists. split; [reflexivity|].
    cbn [device handle Cursor_Position Text set_Cursor_Position].
    rewrite Hd, Hh. cbn [DDRAM AC lcd_settled Text set_State].
    split; [apply lcd_view_settled; [lia | exact Hl]|].
    split; [reflexivity|]. split; [auto | discriminate].
Qed.

Lemma on_glass_view d :
  on_glass d ->
  exists idx, 0 <= idx <= 32 /\ lcd_view d (cell_address idx) (DDRAM d) (latency d).
Proof.
  intros (Hr & idx & Hi & Hac). exists idx. unfold lcd_view. auto.
Qed.

Lemma view_on_glass d idx dd lat :
  0 <= idx <= 32 -> lcd_view d (cell_address idx) dd lat -> on_glass d.
Proof. intros Hi (Hr & Hac & _). split; [exact Hr|]. exists idx. auto. Qed.

(** HD44780_Transmit_Command against the controller: where the address
    counter is afterwards. *)
Lemma lcd_Transmit_Command cmd (w : world lcd) ac dd lat :
  lcd_view (device w) ac dd lat ->
  exists w',
    HD44780_Transmit_Command cmd w = Ret tt w' /\
    lcd_ready (device w') /\ latency (device w') = lat /\
    (AC (device w') = ac \/ AC (device w') = 0).
Proof.
  intros Hv.
  pose proof Hv as (Hrest & Hac & Hdd & Hlat).
  pose proof Hrest as (He & Hp & Hr & Hb & Ha & Hl).
  rewrite Hlat in Hl. rewrite Hac in Ha.
  assert (forall c,
             0 <= c < 128 ->
             exists w1,
               HD44780_Send_Command c true w = Ret tt w1 /\
               lcd_ready (device w1) /\ latency (device w1) = lat /\
               (AC (device w1) = ac \/ AC (device w1) = 0)) as Hsend.
  { intros c Hc.
    destruct (lcd_Send_Command c w ac dd lat Hv) as (w1 & Hrun & _ & _ & Hd).
    exists w1. split; [exact Hrun|]. rewrite Hd.
    pose proof (lcd_view_settled (lcd_next_AC false (u8 c) ac)
                  (lcd_next_DDRAM false (u8 c) ac dd) lat
                  (lcd_next_AC_range false (u8 c) ac Ha) Hl) as (Hready & _).
    split; [exact Hready|]. split; [reflexivity|].
    cbn [AC lcd_settled]. unfold lcd_next_AC, u8. rewrite Z.mod_small by lia.
    assert (Z.testbit c 7 = false) as -> by by_cases_below c 128.
    destruct (c =? 1); [auto|]. destruct (Z.land c 254 =? 2); auto. }
  assert (exists w', Ret tt w = Ret tt w' /\
                     lcd_ready (device w') /\ latency (device w') = lat /\
                     (AC (device w') = ac \/ AC (device w') = 0)) as Hnone.
  { exists w. auto. }
  assert (forall b, en_of b = false ->
            exists w',
              (HAL_I2C_Master_Transmit b ;;
               modify_handle (set_PowerState
                                (if backlight_of b then LCD1602_ON else LCD1602_OFF))) w
              = Ret tt w' /\
              lcd_ready (device w') /\ latency (device w') = lat /\
              (AC (device w') = ac \/ AC (device w') = 0)) as Hraw.
  { intros b Hen. rewrite bind_Transmit. eexists. split; [reflexivity|].
    cbn [device bus_write lcd_bus].
    clear Hrest Hv.
    destruct (device w) as [p pe rl ac' dd' br lat'].
    cbn [pins pending read_low busy_reads AC DDRAM latency] in *.
    rewrite lcd_write_low by exact He.
    unfold lcd_ready. cbn [pins pending read_low busy_reads AC DDRAM latency].
    subst. auto 10. }
  unfold HD44780_Transmit_Command. rewrite bind_get_handle.
  destruct (PowerState (handle w)); destruct cmd; try exact Hnone.
  - destruct (Hsend 1 ltac:(lia)) as (w1 & Hrun & Hready & Hlat1 & Hac1).
    rewrite (bind_Ret _ _ _ _ _ Hrun). eexists. split; [reflexivity|].
    cbn [device]. auto.
  - destruct (Hsend 2 ltac:(lia)) as (w1 & Hrun & Hready & Hlat1 & Hac1).
    rewrite (bind_Ret _ _ _ _ _ Hrun). eexists. split; [reflexivity|].
    cbn [device]. auto.
  - exact (Hraw 0 eq_refl).
  - destruct (Hsend 14 ltac:(lia)) as (w1 & Hrun & Hready & Hlat1 & Hac1).
    exists w1. auto.
  - destruct (Hsend 12 ltac:(lia)) as (w1 & Hrun & Hready & Hlat1 & Hac1).
    exists w1. auto.
  - destruct (Hsend 13 ltac:(lia)) as (w1 & Hrun & Hready & Hlat1 & Hac1).
    exists w1. auto.
  - destruct (Hsend 12 ltac:(lia)) as (w1 & Hrun & Hready & Hlat1 & Hac1).
    exists w1. auto.
  - exact (Hraw HD44780_BACKLIGHT eq_refl).
Qed.

(** X18.  All public calls that poll, against the controller.  From a
    controller at rest with its cursor on the glass, HD44780_Init,
    HD44780_Print, HD44780_Set_Cursor_Position and
    HD44780_Transmit_Command return, and leave the controller at rest
    with its cursor on a cell of the glass or just past the last one.
    So the address a status read reports is never one of the addresses
    40 to 63, and the start index of HD44780_Print is at most 32. *)
Theorem cursor_stays_on_glass
    (str : list Z) (row column : Z) (cmd : HD44780_User_Command_List)
    (w : world lcd) :
  on_glass (device w) ->
  0 <= row < 256 -> 0 <= column < 256 ->
  (exists w', HD44780_Init w = Ret true w' /\ on_glass (device w')) /\
  (exists w', HD44780_Print str w = Ret tt w' /\ on_glass (device w')) /\
  (exists w', HD44780_Set_Cursor_Position row column w = Ret tt w' /\
              on_glass (device w')) /\
  (exists w', HD44780_Transmit_Command cmd w = Ret tt w' /\ on_glass (device w')) /\
  (forall idx, AC (device w) = cell_address idx -> 0 <= idx <= 32 ->
     ~ 40 <= AC (device w) < 64 /\
     u8 (fst (cursor_of_address (AC (device w))) * HD44780_NUM_COLS
         + snd (cursor_of_address (AC (device w)))) = idx).
Proof.
  intros Hg Hrow Hcol.
  destruct (on_glass_view _ Hg) as (idx & Hi & Hv).
  split; [|split; [|split; [|split]]].
  - destruct (init_on_controller_run w _ _ _ Hv) as (w' & Hrun & Hv' & _).
    exists w'. split; [exact Hrun|]. apply (view_on_glass _ 0 _ _ ltac:(lia) Hv').
  - pose proof (lcd_Print_run str w idx _ _ Hi Hv) as Hrun. cbv zeta in Hrun.
    destruct Hrun as (w' & Hrun & _ & Hv' & _).
    exists w'. split; [exact Hrun|].
    destruct (32 <? idx + Z.of_nat (length (take (strlen str) str))) eqn:Hover.
    + apply (view_on_glass _ 0 _ _ ltac:(lia) Hv').
    + apply Z.ltb_ge in Hover.
      apply (view_on_glass _ (idx + Z.of_nat (length (take (strlen str) str))) _ _
               ltac:(lia) Hv').
  - destruct (Z_lt_ge_dec row 2) as [Hr | Hr];
      [destruct (Z_lt_ge_dec column 16) as [Hc | Hc]|].
    + destruct (lcd_Set_Cursor_Position row column w _ _ _
                  ltac:(unfold HD44780_NUM_ROWS; lia)
                  ltac:(unfold HD44780_NUM_COLS; lia) Hv)
        as (w' & Hrun & _ & _ & Hd).
      exists w'. split; [exact Hrun|]. rewrite Hd.
      destruct Hv as ((_ & _ & _ & _ & _ & Hl) & _).
      apply (view_on_glass _ (row * 16 + column) (DDRAM (device w))
               (latency (device w))); [lia|].
      rewrite cell_of_position
        by (unfold HD44780_NUM_ROWS, HD44780_NUM_COLS; lia).
      apply lcd_view_settled; [unfold ddram_address; lia | exact Hl].
    + exists w. split; [|exact Hg].
      unfold HD44780_Set_Cursor_Position, HD44780_NUM_ROWS, HD44780_NUM_COLS.
      assert ((column >=? 16) = true) as -> by (apply Z.geb_le; lia).
      rewrite orb_true_r. reflexivity.
    + exists w. split; [|exact Hg].
      unfold HD44780_Set_Cursor_Position, HD44780_NUM_ROWS, HD44780_NUM_COLS.
      assert ((row >=? 2) = true) as -> by (apply Z.geb_le; lia).
      reflexivity.
  - destruct (lcd_Transmit_Command cmd w _ _ _ Hv) as (w' & Hrun & Hready & _ & Hac).
    exists w'. split; [exact Hrun|]. split; [exact Hready|].
    destruct Hac as [Hac | Hac]; [exists idx | exists 0]; auto.
    split; [lia | exact Hac].
  - intros i Hac Hi'. rewrite Hac. split.
    + unfold cell_address. destruct (i <? 16) eqn:E;
        [apply Z.ltb_lt in E | apply Z.ltb_ge in E]; lia.
    + apply index_of_cell. exact Hi'.
Qed.

(** X19.  The example of README.md, for any two rows of text, against
    the controller model: HD44780_Init, HD44780_Print of sixteen
    characters, HD44780_Set_Cursor_Position to (1, 0), HD44780_Print of
    sixteen more.  All four calls return.  Row 0 of the display shows the
    first string and row 1 the second, HD44780_Read_Character returns the
    same characters, and the cached cursor ends at (1, 16).  The
    HD44780_Set_Cursor_Position in the middle moves nothing: the first
    HD44780_Print has already put the controller's cursor on (1, 0). *)
Theorem readme_example (s1 s2 : list Z) (w : world lcd) ac dd lat (column : Z) :
  lcd_view (device w) ac dd lat ->
  handle_wf (handle w) -> (80 <= length dd)%nat ->
  Forall (fun c => c <> 0) s1 -> Forall (fun c => c <> 0) s2 ->
  length s1 = 16%nat -> length s2 = 16%nat ->
  0 <= column < HD44780_NUM_COLS ->
  exists w1 w2 w3 w4 c1 c2,
    HD44780_Init w = Ret true w1 /\
    HD44780_Print s1 w1 = Ret tt w2 /\
    AC (device w2) = ddram_address 1 0 /\
    HD44780_Set_Cursor_Position 1 0 w2 = Ret tt w3 /\
    AC (device w3) = AC (device w2) /\ DDRAM (device w3) = DDRAM (device w2) /\
    HD44780_Print s2 w3 = Ret tt w4 /\
    s1 !! Z.to_nat column = Some c1 /\
    s2 !! Z.to_nat column = Some c2 /\
    HD44780_Read_Character 0 column w4 = Ret c1 w4 /\
    HD44780_Read_Character 1 column w4 = Ret c2 w4 /\
    DDRAM (device w4) !! Z.to_nat (ddram_address 0 column) = Some (u8 c1) /\
    DDRAM (device w4) !! Z.to_nat (ddram_address 1 column) = Some (u8 c2) /\
    Cursor_Position (handle w4) = (1, 16).
Proof.
  intros Hv Hwf Hdd Hs1 Hs2 Hn1 Hn2 Hc.
  pose proof Hv as ((_ & _ & _ & _ & _ & Hl) & _ & _ & Hlat). rewrite Hlat in Hl.
  unfold HD44780_NUM_COLS in Hc.
  destruct (init_on_controller_run w ac dd lat Hv) as (w1 & Hinit & Hv1 & Hh1).
  set (blank := replicate (length dd) 0x20) in *.
  assert (length blank = length dd) as Hblank by apply length_replicate.
  (* first row *)
  pose proof (lcd_Print_run s1 w1 0 blank lat) as R1. cbv zeta in R1.
  rewrite (chars_whole s1 Hs1), Hn1 in R1.
  destruct R1 as (w2 & Hrun1 & _ & Hv2 & HT2 & _); [lia | exact Hv1 |].
  change (32 <? 0 + Z.of_nat 16) with false in Hv2. cbv iota in Hv2.
  change (cell_address (0 + Z.of_nat 16)) with (ddram_address 1 0) in Hv2.
  rewrite take_ge in Hv2, HT2 by (rewrite Hn1; lia).
  (* the cursor command *)
  destruct (lcd_Set_Cursor_Position 1 0 w2 _ _ lat
              ltac:(unfold HD44780_NUM_ROWS; lia)
              ltac:(unfold HD44780_NUM_COLS; lia) Hv2)
    as (w3 & Hset & Hh3 & _ & Hd3).
  assert (lcd_view (device w3) (cell_address 16) (write_cells 0 (map u8 s1) blank) lat)
    as Hv3 by (rewrite Hd3; apply lcd_view_settled; [cbn; lia | exact Hl]).
  (* second row *)
  pose proof (lcd_Print_run s2 w3 16 (write_cells 0 (map u8 s1) blank) lat) as R2.
  cbv zeta in R2. rewrite (chars_whole s2 Hs2), Hn2 in R2.
  destruct R2 as (w4 & Hrun2 & _ & Hv4 & HT4 & HC4); [lia | exact Hv3 |].
  change (32 <? 16 + Z.of_nat 16) with false in Hv4, HC4. cbv iota in Hv4, HC4.
  rewrite take_ge in Hv4, HT4 by (rewrite Hn2; lia).
  change (cursor_of_address (cell_address (16 + Z.of_nat 16))) with (1, 16) in HC4.
  destruct (s1 !! Z.to_nat column) as [c1|] eqn:E1;
    [|apply lookup_ge_None in E1; lia].
  destruct (s2 !! Z.to_nat column) as [c2|] eqn:E2;
    [|apply lookup_ge_None in E2; lia].
  destruct Hv2 as (_ & Hac2 & Hdd2 & _).
  destruct Hv4 as (_ & _ & Hdd4 & _).
  exists w1, w2, w3, w4, c1, c2.
  split; [exact Hinit|]. split; [exact Hrun1|]. split; [exact Hac2|].
  split; [exact Hset|].
  split; [rewrite Hd3, Hac2; reflexivity|].
  split; [rewrite Hd3, Hdd2; reflexivity|].
  split; [exact Hrun2|]. split; [reflexivity|]. split; [reflexivity|].
  assert (length (Text (handle w1)) = 32%nat) as Hwf1 by (rewrite Hh1; exact Hwf).
  assert (Text (handle w4)
          = list_inserts 16 s2 (list_inserts 0 s1 (Text (handle w1)))) as HT.
  { rewrite HT4, Hh3. cbn [Text set_State]. rewrite HT2. reflexivity. }
  rewrite !Read_Character_in_range
    by (unfold HD44780_NUM_ROWS, HD44780_NUM_COLS; lia).
  rewrite HT, Hdd4.
  rewrite <- (cell_of_position 0 column), <- (cell_of_position 1 column)
    by (unfold HD44780_NUM_ROWS, HD44780_NUM_COLS; lia).
  assert (forall idx, 0 <= idx < 32 ->
            list_inserts 16 s2 (list_inserts 0 s1 (Text (handle w1))) !! Z.to_nat idx
            = if idx <? 16 then s1 !! Z.to_nat idx else s2 !! Z.to_nat (idx - 16))
    as Hmirror.
  { intros idx Hi. destruct (idx <? 16) eqn:E;
      [apply Z.ltb_lt in E | apply Z.ltb_ge in E].
    - rewrite list_lookup_inserts_lt by lia.
      rewrite list_lookup_inserts by (rewrite ?length_inserts; lia).
      rewrite Nat.sub_0_r. reflexivity.
    - rewrite list_lookup_inserts by (rewrite ?length_inserts; lia).
      f_equal. lia. }
  assert (forall idx, 0 <= idx < 32 ->
            write_cells 16 (map u8 s2) (write_cells 0 (map u8 s1) blank)
              !! Z.to_nat (cell_address idx)
            = if idx <? 16 then map u8 s1 !! Z.to_nat idx
              else map u8 s2 !! Z.to_nat (idx - 16)) as Hglass.
  { intros idx Hi.
    rewrite write_cells_lookup by (rewrite ?length_map, ?length_write_cells; lia).
    rewrite length_map, Hn2.
    destruct (idx <? 16) eqn:E; [apply Z.ltb_lt in E | apply Z.ltb_ge in E].
    - assert ((16 <=? idx) = false) as -> by (apply Z.leb_gt; lia). cbn [andb].
      rewrite write_cells_lookup by (rewrite ?length_map; lia).
      rewrite length_map, Hn1.
      assert ((0 <=? idx) = true) as -> by (apply Z.leb_le; lia).
      assert ((idx <? 0 + Z.of_nat 16) = true) as -> by (apply Z.ltb_lt; lia).
      cbn [andb]. rewrite Z.sub_0_r. reflexivity.
    - assert ((16 <=? idx) = true) as -> by (apply Z.leb_le; lia).
      assert ((idx <? 16 + Z.of_nat 16) = true) as -> by (apply Z.ltb_lt; lia).
      reflexivity. }
  rewrite !Hmirror, !Hglass by lia.
  assert ((0 * 16 + column <? 16) = true) as -> by (apply Z.ltb_lt; lia).
  assert ((1 * 16 + column <? 16) = false) as -> by (apply Z.ltb_ge; lia).
  replace (0 * 16 + column) with column by lia.
  replace (1 * 16 + column - 16) with column by lia.
  rewrite !list_lookup_fmap, E1, E2. cbn [default fmap option_fmap option_map].
  repeat split; try reflexivity. exact HC4.
Qed.

(** ** The theorems at work *)

Lemma demo_view ac lat :
  0 <= ac < 128 -> (lat < 20)%nat ->
  lcd_view (device (demo_world ac lat)) ac (replicate 128 0x20) lat.
Proof. intros Ha Hl. apply lcd_view_settled; assumption. Qed.

(** C1 as stated fails below address 64: a status read of 40 with the
    busy flag clear gives column 232, not 40 - 64. *)
Lemma address_forty_wraps_column :
  let w := replay_world [0x20; 0x80] in
  let w' := final (HD44780_Get_Cursor_Position w) in
  statuses (emitted w w') = [40] /\
  busy_flag 40 = false /\
  address_of 40 = 40 /\
  Cursor_Position (handle w') = (1, 232) /\
  Cursor_Position (handle w') <> (1, 40 - 64).
Proof. vm_compute. repeat split; discriminate. Qed.

Lemma cursor_translation_witness :
  let w := replay_world [0x40; 0x50] in
  let w' := final (HD44780_Get_Cursor_Position w) in
  statuses (emitted w w') = [0x45] /\
  busy_flag 0x45 = false /\
  Cursor_Position (handle w') = (1, 5).
Proof.
  cbv zeta.
  assert (statuses (emitted (replay_world [0x40; 0x50])
                      (final (HD44780_Get_Cursor_Position (replay_world [0x40; 0x50]))))
          = [0x45]) as H1 by (vm_compute; reflexivity).
  assert (busy_flag 0x45 = false) as H2 by reflexivity.
  destruct (cursor_translation (replay_world [0x40; 0x50]) 0x45 H1 H2)
    as (_ & _ & _ & _ & _ & H64 & _).
  split; [exact H1|]. split; [exact H2|].
  apply H64. vm_compute. discriminate.
Defined.

Lemma set_cursor_reads_back_witness :
  0 <= 1 < HD44780_NUM_ROWS /\ 0 <= 5 < HD44780_NUM_COLS /\
  lcd_view (device (demo_world 0 2)) 0 (replicate 128 0x20) 2 /\
  exists w1 w2,
    HD44780_Set_Cursor_Position 1 5 (demo_world 0 2) = Ret tt w1 /\
    HD44780_Check_Status w1 = Ret tt w2 /\
    AddressCounter w2 = 0x45 /\
    cursor_of_address (AddressCounter w2) = (1, 5).
Proof.
  assert (0 <= 1 < HD44780_NUM_ROWS) as Hr by (unfold HD44780_NUM_ROWS; lia).
  assert (0 <= 5 < HD44780_NUM_COLS) as Hc by (unfold HD44780_NUM_COLS; lia).
  assert (lcd_view (device (demo_world 0 2)) 0 (replicate 128 0x20) 2) as Hv
      by (apply demo_view; lia).
  split; [exact Hr|]. split; [exact Hc|]. split; [exact Hv|].
  destruct (set_cursor_reads_back 1 5 (demo_world 0 2) 0 (replicate 128 0x20) 2 Hr Hc Hv)
    as (w1 & w2 & Hset & _ & Hcheck & _ & _ & Ha & Hback & _).
  exists w1, w2. auto.
Defined.

(** C3 as stated fails for data: a data frame is five writes. *)
Lemma send_data_issues_five_writes :
  let w := replay_world [] in
  tx_bytes (emitted w (final (HD44780_Send_Data 0x41 false w))) = [9; 77; 73; 29; 25] /\
  length (tx_bytes (emitted w (final (HD44780_Send_Data 0x41 false w)))) <> 4%nat.
Proof. vm_compute. split; [reflexivity | discriminate]. Qed.

Lemma timeout_escalation_witness :
  let w := demo_world 0 25 in
  let o := HD44780_Send_Command 0x01 true w in
  Forall (fun st => busy_flag st = true) (statuses (emitted w (final o))) /\
  o = Spin (final o) /\
  State (handle (final o)) = HD44780_TIMEOUT /\
  handler_entries (emitted w (final o)) = 1%nat.
Proof.
  cbv zeta.
  assert (Forall (fun st => busy_flag st = true)
            (statuses (emitted (demo_world 0 25)
                         (final (HD44780_Send_Command 0x01 true (demo_world 0 25))))))
    as Hbusy by (vm_compute; repeat constructor).
  destruct (timeout_escalation false 0x01 (demo_world 0 25) Hbusy)
    as (_ & Hspin & Hstate & Hentries & _).
  auto.
Defined.

Lemma print_continues_on_second_row_witness :
  lcd_view (device (demo_world 10 1)) 10 (replicate 128 0x20) 1 /\
  0 <= 10 < HD44780_NUM_COLS /\
  HD44780_NUM_COLS <= 10 + Z.of_nat (length (take (strlen demo_string) demo_string)) /\
  exists w',
    HD44780_Print demo_string (demo_world 10 1) = Ret tt w' /\
    Text (handle w') =
      list_inserts 10 (take (strlen demo_string) demo_string) (replicate 32 0) /\
    Cursor_Position (handle w') = (1, 14).
Proof.
  assert (lcd_view (device (demo_world 10 1)) 10 (replicate 128 0x20) 1) as Hv
      by (apply demo_view; lia).
  assert (0 <= 10 < HD44780_NUM_COLS) as Hc by (unfold HD44780_NUM_COLS; lia).
  assert (HD44780_NUM_COLS
          <= 10 + Z.of_nat (length (take (strlen demo_string) demo_string)))
    as Hn by (vm_compute; discriminate).
  assert (10 + Z.of_nat (length (take (strlen demo_string) demo_string))
          <= HD44780_NUM_ELEMENTS) as Hroom by (vm_compute; discriminate).
  split; [exact Hv|]. split; [exact Hc|]. split; [exact Hn|].
  destruct (print_continues_on_second_row demo_string (demo_world 10 1) 10
              (replicate 128 0x20) 1 Hv Hc Hn)
    as (w' & Hrun & _ & _ & HT & Hcur).
  destruct (Hcur Hroom) as (_ & _ & Hcursor).
  exists w'. split; [exact Hrun|]. split; [exact HT | exact Hcursor].
Defined.

Lemma print_truncates_witness :
  let w := demo_world 0x48 0 in
  lcd_view (device w) 0x48 (replicate 128 0x20) 0 /\
  take (strlen demo_string) demo_string <> [] /\
  exists w',
    HD44780_Print demo_string w = Ret tt w' /\
    Text (handle w') =
      list_inserts 24 (take 8 (take (strlen demo_string) demo_string))
                   (replicate 32 0) /\
    AC (device w') = 0 /\
    Cursor_Position (handle w') = (1, 8).
Proof.
  cbv zeta.
  assert (lcd_view (device (demo_world 0x48 0)) 0x48 (replicate 128 0x20) 0) as Hv
      by (apply lcd_view_settled; lia).
  assert (take (strlen demo_string) demo_string <> []) as Hne
      by (vm_compute; discriminate).
  assert (u8 (fst (cursor_of_address 0x48) * HD44780_NUM_COLS
              + snd (cursor_of_address 0x48))
          + Z.of_nat (length (take (strlen demo_string) demo_string)) - 1
          > HD44780_NUM_ELEMENTS - 1) as Hover
      by (vm_compute; reflexivity).
  split; [exact Hv|]. split; [exact Hne|].
  destruct (print_truncates demo_string (demo_world 0x48 0) 0x48
              (replicate 128 0x20) 0 Hv Hne Hover)
    as (w' & Hrun & _ & HT & _ & Hz & Hcur).
  exists w'. split; [exact Hrun|]. split; [exact HT|].
  split; [exact Hz | exact Hcur].
Defined.

Lemma clear_display_resets_witness :
  let w := final (HD44780_Print demo_string (demo_world 0 3)) in
  PowerState (handle w) = LCD1602_ON /\
  handle_wf (handle w) /\
  lcd_view (device w) 0x44 (DDRAM (device w)) 3 /\
  HD44780_Read_Character 0 3 w = Ret 68 w /\
  exists w',
    HD44780_Transmit_Command CLEAR_DISPLAY w = Ret tt w' /\
    HD44780_Read_Character 0 3 w' = Ret 0 w' /\
    HD44780_Get_Row_Index w' = Ret 0 w' /\
    HD44780_Get_Column_Index w' = Ret 0 w'.
Proof.
  cbv zeta.
  set (w := final (HD44780_Print demo_string (demo_world 0 3))).
  assert (PowerState (handle w) = LCD1602_ON) as HP by (vm_compute; reflexivity).
  assert (handle_wf (handle w)) as Hwf by (vm_compute; reflexivity).
  assert (device w = lcd_settled 0x44 (DDRAM (device w)) 3) as Hd
      by (vm_compute; reflexivity).
  assert (lcd_view (device w) 0x44 (DDRAM (device w)) 3) as Hv.
  { pose proof (lcd_view_settled 0x44 (DDRAM (device w)) 3
                  ltac:(lia) ltac:(lia)) as Hs.
    rewrite <- Hd in Hs. exact Hs. }
  split; [exact HP|]. split; [exact Hwf|]. split; [exact Hv|].
  split; [vm_compute; reflexivity|].
  destruct (clear_display_resets w 0x44 (DDRAM (device w)) 3 HP Hwf Hv)
    as (w' & Hrun & _ & _ & Hread & Hrow & Hcol).
  exists w'. split; [exact Hrun|].
  split; [apply Hread|]. split; [exact Hrow | exact Hcol].
Defined.

Lemma out_of_range_no_op_witness :
  (2 >= HD44780_NUM_ROWS \/ 0 >= HD44780_NUM_COLS) /\
  HD44780_Set_Cursor_Position 2 0 (demo_world 0 0) = Ret tt (demo_world 0 0) /\
  HD44780_Read_Character 2 0 (demo_world 0 0) = Ret 0 (demo_world 0 0).
Proof.
  assert (2 >= HD44780_NUM_ROWS \/ 0 >= HD44780_NUM_COLS) as Hout
      by (left; unfold HD44780_NUM_ROWS; lia).
  destruct (out_of_range_no_op 2 0 (demo_world 0 0) Hout) as (Hset & Hread & _).
  auto.
Defined.

Lemma set_cursor_keeps_cache_witness :
  let w := final (HD44780_Print demo_string (demo_world 0 2)) in
  let w' := final (HD44780_Set_Cursor_Position 0 3 w) in
  0 <= 0 < HD44780_NUM_ROWS /\ 0 <= 3 < HD44780_NUM_COLS /\
  Cursor_Position (handle w) = (1, 4) /\
  payloads (emitted w w') = [Instruction 0x83] /\
  HD44780_Get_Row_Index w' = Ret 1 w' /\
  HD44780_Get_Column_Index w' = Ret 4 w'.
Proof.
  cbv zeta.
  set (w := final (HD44780_Print demo_string (demo_world 0 2))).
  assert (0 <= 0 < HD44780_NUM_ROWS) as Hr by (unfold HD44780_NUM_ROWS; lia).
  assert (0 <= 3 < HD44780_NUM_COLS) as Hc by (unfold HD44780_NUM_COLS; lia).
  assert (Cursor_Position (handle w) = (1, 4)) as Hcp by (vm_compute; reflexivity).
  destruct (set_cursor_keeps_cache 0 3 w Hr Hc)
    as (Hpay & _ & _ & _ & Hrow & Hcol & _).
  rewrite Hcp in Hrow, Hcol.
  split; [exact Hr|]. split; [exact Hc|]. split; [exact Hcp|].
  split; [exact Hpay|]. split; [exact Hrow | exact Hcol].
Defined.


Lemma init_reset_sequence_witness :
  let w := demo_world 0x45 1 in
  let w' := final (HD44780_Init w) in
  fst (bus_probe (device w)) = true /\
  HD44780_Init w = Ret true w' /\
  Cursor_Position (handle w') = (0, 0) /\
  PowerState (handle w') = LCD1602_ON /\
  State (handle w') = HD44780_READY.
Proof.
  cbv zeta.
  assert (fst (bus_probe (device (demo_world 0x45 1))) = true) as Hp by reflexivity.
  assert (returned (HD44780_Init (demo_world 0x45 1)) = true) as Hr
      by (vm_compute; reflexivity).
  pose proof (init_reset_sequence (demo_world 0x45 1)) as Hinit.
  cbv zeta in Hinit. destruct Hinit as (_ & Hok).
  destruct (Hok Hp) as (_ & _ & _ & Hc & _ & Hend).
  rewrite Hr in Hend. destruct Hend as (Hrun & HP & HS).
  split; [exact Hp|]. split; [exact Hrun|]. split; [exact Hc|].
  split; [exact HP | exact HS].
Defined.

Lemma animate_text_scrolls_witness :
  let w := lettered_world in
  let w' := final (HD44780_Animate_Text 2 w) in
  0 <= 2 < 256 /\
  HD44780_Read_Character 0 0 w = Ret 65 w /\
  HD44780_Animate_Text 2 w = Ret tt w' /\
  payloads (emitted w w') = replicate 80 (Instruction 0x1C) /\
  elapsed (emitted w w') = 8320.
Proof.
  cbv zeta.
  assert (0 <= 2 < 256) as Hn by lia.
  assert (HD44780_Read_Character 0 0 lettered_world = Ret 65 lettered_world) as Hread
      by reflexivity.
  destruct (animate_text_scrolls 2 lettered_world Hn) as (Hrun & _ & Hscroll & _).
  destruct (Hscroll 0 0 65 ltac:(unfold HD44780_NUM_ROWS; lia)
              ltac:(unfold HD44780_NUM_COLS; lia) Hread ltac:(lia))
    as (_ & Hp & He).
  split; [exact Hn|]. split; [exact Hread|]. split; [exact Hrun|].
  split; [exact Hp | exact He].
Defined.

Lemma command_table_witness :
  let w := demo_world 0x45 1 in
  let w' := final (HD44780_Transmit_Command RETURN_HOME w) in
  PowerState (handle w) = LCD1602_ON /\
  HD44780_Transmit_Command RETURN_HOME w = Ret tt w' /\
  payloads (emitted w w') = [Instruction 0x02] /\
  Cursor_Position (handle w') = (0, 0).
Proof.
  cbv zeta.
  assert (PowerState (handle (demo_world 0x45 1)) = LCD1602_ON) as HP by reflexivity.
  assert (HD44780_Transmit_Command RETURN_HOME (demo_world 0x45 1)
          = Ret tt (final (HD44780_Transmit_Command RETURN_HOME (demo_world 0x45 1))))
    as Hrun by (vm_compute; reflexivity).
  destruct (command_table RETURN_HOME (demo_world 0x45 1) _ HP Hrun)
    as (Hp & Hc & _).
  split; [exact HP|]. split; [exact Hrun|]. split; [exact Hp | exact Hc].
Defined.

Lemma print_then_read_witness :
  let w := demo_world 10 1 in
  let w' := final (HD44780_Print demo_string w) in
  handle_wf (handle w) /\
  HD44780_Print demo_string w = Ret tt w' /\
  0 <= 1 < HD44780_NUM_ROWS /\ 0 <= 0 < HD44780_NUM_COLS /\
  HD44780_Read_Character 1 0 w' = Ret 71 w'.
Proof.
  cbv zeta.
  assert (handle_wf (handle (demo_world 10 1))) as Hwf by reflexivity.
  assert (HD44780_Print demo_string (demo_world 10 1)
          = Ret tt (final (HD44780_Print demo_string (demo_world 10 1)))) as Hrun
      by (vm_compute; reflexivity).
  assert (0 <= 1 < HD44780_NUM_ROWS) as Hr by (unfold HD44780_NUM_ROWS; lia).
  assert (0 <= 0 < HD44780_NUM_COLS) as Hc by (unfold HD44780_NUM_COLS; lia).
  destruct (print_then_read demo_string (demo_world 10 1) _ 1 0 Hwf Hrun Hr Hc)
    as (_ & Hread).
  split; [exact Hwf|]. split; [exact Hrun|]. split; [exact Hr|]. split; [exact Hc|].
  rewrite Hread. f_equal.
Defined.

Lemma print_empty_string_witness :
  let w := demo_world 0x45 1 in
  let w' := final (HD44780_Print [0] w) in
  strlen [0] = O /\
  HD44780_Print [0] w = Ret tt w' /\
  strobes (emitted w w') = [] /\
  Cursor_Position (handle w') = (1, 5).
Proof.
  cbv zeta.
  assert (strlen [0] = O) as Hlen by reflexivity.
  destruct (print_empty_string [0] (demo_world 0x45 1) Hlen)
    as (Hrun & Hs & _ & _ & _ & _ & Hc & _).
  split; [exact Hlen|]. split; [exact Hrun|]. split; [exact Hs|].
  rewrite Hc. vm_compute. reflexivity.
Defined.

Lemma init_on_controller_witness :
  lcd_view (device (demo_world 0x45 1)) 0x45 (replicate 128 0x20) 1 /\
  exists w',
    HD44780_Init (demo_world 0x45 1) = Ret true w' /\
    AC (device w') = 0 /\
    Cursor_Position (handle w') = (0, 0).
Proof.
  assert (lcd_view (device (demo_world 0x45 1)) 0x45 (replicate 128 0x20) 1) as Hv
      by (apply demo_view; lia).
  split; [exact Hv|].
  destruct (init_on_controller (demo_world 0x45 1) 0x45 (replicate 128 0x20) 1 Hv)
    as (w' & Hrun & (_ & Hac & _) & _ & _ & Hc & _).
  exists w'. split; [exact Hrun|]. split; [exact Hac | exact Hc].
Defined.

Lemma mirror_agrees_with_display_witness :
  lcd_view (device (demo_world 0 1)) 0 (replicate 128 0x20) 1 /\
  handle_wf (handle (demo_world 0 1)) /\
  (80 <= length (replicate 128 0x20))%nat /\
  exists w1 w',
    HD44780_Set_Cursor_Position 0 10 (demo_world 0 1) = Ret tt w1 /\
    HD44780_Print demo_string w1 = Ret tt w' /\
    HD44780_Read_Character 1 0 w' = Ret 71 w' /\
    DDRAM (device w') !! Z.to_nat (ddram_address 1 0) = Some 71.
Proof.
  assert (lcd_view (device (demo_world 0 1)) 0 (replicate 128 0x20) 1) as Hv
      by (apply demo_view; lia).
  assert (handle_wf (handle (demo_world 0 1))) as Hwf by reflexivity.
  assert (80 <= length (replicate 128 0x20))%nat as Hdd
      by (rewrite length_replicate; lia).
  split; [exact Hv|]. split; [exact Hwf|]. split; [exact Hdd|].
  destruct (mirror_agrees_with_display demo_string (demo_world 0 1) 0
              (replicate 128 0x20) 1 0 10 1 0 Hv Hwf Hdd
              ltac:(unfold HD44780_NUM_ROWS; lia) ltac:(unfold HD44780_NUM_COLS; lia)
              ltac:(unfold HD44780_NUM_ROWS; lia) ltac:(unfold HD44780_NUM_COLS; lia))
    as (w1 & w' & Hset & Hrun & Hcell).
  cbn in Hcell. destruct Hcell as (c & [= <-] & Hread & Hcell).
  exists w1, w'. auto.
Defined.

Lemma print_appends_witness :
  Forall (fun c => c <> 0) row_string /\
  0 <= 10 /\ 10 + Z.of_nat (length row_string) <= 32 /\
  lcd_view (device (demo_world 10 1)) (cell_address 10) (replicate 128 0x20) 1 /\
  exists w1 w2 w12,
    HD44780_Print row_string (demo_world 10 1) = Ret tt w1 /\
    HD44780_Print demo_string w1 = Ret tt w2 /\
    HD44780_Print (row_string ++ demo_string) (demo_world 10 1) = Ret tt w12 /\
    DDRAM (device w2) = DDRAM (device w12) /\
    Text (handle w2) = Text (handle w12).
Proof.
  assert (Forall (fun c => c <> 0) row_string) as Hs
      by (repeat constructor; discriminate).
  assert (0 <= 10) as Hi by lia.
  assert (10 + Z.of_nat (length row_string) <= 32) as Hfit by (cbn; lia).
  assert (lcd_view (device (demo_world 10 1)) (cell_address 10) (replicate 128 0x20) 1)
    as Hv by (apply demo_view; cbn; lia).
  split; [exact Hs|]. split; [exact Hi|]. split; [exact Hfit|]. split; [exact Hv|].
  destruct (print_appends row_string demo_string (demo_world 10 1) 10
              (replicate 128 0x20) 1 Hs Hi Hfit Hv)
    as (w1 & w2 & w12 & H1 & H2 & H12 & Hdd & _ & HT & _).
  exists w1, w2, w12. auto.
Defined.

Lemma print_on_full_display_witness :
  Forall (fun c => c <> 0) row_string /\
  0 <= 16 /\ 16 + Z.of_nat (length row_string) = 32 /\
  strlen demo_string <> O /\
  lcd_view (device (demo_world 0x40 1)) (cell_address 16) (replicate 128 0x20) 1 /\
  exists w1 w2,
    HD44780_Print row_string (demo_world 0x40 1) = Ret tt w1 /\
    HD44780_Get_Column_Index w1 = Ret 16 w1 /\
    HD44780_Print demo_string w1 = Ret tt w2 /\
    payloads (emitted w1 w2) = [Instruction 0x80] /\
    Text (handle w2) = Text (handle w1).
Proof.
  assert (Forall (fun c => c <> 0) row_string) as Hs
      by (repeat constructor; discriminate).
  assert (0 <= 16) as Hi by lia.
  assert (16 + Z.of_nat (length row_string) = 32) as Hfull by reflexivity.
  assert (strlen demo_string <> O) as Hne by (cbn; discriminate).
  assert (lcd_view (device (demo_world 0x40 1)) (cell_address 16) (replicate 128 0x20) 1)
    as Hv by (apply demo_view; cbn; lia).
  split; [exact Hs|]. split; [exact Hi|]. split; [exact Hfull|].
  split; [exact Hne|]. split; [exact Hv|].
  destruct (print_on_full_display row_string demo_string (demo_world 0x40 1) 16
              (replicate 128 0x20) 1 Hs Hi Hfull Hne Hv)
    as (w1 & w2 & H1 & _ & _ & Hcol & H2 & Hp & _ & HT & _).
  exists w1, w2. auto.
Defined.

Lemma home_commands_on_controller_witness :
  (CLEAR_DISPLAY = CLEAR_DISPLAY \/ CLEAR_DISPLAY = RETURN_HOME) /\
  PowerState (handle inked_world) = LCD1602_ON /\
  handle_wf (handle inked_world) /\
  (80 <= length (replicate 128 0x41))%nat /\
  lcd_view (device inked_world) 0x45 (replicate 128 0x41) 1 /\
  exists w',
    HD44780_Transmit_Command CLEAR_DISPLAY inked_world = Ret tt w' /\
    Cursor_Position (handle w') = (0, 0) /\
    HD44780_Read_Character 1 3 w' = Ret 0 w' /\
    DDRAM (device w') !! Z.to_nat (ddram_address 1 3) = Some 0x20.
Proof.
  assert (CLEAR_DISPLAY = CLEAR_DISPLAY \/ CLEAR_DISPLAY = RETURN_HOME) as Hcmd
      by (left; reflexivity).
  assert (PowerState (handle inked_world) = LCD1602_ON) as HP by reflexivity.
  assert (handle_wf (handle inked_world)) as Hwf by reflexivity.
  assert (80 <= length (replicate 128 0x41))%nat as Hdd
      by (rewrite length_replicate; lia).
  assert (lcd_view (device inked_world) 0x45 (replicate 128 0x41) 1) as Hv
      by (apply lcd_view_settled; lia).
  split; [exact Hcmd|]. split; [exact HP|]. split; [exact Hwf|].
  split; [exact Hdd|]. split; [exact Hv|].
  destruct (home_commands_on_controller CLEAR_DISPLAY inked_world
              0x45 (replicate 128 0x41) 1 Hcmd HP Hwf Hdd Hv)
    as (w' & Hrun & (_ & Hac & _) & Hc & _ & Hclear).
  destruct (Hclear eq_refl 1 3 ltac:(unfold HD44780_NUM_ROWS; lia)
              ltac:(unfold HD44780_NUM_COLS; lia)) as (Hread & Hcell).
  exists w'. split; [exact Hrun|]. split; [rewrite Hc, Hac; reflexivity|].
  split; [exact Hread | exact Hcell].
Defined.

Lemma cursor_stays_on_glass_witness :
  on_glass (device (demo_world 0x45 1)) /\
  0 <= 1 < 256 /\ 0 <= 200 < 256 /\
  (exists w', HD44780_Print demo_string (demo_world 0x45 1) = Ret tt w' /\
              on_glass (device w')) /\
  (exists w', HD44780_Set_Cursor_Position 1 200 (demo_world 0x45 1) = Ret tt w' /\
              on_glass (device w')).
Proof.
  assert (on_glass (device (demo_world 0x45 1))) as Hg.
  { split; [apply lcd_view_settled; lia|]. exists 21. split; [lia | reflexivity]. }
  assert (0 <= 1 < 256) as Hr by lia.
  assert (0 <= 200 < 256) as Hc by lia.
  destruct (cursor_stays_on_glass demo_string 1 200 RETURN_HOME (demo_world 0x45 1)
              Hg Hr Hc) as (_ & Hprint & Hset & _).
  auto.
Defined.

Lemma readme_example_witness :
  lcd_view (device inked_world) 0x45 (replicate 128 0x41) 1 /\
  handle_wf (handle inked_world) /\
  (80 <= length (replicate 128 0x41))%nat /\
  Forall (fun c => c <> 0) hello_row1 /\ Forall (fun c => c <> 0) hello_row2 /\
  length hello_row1 = 16%nat /\ length hello_row2 = 16%nat /\
  0 <= 15 < HD44780_NUM_COLS /\
  exists w1 w2 w3 w4,
    HD44780_Init inked_world = Ret true w1 /\
    HD44780_Print hello_row1 w1 = Ret tt w2 /\
    HD44780_Set_Cursor_Position 1 0 w2 = Ret tt w3 /\
    HD44780_Print hello_row2 w3 = Ret tt w4 /\
    HD44780_Read_Character 0 15 w4 = Ret 49 w4 /\
    HD44780_Read_Character 1 15 w4 = Ret 50 w4 /\
    DDRAM (device w4) !! Z.to_nat (ddram_address 0 15) = Some 49 /\
    DDRAM (device w4) !! Z.to_nat (ddram_address 1 15) = Some 50.
Proof.
  assert (lcd_view (device inked_world) 0x45 (replicate 128 0x41) 1) as Hv
      by (apply lcd_view_settled; lia).
  assert (handle_wf (handle inked_world)) as Hwf by reflexivity.
  assert (80 <= length (replicate 128 0x41))%nat as Hdd
      by (rewrite length_replicate; lia).
  assert (Forall (fun c => c <> 0) hello_row1) as Hs1
      by (repeat constructor; discriminate).
  assert (Forall (fun c => c <> 0) hello_row2) as Hs2
      by (repeat constructor; discriminate).
  assert (length hello_row1 = 16%nat) as Hn1 by reflexivity.
  assert (length hello_row2 = 16%nat) as Hn2 by reflexivity.
  assert (0 <= 15 < HD44780_NUM_COLS) as Hc by (unfold HD44780_NUM_COLS; lia).
  split; [exact Hv|]. split; [exact Hwf|]. split; [exact Hdd|].
  split; [exact Hs1|]. split; [exact Hs2|]. split; [exact Hn1|].
  split; [exact Hn2|]. split; [exact Hc|].
  destruct (readme_example hello_row1 hello_row2 inked_world 0x45
              (replicate 128 0x41) 1 15 Hv Hwf Hdd Hs1 Hs2 Hn1 Hn2 Hc)
    as (w1 & w2 & w3 & w4 & c1 & c2 & Hinit & Hp1 & _ & Hset & _ & _ & Hp2
        & E1 & E2 & Hr1 & Hr2 & Hd1 & Hd2 & _).
  injection E1 as <-. injection E2 as <-.
  exists w1, w2, w3, w4. auto 10.
Defined.
